(** * CTFdCLI: the API client and the profile store, embedded and verified

    Shallow embedding of [ctfdcli/core/api_client.py] (class [CTFdClient])
    and [ctfdcli/core/config.py] (class [ConfigManager]).

    Python strings are [string]; decoded JSON documents are the inductive
    type [json] (numbers are the integers: no claim below depends on a
    fractional number); dictionaries are association lists in insertion
    order with unique keys.  Exceptions are explicit: every operation that
    can raise returns a [result].  The remote platform is a deterministic
    function from the history of requests and the current request to the
    outcome of [requests.Session.request]; the client threads the log of
    requests it has issued, so that the number of HTTP calls of a run is the
    length of the log.

    A character of a [string] is a code point below U+0100 (ASCII and
    Latin-1): the string methods are those of Python on such text, and the
    statements about case are statements about such text.

    [submit_flag] prints its progress through [rich]'s console, which
    parses the text it is given as markup and raises [MarkupError] on a
    closing tag that closes nothing; since the text contains the flag and
    the error message, the console is part of the model there.  The
    profile store prints a line on its error paths as well; the model of
    the store leaves the console out and describes what its methods
    return when those lines print. *)

From Stdlib Require Import ZArith List String Ascii Bool Lia DecimalString.
Import ListNotations.
Set Warnings "-register-all".
Local Open Scope string_scope.
Local Open Scope Z_scope.

(** ** Python string methods used by the client *)

Module PyStr.

(** [s.startswith(p)] *)
Definition startswith (s p : string) : bool := String.prefix p s.

(** [needle in hay] *)
Fixpoint contains (needle hay : string) : bool :=
  if String.prefix needle hay then true
  else match hay with
       | EmptyString => false
       | String _ rest => contains needle rest
       end.

(** [s.lstrip(c)] for a one-character argument *)
Fixpoint lstrip (c : ascii) (s : string) : string :=
  match s with
  | EmptyString => EmptyString
  | String a rest => if Ascii.eqb a c then lstrip c rest else s
  end.

(** [s.rstrip(c)] for a one-character argument *)
Fixpoint rstrip (c : ascii) (s : string) : string :=
  match s with
  | EmptyString => EmptyString
  | String a rest =>
      match rstrip c rest with
      | EmptyString => if Ascii.eqb a c then EmptyString else String a EmptyString
      | kept => String a kept
      end
  end.

(** [ch.lower()] for a character below U+0100: the capital letters are
    A to Z (65 to 90) and, in Latin-1, U+00C0 to U+00DE without the
    multiplication sign U+00D7 (192 to 214 and 216 to 222); each has its
    small letter 32 places higher, and every other character is its own
    lower case. *)
Definition lower_ascii (a : ascii) : ascii :=
  let n := nat_of_ascii a in
  if ((Nat.leb 65 n && Nat.leb n 90)
      || (Nat.leb 192 n && Nat.leb n 214)
      || (Nat.leb 216 n && Nat.leb n 222))%bool
  then ascii_of_nat (n + 32) else a.

(** [s.lower()], character by character *)
Fixpoint lower (s : string) : string :=
  match s with
  | EmptyString => EmptyString
  | String a rest => String (lower_ascii a) (lower rest)
  end.

(** [str(n)] for an integer *)
Definition of_Z (n : Z) : string := NilZero.string_of_int (Z.to_int n).

(** the characters of a string, as [for ch in s] yields them *)
Fixpoint chars (s : string) : list string :=
  match s with
  | EmptyString => []
  | String a rest => String a EmptyString :: chars rest
  end.

End PyStr.

(** ** Decoded JSON values and the dynamic operations applied to them *)

Inductive json : Type :=
| JNull
| JBool (b : bool)
| JNum (n : Z)
| JStr (s : string)
| JArr (items : list json)
| JObj (fields : list (string * json)).

Inductive exn : Type :=
| CTFdAPIError (msg : string)
| AttributeError
| KeyError (key : string)
| TypeError
| ValidationError
| OSError
| MarkupError.

Inductive result (A : Type) : Type :=
| Ok (a : A)
| Raise (e : exn).
Arguments Ok {A} a.
Arguments Raise {A} e.

Definition is_dict (v : json) : bool :=
  match v with JObj _ => true | _ => false end.

(** [v == s] for a string literal [s] *)
Definition eq_str (v : json) (s : string) : bool :=
  match v with JStr t => String.eqb t s | _ => false end.

(** Python truthiness, [bool(v)] *)
Definition truthy (v : json) : bool :=
  match v with
  | JNull => false
  | JBool b => b
  | JNum n => negb (n =? 0)
  | JStr s => negb (String.eqb s "")
  | JArr l => match l with [] => false | _ => true end
  | JObj kv => match kv with [] => false | _ => true end
  end.

Fixpoint assoc {V : Type} (k : string) (kv : list (string * V)) : option V :=
  match kv with
  | [] => None
  | (k', v) :: rest => if String.eqb k' k then Some v else assoc k rest
  end.

(** [v.get(k, dflt)]: only dictionaries have the method *)
Definition py_get (v : json) (k : string) (dflt : json) : result json :=
  match v with
  | JObj kv => Ok (match assoc k kv with Some x => x | None => dflt end)
  | _ => Raise AttributeError
  end.

(** [v[k]] for a string key *)
Definition py_getitem (v : json) (k : string) : result json :=
  match v with
  | JObj kv => match assoc k kv with Some x => Ok x | None => Raise (KeyError k) end
  | _ => Raise TypeError
  end.

(** [k in v] for a string literal [k] *)
Definition py_in (k : string) (v : json) : result bool :=
  match v with
  | JObj kv => Ok (match assoc k kv with Some _ => true | None => false end)
  | JArr l => Ok (existsb (fun x => eq_str x k) l)
  | JStr s => Ok (PyStr.contains k s)
  | _ => Raise TypeError
  end.

(** what [for x in v] iterates over *)
Definition py_iter (v : json) : result (list json) :=
  match v with
  | JArr l => Ok l
  | JObj kv => Ok (map (fun p => JStr (fst p)) kv)
  | JStr s => Ok (map JStr (PyStr.chars s))
  | _ => Raise TypeError
  end.

(** The integer a number or a boolean stands for in a comparison. *)
Definition as_number (v : json) : option Z :=
  match v with
  | JNum n => Some n
  | JBool b => Some (if b then 1 else 0)
  | _ => None
  end.

(** [a == b] on decoded JSON values: booleans compare as the integers 0
    and 1, lists element by element, dictionaries key by key. *)
Fixpoint py_eq (a b : json) : bool :=
  match a with
  | JNull => match b with JNull => true | _ => false end
  | JBool x =>
      match as_number b with
      | Some n => (if x then 1 else 0) =? n
      | None => false
      end
  | JNum x =>
      match as_number b with
      | Some n => x =? n
      | None => false
      end
  | JStr s => match b with JStr t => String.eqb s t | _ => false end
  | JArr l =>
      match b with
      | JArr m =>
          (fix all2 (l m : list json) : bool :=
             match l, m with
             | [], [] => true
             | x :: l', y :: m' => py_eq x y && all2 l' m'
             | _, _ => false
             end) l m
      | _ => false
      end
  | JObj d =>
      match b with
      | JObj e =>
          Nat.eqb (List.length d) (List.length e)
          && (fix each (d : list (string * json)) : bool :=
                match d with
                | [] => true
                | (k, v) :: d' =>
                    match assoc k e with
                    | Some w => py_eq v w
                    | None => false
                    end && each d'
                end) d
      | _ => false
      end
  end.

(** [len(v)] *)
Definition py_len (v : json) : result Z :=
  match v with
  | JArr l => Ok (Z.of_nat (List.length l))
  | JObj kv => Ok (Z.of_nat (List.length kv))
  | JStr s => Ok (Z.of_nat (String.length s))
  | _ => Raise TypeError
  end.

(** Lists and dictionaries cannot be dictionary keys. *)
Definition hashable (v : json) : bool :=
  match v with
  | JArr _ | JObj _ => false
  | _ => true
  end.

(** ** The HTTP transport as the client sees it *)

Record request : Type := mkRequest {
  req_method : string;
  req_url : string;
  req_json : option json
}.

(** [response.content]: empty, a JSON document, or bytes that [response.json()]
    rejects.  In the latter case the flag tells whether the decoding error
    is a [requests.exceptions.RequestException] (as in recent versions of
    the library) or only a [ValueError]. *)
Inductive body : Type :=
| EmptyBody
| JsonBody (doc : json)
| NotJson (is_request_exception : bool) (msg : string).

Record response : Type := mkResponse {
  status_code : Z;
  reason : string;
  url : string;
  content : body
}.

(** What [session.request] does: raise a [RequestException] whose text is
    [msg], or return a response. *)
Inductive outcome : Type :=
| Failed (msg : string)
| Answered (r : response).

(** [response.raise_for_status()]: [Some msg] when it raises [HTTPError(msg)] *)
Definition raise_for_status (r : response) : option string :=
  if (400 <=? status_code r) && (status_code r <? 500) then
    Some (PyStr.of_Z (status_code r) ++ " Client Error: " ++ reason r
            ++ " for url: " ++ url r)
  else if (500 <=? status_code r) && (status_code r <? 600) then
    Some (PyStr.of_Z (status_code r) ++ " Server Error: " ++ reason r
            ++ " for url: " ++ url r)
  else None.

Record CTFdClient : Type := mkClient {
  base_url : string;
  api_url : string;
  token : string;
  timeout : Z
}.

(** [CTFdClient.__init__] *)
Definition CTFdClient_init (base token : string) : CTFdClient :=
  let b := PyStr.rstrip "/" base in
  {| base_url := b; api_url := b ++ "/api/v1"; token := token; timeout := 30 |}.

(** ** Computations that issue requests *)

Definition M (A : Type) : Type := list request -> result A * list request.

Definition ret {A} (a : A) : M A := fun log => (Ok a, log).

Definition raise {A} (e : exn) : M A := fun log => (Raise e, log).

Definition bind {A B} (m : M A) (k : A -> M B) : M B :=
  fun log =>
    match m log with
    | (Ok a, log') => k a log'
    | (Raise e, log') => (Raise e, log')
    end.

Definition lift {A} (r : result A) : M A := fun log => (r, log).

(** [try: m  except CTFdAPIError as e: h(str(e))] *)
Definition catch_api {A} (m : M A) (h : string -> M A) : M A :=
  fun log =>
    match m log with
    | (Raise (CTFdAPIError msg), log') => h msg log'
    | other => other
    end.

(** [try: m  except: h] *)
Definition catch_all {A} (m : M A) (h : M A) : M A :=
  fun log =>
    match m log with
    | (Raise _, log') => h log'
    | other => other
    end.

Definition rbind {A B} (r : result A) (k : A -> result B) : result B :=
  match r with Ok a => k a | Raise e => Raise e end.

Fixpoint rmap {A B} (f : A -> result B) (l : list A) : result (list B) :=
  match l with
  | [] => Ok []
  | x :: rest => rbind (f x) (fun y => rbind (rmap f rest) (fun ys => Ok (y :: ys)))
  end.

(** The request that [_make_request] hands to the session. *)
Definition build_request (c : CTFdClient) (method endpoint : string)
    (json_kw : option json) : request :=
  {| req_method := method;
     req_url := api_url c ++ "/" ++ PyStr.lstrip "/" endpoint;
     req_json := json_kw |}.

Section Client.

(** Python's [repr] on decoded JSON values; [str] is [repr] except on strings. *)
Variable py_repr : json -> string.

Definition py_str (v : json) : string :=
  match v with JStr s => s | _ => py_repr v end.

(** The platform: the outcome of a request, given the requests before it. *)
Variable server : list request -> request -> outcome.

(** Lines 75-80 of [_make_request]: the envelope convention applied to a
    decoded body. *)
Definition unwrap_envelope (data : json) : result json :=
  rbind (py_get data "success" (JBool true)) (fun success =>
    if negb (truthy success) then
      rbind (py_get data "message" (JStr "Unknown error")) (fun message =>
        Raise (CTFdAPIError ("API Error: " ++ py_str message)))
    else py_get data "data" data).

Definition read_body (b : body) : result json :=
  match b with
  | EmptyBody => Ok (JObj [])
  | JsonBody data => unwrap_envelope data
  | NotJson true msg => Raise (CTFdAPIError ("Request failed: " ++ msg))
  | NotJson false msg => Raise (CTFdAPIError ("Invalid JSON response: " ++ msg))
  end.

Definition _make_request (c : CTFdClient) (method endpoint : string)
    (json_kw : option json) : M json :=
  fun log =>
    let req := build_request c method endpoint json_kw in
    let log' := (log ++ [req])%list in
    match server log req with
    | Failed msg => (Raise (CTFdAPIError ("Request failed: " ++ msg)), log')
    | Answered r =>
        match raise_for_status r with
        | Some msg => (Raise (CTFdAPIError ("Request failed: " ++ msg)), log')
        | None => (read_body (content r), log')
        end
    end.

Definition test_connection (c : CTFdClient) : M bool :=
  catch_api
    (bind (_make_request c "GET" "/challenges" None) (fun _ => ret true))
    (fun _ => ret false).

(** *** Flag submission *)

Record attempt : Type := mkAttempt {
  endpoint : string;
  payload : json
}.

Definition submission_attempts (challenge_id : Z) (flag : string) : list attempt :=
  [ {| endpoint := "/challenges/attempt";
       payload := JObj [("challenge_id", JNum challenge_id); ("submission", JStr flag)] |};
    {| endpoint := "/challenges/" ++ PyStr.of_Z challenge_id ++ "/attempts";
       payload := JObj [("submission", JStr flag)] |};
    {| endpoint := "/submissions";
       payload := JObj [("challenge_id", JNum challenge_id); ("submission", JStr flag)] |};
    {| endpoint := "/submissions";
       payload := JObj [("challenge", JNum challenge_id); ("flag", JStr flag)] |} ].

(** [message.lower().startswith('correct') and
     not message.lower().startswith('incorrect')] *)
Definition message_says_correct (message : json) : result bool :=
  match message with
  | JStr m =>
      Ok (PyStr.startswith (PyStr.lower m) "correct"
          && negb (PyStr.startswith (PyStr.lower m) "incorrect"))
  | _ => Raise AttributeError
  end.

(** Lines 368-387: what [submit_flag] makes of the data of a response. *)
Definition classify_response (data : json) : result (bool * json) :=
  match data with
  | JObj kv =>
      let status0 := match assoc "status" kv with Some s => s | None => JNull end in
      let message :=
        match assoc "message" kv with Some m => m | None => JStr "Unknown response" end in
      let status :=
        match status0, assoc "success" kv with
        | JNull, Some s => if truthy s then JStr "correct" else JStr "incorrect"
        | _, _ => status0
        end in
      if eq_str status "correct" then Ok (true, message)
      else if eq_str status "success" then Ok (true, message)
      else match assoc "success" kv with
           | Some (JBool true) => Ok (true, message)
           | _ => rbind (message_says_correct message) (fun b => Ok (b, message))
           end
  | _ => Ok (false, JStr ("Unexpected response format: " ++ py_str data))
  end.

Definition not_allowed_message : string :=
  "Flag submission not allowed - this CTFd instance may not support API submissions or requires different permissions".

(** Lines 399-403: the answer when the loop has run out of candidates. *)
Definition exhausted (last_error : option string) : bool * json :=
  match last_error with
  | Some e =>
      if negb (String.eqb e "") && PyStr.contains "403" e
      then (false, JStr not_allowed_message)
      else (false, JStr ("Could not find working submission endpoint. Last error: " ++ e))
  | None =>
      (false, JStr "Could not find working submission endpoint. Last error: None")
  end.

(** [self.console.print(text, style="dim")]: the console parses [text] as
    markup before it writes anything.  [console_accepts text] says that
    [rich] renders [text]; otherwise [print] raises [MarkupError]. *)
Variable console_accepts : string -> bool.

Definition console_print (text : string) : M unit :=
  if console_accepts text then ret tt else raise MarkupError.

(** Line 359: the line printed before a candidate is tried. *)
Definition trying_line (a : attempt) : string :=
  "[blue]Trying endpoint: " ++ endpoint a ++ " with payload: "
    ++ py_str (payload a) ++ "[/blue]".

(** Line 392: the line printed when a candidate has failed. *)
Definition failed_line (a : attempt) (error_msg : string) : string :=
  "[red]Endpoint " ++ endpoint a ++ " failed: " ++ error_msg ++ "[/red]".

(** The [for attempt in submission_attempts] loop with its [last_error].
    Both [print] calls sit where the source has them: the first inside the
    [try], before the request, the second in the handler, before the test
    on the error text; [except CTFdAPIError] does not catch what they
    raise. *)
Fixpoint submit_loop (c : CTFdClient) (attempts : list attempt)
    (last_error : option string) : M (bool * json) :=
  match attempts with
  | [] => ret (exhausted last_error)
  | a :: rest =>
      catch_api
        (bind (console_print (trying_line a)) (fun _ =>
         bind (_make_request c "POST" (endpoint a) (Some (payload a)))
              (fun data => lift (classify_response data))))
        (fun error_msg =>
           bind (console_print (failed_line a error_msg)) (fun _ =>
           if negb (PyStr.contains "404" error_msg)
              && negb (PyStr.contains "403" error_msg)
           then ret (false, JStr error_msg)
           else submit_loop c rest (Some error_msg)))
  end.

Definition submit_flag (c : CTFdClient) (challenge_id : Z) (flag : string)
    : M (bool * json) :=
  submit_loop c (submission_attempts challenge_id flag) None.

(** *** Scoreboard *)

Record ScoreboardEntry : Type := mkScoreboardEntry {
  pos : Z;
  account_id : Z;
  account_name : string;
  score : Z;
  account_type : string
}.

(** The validation of an [int] field and of a [str] field by the model
    classes ([None]: the value is rejected). *)
Variable as_int : json -> option Z.
Variable as_str : json -> option string.

Definition validated {A} (o : option A) : result A :=
  match o with Some a => Ok a | None => Raise ValidationError end.

(** One turn of the loop of [get_scoreboard]: the entry built at rank [i]. *)
Definition scoreboard_entry (i : Z) (entry : json) : result ScoreboardEntry :=
  rbind (py_getitem entry "account_id") (fun aid =>
  rbind (py_getitem entry "name") (fun nm =>
  rbind (py_getitem entry "score") (fun sc =>
  rbind (py_get entry "type" (JStr "user")) (fun ty =>
  rbind (validated (as_int aid)) (fun aid' =>
  rbind (validated (as_str nm)) (fun nm' =>
  rbind (validated (as_int sc)) (fun sc' =>
  rbind (validated (as_str ty)) (fun ty' =>
    Ok {| pos := i; account_id := aid'; account_name := nm';
          score := sc'; account_type := ty' |})))))))).

(** [for i, entry in enumerate(data, i0)] *)
Fixpoint scoreboard_entries (i0 : Z) (data : list json) : result (list ScoreboardEntry) :=
  match data with
  | [] => Ok []
  | entry :: rest =>
      rbind (scoreboard_entry i0 entry) (fun e =>
      rbind (scoreboard_entries (i0 + 1) rest) (fun es => Ok (e :: es)))
  end.

Definition get_scoreboard (c : CTFdClient) (count : Z) : M (list ScoreboardEntry) :=
  bind (_make_request c "GET" ("/scoreboard?count=" ++ PyStr.of_Z count) None)
       (fun data =>
          lift (rbind (py_iter data) (scoreboard_entries 1))).

(** *** Challenge files *)

(** The body of the loop of [get_challenge_files], for one entry. *)
Definition file_url (c : CTFdClient) (file : json) : result string :=
  match file with
  | JStr f =>
      if PyStr.startswith f "http" then Ok f
      else if PyStr.startswith f "/files/" then Ok (base_url c ++ f)
      else Ok (base_url c ++ "/files/" ++ PyStr.lstrip "/" f)
  | _ => Raise AttributeError
  end.

Definition get_challenge_files (c : CTFdClient) (challenge_id : Z) : M (list string) :=
  bind (_make_request c "GET" ("/challenges/" ++ PyStr.of_Z challenge_id) None)
       (fun data =>
          lift (rbind (py_get data "files" (JArr [])) (fun files =>
                rbind (py_iter files) (rmap (file_url c))))).

(** *** Solves of a user *)

(** An actual argument for the [user_id] parameter. *)
Inductive user_arg : Type :=
| Omitted
| PyNone
| PyInt (n : Z).

(** [[f(x) for x in l if p(x)]] *)
Fixpoint comprehension (p : json -> result bool) (f : json -> result json)
    (l : list json) : result (list json) :=
  match l with
  | [] => Ok []
  | x :: rest =>
      rbind (p x) (fun keep =>
        if keep then
          rbind (f x) (fun y =>
          rbind (comprehension p f rest) (fun ys => Ok (y :: ys)))
        else comprehension p f rest)
  end.

(** What the first definition does with the data of one endpoint:
    [Some ids] when it returns, [None] when it goes on to the next one. *)
Definition solves_of_response (endpoint : string) (data : json)
    : result (option json) :=
  if String.eqb endpoint "/me/solves" || PyStr.contains "solves" endpoint then
    match data with
    | JArr l =>
        rbind (comprehension (py_in "challenge_id")
                 (fun solve => py_getitem solve "challenge_id") l)
              (fun ids => Ok (Some (JArr ids)))
    | _ => Ok None
    end
  else if String.eqb endpoint "/me" then
    match data with
    | JObj kv =>
        match assoc "solves" kv with
        | Some solves =>
            rbind (py_iter solves) (fun l =>
            rbind (comprehension (fun _ => Ok true)
                     (fun solve => py_getitem solve "challenge_id") l)
                  (fun ids => Ok (Some (JArr ids))))
        | None => Ok None
        end
    | _ => Ok None
    end
  else if PyStr.contains "submissions" endpoint then
    match data with
    | JArr l =>
        rbind (comprehension
                 (fun sub => rbind (py_get sub "type" JNull)
                               (fun t => Ok (eq_str t "correct")))
                 (fun sub => py_getitem sub "challenge_id") l)
              (fun ids => Ok (Some (JArr ids)))
    | _ => Ok None
    end
  else Ok None.

(** The last resort of the first definition: the [solved_by_me] flags of
    the challenges list, any exception giving the empty list. *)
Definition solved_from_challenges (c : CTFdClient) : M json :=
  catch_all
    (bind (_make_request c "GET" "/challenges" None) (fun challenges_data =>
       lift (rbind (py_iter challenges_data) (fun l =>
             rbind (comprehension
                      (fun ch => rbind (py_get ch "solved_by_me" (JBool false))
                                   (fun s => Ok (truthy s)))
                      (fun ch => py_getitem ch "id") l)
                   (fun ids => Ok (JArr ids))))))
    (ret (JArr [])).

Fixpoint try_endpoints (c : CTFdClient) (endpoints_to_try : list string) : M json :=
  match endpoints_to_try with
  | [] => solved_from_challenges c
  | e :: rest =>
      catch_api
        (bind (_make_request c "GET" e None) (fun data =>
         bind (lift (solves_of_response e data)) (fun found =>
           match found with
           | Some ids => ret ids
           | None => try_endpoints c rest
           end)))
        (fun _ => try_endpoints c rest)
  end.

Definition user_arg_str (u : user_arg) : string :=
  match u with
  | PyInt n => PyStr.of_Z n
  | _ => "None"
  end.

(** [def get_user_solves(self, user_id: Optional[int] = None)], line 428 *)
Definition get_user_solves_428 (c : CTFdClient) (user_id : user_arg) : M json :=
  try_endpoints c
    [ "/me/solves"; "/me"; "/submissions/me";
      match user_id with
      | PyInt n => "/users/" ++ PyStr.of_Z n ++ "/solves"
      | _ => "/teams/me/solves"
      end ].

(** [def get_user_solves(self, user_id: int)], line 584 *)
Definition get_user_solves_584 (c : CTFdClient) (user_id : user_arg) : M json :=
  match user_id with
  | Omitted => raise TypeError
  | _ =>
      catch_api
        (_make_request c "GET" ("/users/" ++ user_arg_str user_id ++ "/solves") None)
        (fun _ => ret (JArr []))
  end.

(** The [def] statements of the class body, in the order in which they are
    executed, each with the line it starts on.  A later binding of a name
    replaces an earlier one. *)
Definition class_body : list (string * nat) :=
  [ ("__init__", 21); ("_make_request", 53); ("test_connection", 87);
    ("get_ctf_info", 99); ("get_challenges", 200);
    ("get_challenge_attempts", 240); ("get_challenge_files", 270);
    ("download_file", 295); ("submit_flag", 320); ("get_scoreboard", 405);
    ("get_user_solves", 428); ("get_me", 477);
    ("get_team_member_solves", 498); ("get_challenge_solvers", 513);
    ("get_team_info", 542); ("get_user_info", 556); ("get_team_solves", 570);
    ("get_user_solves", 584); ("search_teams", 598); ("search_users", 617) ]%nat.

Definition class_attr (name : string) : option nat :=
  fold_left (fun bound d => if String.eqb (fst d) name then Some (snd d) else bound)
            class_body None.

(** [client.get_user_solves(...)]: the attribute of the class is looked up
    and the definition bound to it is run. *)
Definition get_user_solves (c : CTFdClient) (user_id : user_arg) : M json :=
  match class_attr "get_user_solves" with
  | Some 428%nat => get_user_solves_428 c user_id
  | Some 584%nat => get_user_solves_584 c user_id
  | _ => raise AttributeError
  end.

(** *** Attempts, challenges, team solvers and search *)

(** [len([s for s in submissions_data if s.get('challenge_id') == challenge_id])] *)
Fixpoint count_submissions (challenge_id : json) (l : list json) : result Z :=
  match l with
  | [] => Ok 0
  | s :: rest =>
      rbind (py_get s "challenge_id" JNull) (fun cid =>
      rbind (count_submissions challenge_id rest) (fun n =>
        Ok (if py_eq cid challenge_id then 1 + n else n)))
  end.

Definition get_challenge_attempts (c : CTFdClient) (challenge_id : json) : M Z :=
  catch_api
    (bind (_make_request c "GET" ("/challenges/" ++ py_str challenge_id ++ "/attempts")
             None)
          (fun data =>
             match data with
             | JArr l => ret (Z.of_nat (List.length l))
             | JObj kv =>
                 match assoc "attempts" kv with
                 | Some attempts => lift (py_len attempts)
                 | None => ret 0
                 end
             | _ => ret 0
             end))
    (fun _ =>
       catch_api
         (bind (_make_request c "GET" "/submissions/me" None)
               (fun submissions_data =>
                  match submissions_data with
                  | JArr l => lift (count_submissions challenge_id l)
                  | _ => ret 0
                  end))
         (fun _ => ret 0)).

(** The model class [Challenge]: its instances, and its construction from
    keyword arguments ([None]: the arguments are rejected). *)
Variable Challenge : Type.
Variable Challenge_new : list (string * json) -> option Challenge.

(** The keyword arguments that [get_challenges] passes for one challenge. *)
Definition challenge_kwargs (detailed solved_by_me : json) (attempts : Z)
    : result (list (string * json)) :=
  rbind (py_getitem detailed "id") (fun id_ =>
  rbind (py_getitem detailed "name") (fun name_ =>
  rbind (py_getitem detailed "description") (fun description =>
  rbind (py_getitem detailed "category") (fun category =>
  rbind (py_getitem detailed "value") (fun value =>
  rbind (py_get detailed "tags" (JArr [])) (fun tags =>
  rbind (py_get detailed "state" (JStr "visible")) (fun state =>
  rbind (py_get detailed "max_attempts" JNull) (fun max_attempts =>
  rbind (py_get detailed "type" (JStr "standard")) (fun type_ =>
  rbind (py_get detailed "solves" (JNum 0)) (fun solves =>
  rbind (py_get detailed "files" (JArr [])) (fun files =>
  rbind (py_get detailed "hints" (JArr [])) (fun hints =>
  rbind (py_get detailed "connection_info" JNull) (fun connection_info =>
    Ok [ ("id", id_); ("name", name_); ("description", description);
         ("category", category); ("value", value); ("tags", tags);
         ("state", state); ("max_attempts", max_attempts); ("type", type_);
         ("solves", solves); ("files", files); ("hints", hints);
         ("solved_by_me", solved_by_me); ("attempts", JNum attempts);
         ("connection_info", connection_info) ]))))))))))))).

(** The body of the loop of [get_challenges]. *)
Definition fetch_challenge (c : CTFdClient) (challenge_data : json) : M Challenge :=
  bind (lift (py_getitem challenge_data "id")) (fun listed_id =>
  bind (_make_request c "GET" ("/challenges/" ++ py_str listed_id) None) (fun detailed =>
  bind (lift (py_get detailed "solved_by_me" (JBool false))) (fun from_detail =>
  bind (lift (py_get challenge_data "solved_by_me" from_detail)) (fun solved_by_me =>
  bind (lift (py_getitem detailed "id")) (fun detailed_id =>
  bind (get_challenge_attempts c detailed_id) (fun attempts =>
  bind (lift (challenge_kwargs detailed solved_by_me attempts)) (fun kwargs =>
    lift (validated (Challenge_new kwargs))))))))).

Fixpoint fetch_challenges (c : CTFdClient) (data : list json) : M (list Challenge) :=
  match data with
  | [] => ret []
  | challenge_data :: rest =>
      bind (fetch_challenge c challenge_data) (fun challenge =>
      bind (fetch_challenges c rest) (fun challenges =>
        ret (challenge :: challenges)))
  end.

Definition get_challenges (c : CTFdClient) : M (list Challenge) :=
  bind (_make_request c "GET" "/challenges" None) (fun data =>
  bind (lift (py_iter data)) (fetch_challenges c)).

Definition get_team_member_solves (c : CTFdClient) (user_id : json) : M (list json) :=
  catch_api
    (bind (_make_request c "GET" ("/users/" ++ py_str user_id ++ "/solves") None)
          (fun data =>
             lift (rbind (py_iter data)
                     (rmap (fun solve => py_getitem solve "challenge_id")))))
    (fun _ => ret []).

(** The dictionary [challenge_solvers]: challenge ids to lists of member ids. *)
Definition solvers_dict : Type := list (json * list json).

(** [if challenge_id not in challenge_solvers: challenge_solvers[challenge_id] = []]
    followed by [challenge_solvers[challenge_id].append(member_id)], for a
    hashable [challenge_id]. *)
Fixpoint solvers_append (challenge_id member_id : json) (d : solvers_dict)
    : solvers_dict :=
  match d with
  | [] => [(challenge_id, [member_id])]
  | (k, members) :: rest =>
      if py_eq k challenge_id then (k, (members ++ [member_id])%list) :: rest
      else (k, members) :: solvers_append challenge_id member_id rest
  end.

(** The inner loop of [get_challenge_solvers], over the solves of one member. *)
Fixpoint record_solves (member_id : json) (member_solves : list json)
    (d : solvers_dict) : result solvers_dict :=
  match member_solves with
  | [] => Ok d
  | challenge_id :: rest =>
      if hashable challenge_id
      then record_solves member_id rest (solvers_append challenge_id member_id d)
      else Raise TypeError
  end.

(** The outer loop of [get_challenge_solvers], over the members of the team. *)
Fixpoint collect_solvers (c : CTFdClient) (members : list json) (d : solvers_dict)
    : M solvers_dict :=
  match members with
  | [] => ret d
  | member_id :: rest =>
      bind (catch_api
              (bind (get_team_member_solves c member_id) (fun member_solves =>
                 lift (record_solves member_id member_solves d)))
              (fun _ => ret d))
           (collect_solvers c rest)
  end.

Definition get_challenge_solvers (c : CTFdClient) : M solvers_dict :=
  catch_api
    (bind (_make_request c "GET" "/teams/me" None) (fun team_data =>
     bind (lift (py_get team_data "members" (JArr []))) (fun members =>
     bind (lift (py_iter members)) (fun member_ids =>
       collect_solvers c member_ids []))))
    (fun _ => ret []).

(** [name.lower() in entry.get('name', '').lower()] *)
Definition name_matches (name : string) (entry : json) : result bool :=
  rbind (py_get entry "name" (JStr "")) (fun entry_name =>
    match entry_name with
    | JStr s => Ok (PyStr.contains (PyStr.lower name) (PyStr.lower s))
    | _ => Raise AttributeError
    end).

(** [[entry for entry in entries if name.lower() in entry.get('name', '').lower()]] *)
Fixpoint filter_by_name (name : string) (entries : list json) : result (list json) :=
  match entries with
  | [] => Ok []
  | entry :: rest =>
      rbind (name_matches name entry) (fun keep =>
      rbind (filter_by_name name rest) (fun kept =>
        Ok (if keep then entry :: kept else kept)))
  end.

Definition search_teams (c : CTFdClient) (name : string) : M (list json) :=
  catch_api
    (bind (_make_request c "GET" "/teams" None) (fun teams_data =>
       match teams_data with
       | JArr teams => lift (filter_by_name name teams)
       | _ => ret []
       end))
    (fun _ => ret []).

Definition search_users (c : CTFdClient) (name : string) : M (list json) :=
  catch_api
    (bind (_make_request c "GET" "/users" None) (fun users_data =>
       match users_data with
       | JArr users => lift (filter_by_name name users)
       | _ => ret []
       end))
    (fun _ => ret []).

End Client.

(** ** The profile store of [ConfigManager] *)

Record CTFProfile : Type := mkProfile {
  name : string;
  profile_url : string;
  profile_token : string;
  user_mode : bool;
  default : bool
}.

Definition profiles_dict : Type := list (string * CTFProfile).

(** [profiles.json]: absent, not loadable as JSON, or a mapping from names
    to dumped profiles. *)
Inductive config_file : Type :=
| NoFile
| Unreadable
| Stored (data : profiles_dict).

Record config_dir : Type := mkConfigDir {
  file : config_file;
  writable : bool
}.

(** [d[k] = v]: the value is replaced in place, a new key goes last. *)
Fixpoint dict_set {V : Type} (k : string) (v : V) (d : list (string * V))
    : list (string * V) :=
  match d with
  | [] => [(k, v)]
  | (k', v') :: rest =>
      if String.eqb k' k then (k', v) :: rest else (k', v') :: dict_set k v rest
  end.

(** [del d[k]] *)
Fixpoint dict_del {V : Type} (k : string) (d : list (string * V)) : list (string * V) :=
  match d with
  | [] => []
  | (k', v') :: rest => if String.eqb k' k then rest else (k', v') :: dict_del k rest
  end.

Definition set_default_flag (b : bool) (p : CTFProfile) : CTFProfile :=
  {| name := name p; profile_url := profile_url p; profile_token := profile_token p;
     user_mode := user_mode p; default := b |}.

(** [for profile in profiles.values(): profile.default = False] *)
Definition clear_defaults (d : profiles_dict) : profiles_dict :=
  map (fun kv => (fst kv, set_default_flag false (snd kv))) d.

(** [next(iter(profiles.values())).default = True] *)
Definition first_default (d : profiles_dict) : profiles_dict :=
  match d with
  | [] => []
  | (k, p) :: rest => (k, set_default_flag true p) :: rest
  end.

(** The number of stored profiles whose [default] is true. *)
Definition count_defaults (d : profiles_dict) : nat :=
  List.length (filter (fun kv => default (snd kv)) d).

Definition stored_profiles (fs : config_dir) : profiles_dict :=
  match file fs with
  | Stored data => data
  | _ => []
  end.

Section ConfigManager.

(** The validation of the [url] field ([HttpUrl]): the text of the
    validated URL, or [None] when the value is rejected. *)
Variable HttpUrl : string -> option string.

(** [CTFProfile(name=..., url=..., ...)] *)
Definition new_profile (n u t : string) (um dflt : bool) : result CTFProfile :=
  match HttpUrl u with
  | Some u' => Ok {| name := n; profile_url := u'; profile_token := t;
                     user_mode := um; default := dflt |}
  | None => Raise ValidationError
  end.

(** The loop of [load_profiles], [profiles] being the dictionary built so far. *)
Fixpoint load_all (profiles data : profiles_dict) : result profiles_dict :=
  match data with
  | [] => Ok profiles
  | (k, p) :: rest =>
      rbind (new_profile (name p) (profile_url p) (profile_token p)
               (user_mode p) (default p)) (fun p' =>
      load_all (dict_set k p' profiles) rest)
  end.

Definition load_profiles (fs : config_dir) : profiles_dict :=
  match file fs with
  | NoFile => []
  | Unreadable => []
  | Stored data =>
      match load_all [] data with
      | Ok ps => ps
      | Raise _ => []
      end
  end.

Definition save_profiles (fs : config_dir) (profiles : profiles_dict)
    : result config_dir :=
  if writable fs then Ok {| file := Stored profiles; writable := true |}
  else Raise OSError.

Definition add_profile (fs : config_dir) (n u t : string) (um set_default : bool)
    : bool * config_dir :=
  let profiles := load_profiles fs in
  let profiles := if set_default then clear_defaults profiles else profiles in
  match new_profile n u t um
          (set_default || match profiles with [] => true | _ => false end) with
  | Raise _ => (false, fs)
  | Ok profile =>
      match save_profiles fs (dict_set n profile profiles) with
      | Ok fs' => (true, fs')
      | Raise _ => (false, fs)
      end
  end.

Definition delete_profile (fs : config_dir) (n : string) : bool * config_dir :=
  let profiles := load_profiles fs in
  match assoc n profiles with
  | None => (false, fs)
  | Some p =>
      let was_default := default p in
      let profiles := dict_del n profiles in
      let profiles :=
        if was_default && match profiles with [] => false | _ => true end
        then first_default profiles else profiles in
      match save_profiles fs profiles with
      | Ok fs' => (true, fs')
      | Raise _ => (false, fs)
      end
  end.

Definition set_default_profile (fs : config_dir) (n : string) : bool * config_dir :=
  let profiles := load_profiles fs in
  match assoc n profiles with
  | None => (false, fs)
  | Some p =>
      let profiles := clear_defaults profiles in
      let profiles := dict_set n (set_default_flag true p) profiles in
      match save_profiles fs profiles with
      | Ok fs' => (true, fs')
      | Raise _ => (false, fs)
      end
  end.

(** The tail of [get_profile]: the first profile whose [default] is set,
    else the first profile, else [None]. *)
Definition default_or_first (profiles : profiles_dict) : option CTFProfile :=
  match find (fun kv => default (snd kv)) profiles with
  | Some kv => Some (snd kv)
  | None =>
      match profiles with
      | [] => None
      | kv :: _ => Some (snd kv)
      end
  end.

(** [get_profile(name)]; [None] and the empty string both ask for the
    default profile ([if name:]). *)
Definition get_profile (fs : config_dir) (name_arg : option string)
    : option CTFProfile :=
  let profiles := load_profiles fs in
  match name_arg with
  | Some n => if String.eqb n "" then default_or_first profiles else assoc n profiles
  | None => default_or_first profiles
  end.

Definition list_profiles (fs : config_dir) : list CTFProfile :=
  map snd (load_profiles fs).

End ConfigManager.

(** ** The helpers of [ctfdcli/utils/helpers.py]

    Characters are code points below 256. *)

Module Helpers.

(** [text[:stop]]: a negative [stop] counts from the end. *)
Definition slice_to (stop : Z) (text : string) : string :=
  let n := Z.of_nat (String.length text) in
  let k := if stop <? 0 then Z.max 0 (n + stop) else Z.min stop n in
  String.substring 0 (Z.to_nat k) text.

Definition format_duration (seconds : Z) : string :=
  if seconds <? 60 then PyStr.of_Z seconds ++ "s"
  else if seconds <? 3600 then
    PyStr.of_Z (seconds / 60) ++ "m " ++ PyStr.of_Z (seconds mod 60) ++ "s"
  else if seconds <? 86400 then
    PyStr.of_Z (seconds / 3600) ++ "h " ++ PyStr.of_Z ((seconds mod 3600) / 60) ++ "m"
  else
    PyStr.of_Z (seconds / 86400) ++ "d " ++ PyStr.of_Z ((seconds mod 86400) / 3600) ++ "h".

Definition truncate_text (text : string) (max_length : Z) (suffix : string) : string :=
  if Z.of_nat (String.length text) <=? max_length then text
  else slice_to (max_length - Z.of_nat (String.length suffix)) text ++ suffix.

(** The character class of the first substitution: the less-than and
    greater-than signs, the colon, the double quote, the slash, the
    backslash, the bar, the question mark and the star. *)
Definition invalid_char (a : ascii) : bool :=
  existsb (Ascii.eqb a)
    [ "<"%char; ">"%char; ":"%char; "034"%char; "/"%char; "092"%char; "|"%char;
      "?"%char; "*"%char ].

(** The class [[\x00-\x1f\x7f-\x9f]] of the second substitution. *)
Definition control_char (a : ascii) : bool :=
  let n := nat_of_ascii a in
  (Nat.leb n 31 || (Nat.leb 127 n && Nat.leb n 159))%bool.

(** The characters that [strip(' .')] removes. *)
Definition space_or_dot (a : ascii) : bool :=
  (Ascii.eqb a " " || Ascii.eqb a ".")%bool.

Fixpoint drop_while (p : ascii -> bool) (l : list ascii) : list ascii :=
  match l with
  | [] => []
  | a :: rest => if p a then drop_while p rest else l
  end.

(** [s.strip(chars)], on the list of the characters of [s]. *)
Definition strip (p : ascii -> bool) (l : list ascii) : list ascii :=
  rev (drop_while p (rev (drop_while p l))).

Definition sanitize_filename (filename : string) : string :=
  let replaced :=
    map (fun a => if invalid_char a then "_"%char else a)
        (list_ascii_of_string filename) in
  let kept := filter (fun a => negb (control_char a)) replaced in
  let stripped := strip space_or_dot kept in
  let named :=
    match stripped with
    | [] => list_ascii_of_string "unnamed"
    | _ => stripped
    end in
  string_of_list_ascii
    (if (255 <? List.length named)%nat then firstn 255 named else named).

End Helpers.

(** ** Sample platforms and stores, used in the concrete runs below *)

Module Samples.

(** [repr] on decoded JSON values, as Python writes them: a dictionary as
    [{'k': v, ...}], a list as [[v, ...]], a string between single quotes
    (the strings of the runs below hold no quote, backslash or control
    character, so nothing in them is escaped). *)
Fixpoint repr (v : json) : string :=
  match v with
  | JNull => "None"
  | JBool true => "True"
  | JBool false => "False"
  | JNum n => PyStr.of_Z n
  | JStr s => "'" ++ s ++ "'"
  | JArr l =>
      "[" ++ (fix items (l : list json) : string :=
                match l with
                | [] => ""
                | [x] => repr x
                | x :: rest => repr x ++ ", " ++ items rest
                end) l ++ "]"
  | JObj kv =>
      "{" ++ (fix fields (kv : list (string * json)) : string :=
                match kv with
                | [] => ""
                | [(k, x)] => "'" ++ k ++ "': " ++ repr x
                | (k, x) :: rest => "'" ++ k ++ "': " ++ repr x ++ ", " ++ fields rest
                end) kv ++ "}"
  end.

(** *** The console

    [rich.markup.render], as far as it can raise.  A tag is what its
    pattern for tags matches: any backslashes, an opening bracket, a
    first character that is a small letter, [#], [/] or [@], then the text
    up to the next closing bracket, with no opening bracket in between; an
    odd number of backslashes before it makes it plain text.  The name of
    a tag is its text up to the first [=].  A tag whose name starts with
    [/] closes the innermost open tag of that name, or the innermost open
    tag when the name is empty, and [MarkupError] is raised when there is
    none; any other tag is opened.  Tags left open at the end are closed
    silently.  Names are compared as written, and the parameters of [@]
    tags are not evaluated. *)

Inductive scan : Type :=
| Plain (backslashes : nat)
| Bracket (backslashes : nat)
| Tag (backslashes : nat) (text : string) (trailing : nat).

Definition tag_start (c : ascii) : bool :=
  let n := nat_of_ascii c in
  ((Nat.leb 97 n && Nat.leb n 122)
   || Ascii.eqb c "#" || Ascii.eqb c "/" || Ascii.eqb c "@")%bool.

Fixpoint before_equals (s : string) : string :=
  match s with
  | EmptyString => EmptyString
  | String c rest =>
      if Ascii.eqb c "=" then EmptyString else String c (before_equals rest)
  end.

(** [pop_style]: the innermost open tag of that name is removed. *)
Fixpoint pop_style (name : string) (stack : list string) : option (list string) :=
  match stack with
  | [] => None
  | n :: rest =>
      if String.eqb n name then Some rest
      else option_map (cons n) (pop_style name rest)
  end.

(** The stack of open tags after a tag, [None] for [MarkupError]. *)
Definition apply_tag (text : string) (stack : list string) : option (list string) :=
  let name := before_equals text in
  match name with
  | String "/" closed =>
      match PyStr.rstrip " " (PyStr.lstrip " " closed) with
      | EmptyString => match stack with [] => None | _ :: rest => Some rest end
      | style_name => pop_style style_name stack
      end
  | _ => Some (name :: stack)
  end.

Fixpoint render (s : string) (st : scan) (stack : list string) : bool :=
  match s with
  | EmptyString => true
  | String c rest =>
      match st with
      | Plain bs =>
          if Ascii.eqb c "[" then render rest (Bracket bs) stack
          else if Ascii.eqb c "092" then render rest (Plain (S bs)) stack
          else render rest (Plain 0) stack
      | Bracket bs =>
          if tag_start c then render rest (Tag bs (String c EmptyString) 0) stack
          else if Ascii.eqb c "[" then render rest (Bracket 0) stack
          else if Ascii.eqb c "092" then render rest (Plain 1) stack
          else render rest (Plain 0) stack
      | Tag bs text tb =>
          if Ascii.eqb c "]" then
            if Nat.odd bs then render rest (Plain 0) stack
            else match apply_tag text stack with
                 | Some stack' => render rest (Plain 0) stack'
                 | None => false
                 end
          else if Ascii.eqb c "[" then render rest (Bracket tb) stack
          else render rest (Tag bs (text ++ String c EmptyString)
                              (if Ascii.eqb c "092" then S tb else 0)) stack
      end
  end.

(** [rich_markup text]: the console prints [text] without [MarkupError]. *)
Definition rich_markup (text : string) : bool := render text (Plain 0) [].

(** A console that prints everything, for text known to hold no tag. *)
Definition plain_console (text : string) : bool := true.

Definition strict_int (v : json) : option Z :=
  match v with JNum n => Some n | _ => None end.

Definition strict_str (v : json) : option string :=
  match v with JStr s => Some s | _ => None end.

(** A platform that answers every request with the same HTTP error. *)
Definition always_status (status : Z) (why : string) : list request -> request -> outcome :=
  fun _ req =>
    Answered {| status_code := status; reason := why; url := req_url req;
                content := EmptyBody |}.

(** A platform that serves one document at one URL and 404 elsewhere. *)
Definition only_at (where_ : string) (doc : json) : list request -> request -> outcome :=
  fun _ req =>
    if String.eqb (req_url req) where_ then
      Answered {| status_code := 200; reason := "OK"; url := req_url req;
                  content := JsonBody doc |}
    else
      Answered {| status_code := 404; reason := "Not Found"; url := req_url req;
                  content := EmptyBody |}.

Definition client : CTFdClient := CTFdClient_init "http://ctf.example.com/" "tok".

(** A deployment reached through a port whose number contains 404. *)
Definition client_4040 : CTFdClient := CTFdClient_init "http://10.0.0.5:4040" "tok".

Definition correct_body : json :=
  JObj [("status", JStr "correct"); ("message", JStr "Correct")].

Definition challenges_doc : json :=
  JObj [("success", JBool true);
        ("data", JArr [ JObj [("id", JNum 1); ("solved_by_me", JBool true)];
                        JObj [("id", JNum 2); ("solved_by_me", JBool false)];
                        JObj [("id", JNum 3); ("solved_by_me", JBool true)] ])].

Definition scoreboard_doc : json :=
  JObj [("success", JBool true);
        ("data", JArr [ JObj [("account_id", JNum 7); ("name", JStr "low");
                              ("score", JNum 10)];
                        JObj [("account_id", JNum 4); ("name", JStr "high");
                              ("score", JNum 50); ("type", JStr "team")];
                        JObj [("account_id", JNum 9); ("name", JStr "mid");
                              ("score", JNum 30)] ])].

Definition files_doc : json :=
  JObj [("success", JBool true);
        ("data", JObj [("id", JNum 5);
                       ("files", JArr [ JStr "https://cdn.example.com/a.zip";
                                        JStr "/files/abc/b.bin";
                                        JStr "/c.txt" ])])].

(** A challenge whose one file is a path into a directory [httpdocs]. *)
Definition docs_files_doc : json :=
  JObj [("success", JBool true);
        ("data", JObj [("id", JNum 5);
                       ("files", JArr [ JStr "httpdocs/readme.txt" ])])].

Definition accept_url (u : string) : option string :=
  if PyStr.startswith u "http" then Some u else None.

Definition alice : CTFProfile :=
  {| name := "alice"; profile_url := "https://a.example.com/";
     profile_token := "ta"; user_mode := true; default := true |}.

Definition bob : CTFProfile :=
  {| name := "bob"; profile_url := "https://b.example.com/";
     profile_token := "tb"; user_mode := false; default := false |}.

Definition no_store : config_dir := {| file := NoFile; writable := true |}.

Definition one_profile : config_dir :=
  {| file := Stored [("alice", alice)]; writable := true |}.

Definition two_profiles : config_dir :=
  {| file := Stored [("alice", alice); ("bob", bob)]; writable := true |}.



(** A platform that answers the successive requests with the outcomes of
    a script, and refuses the connection once the script is over. *)
Definition scripted (outs : list outcome) : list request -> request -> outcome :=
  fun log _ => nth (List.length log) outs (Failed "Connection refused").

Definition forbidden : response :=
  {| status_code := 403; reason := "Forbidden";
     url := "http://ctf.example.com/api/v1/"; content := EmptyBody |}.

Definition incorrect_answer : response :=
  {| status_code := 200; reason := "OK";
     url := "http://ctf.example.com/api/v1/submissions";
     content := JsonBody (JObj [("success", JBool true);
                                ("data", JObj [("status", JStr "incorrect");
                                               ("message", JStr "Incorrect")])]) |}.

(** A platform that serves the documents of a table of URLs, and 404
    everywhere else. *)
Definition routes (table : list (string * json)) : list request -> request -> outcome :=
  fun _ req =>
    match assoc (req_url req) table with
    | Some doc =>
        Answered {| status_code := 200; reason := "OK"; url := req_url req;
                    content := JsonBody doc |}
    | None =>
        Answered {| status_code := 404; reason := "Not Found"; url := req_url req;
                    content := EmptyBody |}
    end.

Definition enveloped (data : json) : json :=
  JObj [("success", JBool true); ("data", data)].

Definition challenge_detail (id_ : Z) (title : string) : json :=
  enveloped (JObj [("id", JNum id_); ("name", JStr title);
                   ("description", JStr "..."); ("category", JStr "web");
                   ("value", JNum 100)]).

(** A small deployment: three challenges, attempts known for the first
    one only, a team of two, and three teams to search. *)
Definition deployment : list request -> request -> outcome :=
  routes
    [ ("http://ctf.example.com/api/v1/challenges", challenges_doc);
      ("http://ctf.example.com/api/v1/challenges/1", challenge_detail 1 "one");
      ("http://ctf.example.com/api/v1/challenges/2", challenge_detail 2 "two");
      ("http://ctf.example.com/api/v1/challenges/3", challenge_detail 3 "three");
      ("http://ctf.example.com/api/v1/challenges/1/attempts",
       enveloped (JArr [JObj []; JObj []]));
      ("http://ctf.example.com/api/v1/teams/me",
       enveloped (JObj [("id", JNum 5); ("members", JArr [JNum 10; JNum 11])]));
      ("http://ctf.example.com/api/v1/users/10/solves",
       enveloped (JArr [JObj [("challenge_id", JNum 1)];
                        JObj [("challenge_id", JNum 3)]]));
      ("http://ctf.example.com/api/v1/users/11/solves",
       enveloped (JArr [JObj [("challenge_id", JNum 1)]]));
      ("http://ctf.example.com/api/v1/teams",
       enveloped (JArr [JObj [("id", JNum 1); ("name", JStr "Red Team")];
                        JObj [("id", JNum 2); ("name", JStr "blue")];
                        JObj [("id", JNum 3)]])) ].

(** Challenges kept as the keyword arguments they were built from. *)
Definition kept_kwargs : list (string * json) -> option (list (string * json)) :=
  fun kwargs => Some kwargs.

End Samples.

(** ** Vocabulary of the statements *)

(** The requests of the four candidates of [submit_flag], in order. *)
Definition candidate_requests (c : CTFdClient) (challenge_id : Z) (flag : string)
    : list request :=
  map (fun a => build_request c "POST" (endpoint a) (Some (payload a)))
      (submission_attempts challenge_id flag).

(** The platform answers the successive requests [reqs], issued after the
    history [log], with the outcomes [outs]. *)
Fixpoint answers (server : list request -> request -> outcome)
    (log reqs : list request) (outs : list outcome) : Prop :=
  match reqs, outs with
  | [], [] => True
  | q :: qs, o :: os => server log q = o /\ answers server (log ++ [q])%list qs os
  | _, _ => False
  end.

(** The lines [submit_flag] prints while the candidates [attempts] fail
    one after the other with the error texts [errors]: for each, the line
    that announces it and the line that reports its failure. *)
Fixpoint progress_lines (py_repr : json -> string) (attempts : list attempt)
    (errors : list string) : list string :=
  match attempts, errors with
  | a :: rest, e :: es =>
      trying_line py_repr a :: failed_line a e :: progress_lines py_repr rest es
  | _, _ => []
  end.

(** The console prints every line of [lines]. *)
Definition prints (console_accepts : string -> bool) (lines : list string) : Prop :=
  forallb console_accepts lines = true.

(** The response carries HTTP status 403 or 404. *)
Definition refused (r : response) : Prop :=
  status_code r = 403 \/ status_code r = 404.

(** The text of the [CTFdAPIError] that a 4xx response becomes. *)
Definition client_error_text (r : response) : string :=
  "Request failed: " ++ PyStr.of_Z (status_code r) ++ " Client Error: "
    ++ reason r ++ " for url: " ++ url r.

(** The scoreboard entry [e] carries the validated fields of the response
    item [item]. *)
Definition describes (as_int : json -> option Z) (as_str : json -> option string)
    (item : json) (e : ScoreboardEntry) : Prop :=
  exists kv aid nm sc,
    item = JObj kv
    /\ assoc "account_id" kv = Some aid /\ as_int aid = Some (account_id e)
    /\ assoc "name" kv = Some nm /\ as_str nm = Some (account_name e)
    /\ assoc "score" kv = Some sc /\ as_int sc = Some (score e)
    /\ as_str match assoc "type" kv with Some ty => ty | None => JStr "user" end
       = Some (account_type e).

(** The URL [u] is what the file entry [f] resolves to for the client [c]. *)
Definition resolves (c : CTFdClient) (f u : string) : Prop :=
  (PyStr.startswith f "http" = true -> u = f)
  /\ (PyStr.startswith f "http" = false -> PyStr.startswith f "/files/" = true ->
      u = base_url c ++ f)
  /\ (PyStr.startswith f "http" = false -> PyStr.startswith f "/files/" = false ->
      u = base_url c ++ "/files/" ++ PyStr.lstrip "/" f).

(** The URL names its scheme and can be fetched as it stands. *)
Definition is_absolute (u : string) : bool :=
  PyStr.startswith u "http://" || PyStr.startswith u "https://".

(** [n] slashes *)
Fixpoint slashes (n : nat) : string :=
  match n with
  | O => EmptyString
  | S k => String "/" (slashes k)
  end.

(** URL validation accepts, unchanged, what it has produced. *)
Definition idempotent (HttpUrl : string -> option string) : Prop :=
  forall u u', HttpUrl u = Some u' -> HttpUrl u' = Some u'.

(** A dictionary of profiles as [load_profiles] builds them: the keys are
    distinct and every URL is a validated one. *)
Definition well_formed (HttpUrl : string -> option string) (d : profiles_dict) : Prop :=
  NoDup (map fst d)
  /\ Forall (fun kv => HttpUrl (profile_url (snd kv)) = Some (profile_url (snd kv))) d.

(** The member id [m] is listed as a solver of some challenge in [d]. *)
Definition listed (d : solvers_dict) (m : json) : Prop :=
  exists k ms, In (k, ms) d /\ In m ms.

(** The entry is an object whose [name], when it has one, is a string. *)
Definition named_entry (entry : json) : Prop :=
  exists kv, entry = JObj kv
             /\ (assoc "name" kv = None \/ exists s, assoc "name" kv = Some (JStr s)).

(** ** Facts about strings *)

Lemma prefix_append (p s t : string) :
  String.prefix p s = true -> String.prefix p (s ++ t) = true.
Proof.
  revert p. induction s as [|a s IH]; intros p H.
  - destruct p; [destruct t; reflexivity | discriminate].
  - destruct p as [|b p]; [reflexivity|].
    simpl in *. destruct (ascii_dec b a); [auto | discriminate].
Qed.

Lemma contains_append_l (p s t : string) :
  PyStr.contains p s = true -> PyStr.contains p (s ++ t) = true.
Proof.
  induction s as [|a s IH]; intros H.
  - simpl in H. destruct p as [|b p]; [destruct t; reflexivity | discriminate].
  - change (String a s ++ t) with (String a (s ++ t)).
    unfold PyStr.contains in H |- *; fold PyStr.contains in H |- *.
    destruct (String.prefix p (String a s)) eqn:E.
    + change (String a (s ++ t)) with (String a s ++ t).
      now rewrite (prefix_append _ _ t E).
    + destruct (String.prefix p (String a (s ++ t))); auto.
Qed.

Lemma contains_append_r (p s t : string) :
  PyStr.contains p t = true -> PyStr.contains p (s ++ t) = true.
Proof.
  intros H. induction s as [|a s IH]; [exact H|].
  change (String a s ++ t) with (String a (s ++ t)).
  unfold PyStr.contains; fold PyStr.contains.
  destruct (String.prefix p (String a (s ++ t))); [reflexivity | exact IH].
Qed.

Lemma refused_error_text (r : response) :
  refused r ->
  raise_for_status r = Some (PyStr.of_Z (status_code r) ++ " Client Error: "
                               ++ reason r ++ " for url: " ++ url r)
  /\ (PyStr.contains "404" (client_error_text r)
      || PyStr.contains "403" (client_error_text r) = true).
Proof.
  unfold refused, raise_for_status, client_error_text.
  intros [H | H]; rewrite H; split; try reflexivity.
  apply orb_true_iff; right.
  change (PyStr.contains "403"
            ("Request failed: 403"
               ++ (" Client Error: " ++ reason r ++ " for url: " ++ url r)) = true).
  apply contains_append_l. reflexivity.
Qed.

(** ** The request helper *)

Section RequestFacts.

Variable py_repr : json -> string.
Variable server : list request -> request -> outcome.

Lemma make_request_answered (c : CTFdClient) (method endpoint : string)
    (kw : option json) (log : list request) (r : response) :
  server log (build_request c method endpoint kw) = Answered r ->
  raise_for_status r = None ->
  _make_request py_repr server c method endpoint kw log
  = (read_body py_repr (content r), (log ++ [build_request c method endpoint kw])%list).
Proof.
  intros Hs Hok. unfold _make_request. now rewrite Hs, Hok.
Qed.

Lemma make_request_refused (c : CTFdClient) (method endpoint : string)
    (kw : option json) (log : list request) (r : response) :
  server log (build_request c method endpoint kw) = Answered r ->
  refused r ->
  _make_request py_repr server c method endpoint kw log
  = (Raise (CTFdAPIError (client_error_text r)),
     (log ++ [build_request c method endpoint kw])%list).
Proof.
  intros Hs Hr. unfold _make_request. rewrite Hs.
  destruct (refused_error_text r Hr) as [-> _]. reflexivity.
Qed.

(** Every call of the helper issues exactly one request. *)
Lemma make_request_log (c : CTFdClient) (method endpoint : string)
    (kw : option json) (log : list request) :
  snd (_make_request py_repr server c method endpoint kw log)
  = (log ++ [build_request c method endpoint kw])%list.
Proof.
  unfold _make_request.
  destruct (server log _) as [msg | r]; [reflexivity|].
  destruct (raise_for_status r); reflexivity.
Qed.

End RequestFacts.

(** ** Flag submission *)

Section SubmissionFacts.

Variable py_repr : json -> string.
Variable server : list request -> request -> outcome.
Variable console_accepts : string -> bool.

(** When the console cannot print the line that announces a candidate,
    the run ends there with [MarkupError]; the request is not issued. *)
Lemma submit_loop_unannounced (c : CTFdClient) (a : attempt) (rest : list attempt)
    (last_error : option string) (log : list request) :
  console_accepts (trying_line py_repr a) = false ->
  submit_loop py_repr server console_accepts c (a :: rest) last_error log
  = (Raise MarkupError, log).
Proof.
  intros H. cbn [submit_loop]. unfold catch_api, bind, console_print.
  now rewrite H.
Qed.

(** When the console cannot print the line that reports a failure, the run
    ends with [MarkupError] after the request that failed. *)
Lemma submit_loop_unreported (c : CTFdClient) (a : attempt) (rest : list attempt)
    (last_error : option string) (log : list request) (msg : string) :
  console_accepts (trying_line py_repr a) = true ->
  fst (_make_request py_repr server c "POST" (endpoint a) (Some (payload a)) log)
  = Raise (CTFdAPIError msg) ->
  console_accepts (failed_line a msg) = false ->
  submit_loop py_repr server console_accepts c (a :: rest) last_error log
  = (Raise MarkupError,
     (log ++ [build_request c "POST" (endpoint a) (Some (payload a))])%list).
Proof.
  intros Ht Hm Hf. cbn [submit_loop]. unfold catch_api, bind, console_print.
  rewrite Ht. cbn [ret].
  pose proof (make_request_log py_repr server c "POST" (endpoint a)
                (Some (payload a)) log) as Hl.
  destruct (_make_request py_repr server c "POST" (endpoint a) (Some (payload a)) log)
    as [res log'].
  simpl in Hm, Hl. subst res log'. now rewrite Hf.
Qed.

(** A candidate answered with 403 or 404 is passed over: the loop goes on
    with the next one, remembering the error. *)
Lemma submit_loop_skip (c : CTFdClient) (a : attempt) (rest : list attempt)
    (last_error : option string) (log : list request) (r : response) :
  console_accepts (trying_line py_repr a) = true ->
  server log (build_request c "POST" (endpoint a) (Some (payload a))) = Answered r ->
  refused r ->
  console_accepts (failed_line a (client_error_text r)) = true ->
  submit_loop py_repr server console_accepts c (a :: rest) last_error log
  = submit_loop py_repr server console_accepts c rest (Some (client_error_text r))
      (log ++ [build_request c "POST" (endpoint a) (Some (payload a))])%list.
Proof.
  intros Ht Hs Hr Hf. cbn [submit_loop]. unfold catch_api, bind, console_print.
  rewrite Ht. cbn [ret].
  rewrite (make_request_refused py_repr server _ _ _ _ _ _ Hs Hr).
  rewrite Hf. cbn [ret].
  destruct (refused_error_text r Hr) as [_ Hc].
  apply orb_true_iff in Hc.
  destruct (PyStr.contains "404" (client_error_text r)) eqn:E4; [reflexivity|].
  destruct Hc as [Hc | Hc]; [discriminate|]. now rewrite Hc.
Qed.

(** An error whose text mentions neither 403 nor 404 ends the run at once. *)
Lemma submit_loop_stop (c : CTFdClient) (a : attempt) (rest : list attempt)
    (last_error : option string) (log : list request) (msg : string) :
  console_accepts (trying_line py_repr a) = true ->
  fst (_make_request py_repr server c "POST" (endpoint a) (Some (payload a)) log)
  = Raise (CTFdAPIError msg) ->
  console_accepts (failed_line a msg) = true ->
  PyStr.contains "404" msg = false ->
  PyStr.contains "403" msg = false ->
  submit_loop py_repr server console_accepts c (a :: rest) last_error log
  = (Ok (false, JStr msg),
     (log ++ [build_request c "POST" (endpoint a) (Some (payload a))])%list).
Proof.
  intros Ht Hm Hf H4 H3. cbn [submit_loop]. unfold catch_api, bind, console_print.
  rewrite Ht. cbn [ret].
  pose proof (make_request_log py_repr server c "POST" (endpoint a)
                (Some (payload a)) log) as Hl.
  destruct (_make_request py_repr server c "POST" (endpoint a) (Some (payload a)) log)
    as [res log'].
  simpl in Hm, Hl. subst res log'. now rewrite Hf, H4, H3.
Qed.

Lemma exhausted_client_error (r : response) :
  exhausted (Some (client_error_text r))
  = (false,
     JStr (if PyStr.contains "403" (client_error_text r)
           then not_allowed_message
           else "Could not find working submission endpoint. Last error: "
                  ++ client_error_text r)).
Proof.
  unfold exhausted.
  assert (String.eqb (client_error_text r) "" = false) as -> by reflexivity.
  now destruct (PyStr.contains "403" (client_error_text r)).
Qed.

(** C4, as the code has it: when all four candidates are answered with 403
    or 404 and the console prints the eight progress lines of the run,
    [submit_flag] returns false after four requests; the message is the
    "not allowed" text when the last error mentions 403, and otherwise
    "Could not find working submission endpoint. Last error: " followed by
    the last error. *)
Theorem submit_flag_exhausted (c : CTFdClient) (challenge_id : Z) (flag : string)
    (log : list request) (r1 r2 r3 r4 : response) :
  answers server log (candidate_requests c challenge_id flag)
    [Answered r1; Answered r2; Answered r3; Answered r4] ->
  refused r1 -> refused r2 -> refused r3 -> refused r4 ->
  prints console_accepts
    (progress_lines py_repr (submission_attempts challenge_id flag)
       [client_error_text r1; client_error_text r2;
        client_error_text r3; client_error_text r4]) ->
  submit_flag py_repr server console_accepts c challenge_id flag log
  = (Ok (false,
         JStr (if PyStr.contains "403" (client_error_text r4)
               then not_allowed_message
               else "Could not find working submission endpoint. Last error: "
                      ++ client_error_text r4)),
     (log ++ candidate_requests c challenge_id flag)%list).
Proof.
  intros Ha H1 H2 H3 H4 Hp.
  unfold candidate_requests in *. unfold submit_flag.
  destruct (submission_attempts challenge_id flag)
    as [|a1 [|a2 [|a3 [|a4 [|a5 rest]]]]] eqn:E; try discriminate.
  simpl in Ha. destruct Ha as (A1 & A2 & A3 & A4 & _).
  unfold prints in Hp. cbn [progress_lines forallb] in Hp.
  repeat (apply andb_true_iff in Hp; destruct Hp as [? Hp]).
  rewrite (submit_loop_skip c a1 _ None log r1) by assumption.
  rewrite (submit_loop_skip c a2 _ _ _ r2) by assumption.
  rewrite (submit_loop_skip c a3 _ _ _ r3) by assumption.
  rewrite (submit_loop_skip c a4 _ _ _ r4) by assumption.
  cbn [submit_loop map]. unfold ret. f_equal.
  - f_equal. apply exhausted_client_error.
  - now rewrite <- !app_assoc.
Qed.

End SubmissionFacts.

(** C3 at a failing input: the flag [flag{[/bin/sh]}] is submitted for
    challenge 1 to a platform whose first candidate, POST
    /challenges/attempt, answers every submission with the body
    [{"status": "correct", "message": "Correct"}].  The line that announces
    the candidate shows the payload, hence the flag; the console reads
    [[/bin/sh]] in it as a closing tag that closes nothing and raises
    [MarkupError] inside the [try], which catches [CTFdAPIError] only.
    [submit_flag] ends with that exception before any request is issued,
    where the same platform answers the flag [flag{x}] with
    [(True, "Correct")] after one request. *)
Theorem submit_flag_markup_in_flag :
  trying_line Samples.repr
    {| endpoint := "/challenges/attempt";
       payload := JObj [("challenge_id", JNum 1);
                        ("submission", JStr "flag{[/bin/sh]}")] |}
  = "[blue]Trying endpoint: /challenges/attempt with payload: {'challenge_id': 1, 'submission': 'flag{[/bin/sh]}'}[/blue]"
  /\ Samples.rich_markup
       "[blue]Trying endpoint: /challenges/attempt with payload: {'challenge_id': 1, 'submission': 'flag{[/bin/sh]}'}[/blue]"
     = false
  /\ submit_flag Samples.repr
       (Samples.only_at "http://ctf.example.com/api/v1/challenges/attempt"
          Samples.correct_body)
       Samples.rich_markup Samples.client 1 "flag{[/bin/sh]}" []
     = (Raise MarkupError, [])
  /\ submit_flag Samples.repr
       (Samples.only_at "http://ctf.example.com/api/v1/challenges/attempt"
          Samples.correct_body)
       Samples.rich_markup Samples.client 1 "flag{x}" []
     = (Ok (true, JStr "Correct"),
        [ {| req_method := "POST";
             req_url := "http://ctf.example.com/api/v1/challenges/attempt";
             req_json := Some (JObj [("challenge_id", JNum 1);
                                     ("submission", JStr "flag{x}")]) |} ]).
Proof. repeat split. Qed.

(** C4 as the spec words it fails: with 404 on all four candidates the
    message reads "Could not find working submission endpoint. Last error:
    ...", in which the text "no working submission endpoint" does not occur. *)
Lemma submit_flag_all_404_wording :
  fst (submit_flag Samples.repr (Samples.always_status 404 "Not Found")
         Samples.rich_markup Samples.client 1 "flag{x}" [])
  = Ok (false,
        JStr "Could not find working submission endpoint. Last error: Request failed: 404 Client Error: Not Found for url: http://ctf.example.com/api/v1/submissions")
  /\ PyStr.contains "no working submission endpoint"
       "Could not find working submission endpoint. Last error: Request failed: 404 Client Error: Not Found for url: http://ctf.example.com/api/v1/submissions"
     = false.
Proof. split; reflexivity. Qed.

Lemma submit_flag_exhausted_witness :
  submit_flag Samples.repr (Samples.always_status 403 "Forbidden")
    Samples.rich_markup Samples.client 1 "flag{x}" []
  = (Ok (false, JStr not_allowed_message),
     candidate_requests Samples.client 1 "flag{x}").
Proof.
  pose (r := fun u => {| status_code := 403; reason := "Forbidden"; url := u;
                         content := EmptyBody |}).
  apply (submit_flag_exhausted Samples.repr (Samples.always_status 403 "Forbidden")
           Samples.rich_markup Samples.client 1 "flag{x}" []
           (r "http://ctf.example.com/api/v1/challenges/attempt")
           (r "http://ctf.example.com/api/v1/challenges/1/attempts")
           (r "http://ctf.example.com/api/v1/submissions")
           (r "http://ctf.example.com/api/v1/submissions")).
  - repeat split.
  - left; reflexivity.
  - left; reflexivity.
  - left; reflexivity.
  - left; reflexivity.
  - reflexivity.
Defined.

(** C1 at a failing input: the platform is reached at
    [http://10.0.0.5:4040] and answers every submission with 400 Bad
    Request.  The error text of the first candidate contains "404" (in the
    port number), so the loop does not stop: all four candidates are tried
    and the answer is the exhaustion message, not the first error. *)
Theorem submit_flag_bad_request_falls_through :
  submit_flag Samples.repr (Samples.always_status 400 "Bad Request")
    Samples.rich_markup Samples.client_4040 1 "flag{x}" []
  = (Ok (false,
         JStr "Could not find working submission endpoint. Last error: Request failed: 400 Client Error: Bad Request for url: http://10.0.0.5:4040/api/v1/submissions"),
     candidate_requests Samples.client_4040 1 "flag{x}")
  /\ List.length (candidate_requests Samples.client_4040 1 "flag{x}") = 4%nat
  /\ fst (_make_request Samples.repr (Samples.always_status 400 "Bad Request")
            Samples.client_4040 "POST" "/challenges/attempt"
            (Some (JObj [("challenge_id", JNum 1); ("submission", JStr "flag{x}")])) [])
     = Raise (CTFdAPIError "Request failed: 400 Client Error: Bad Request for url: http://10.0.0.5:4040/api/v1/challenges/attempt").
Proof. repeat split. Qed.

(** ** The envelope convention *)

Section EnvelopeFacts.

Variable py_repr : json -> string.
Variable server : list request -> request -> outcome.

(** C2, as the code has it: for a response that passes the status check,
    an empty body gives the empty object; a body that is an object whose
    [success] is present and falsy ([false], [null], [0], an empty string,
    array or object) raises [CTFdAPIError] with "API Error: " and the
    body's [message] ("Unknown error" when absent); any other object gives
    the value under [data] when present and the whole object otherwise. *)
Theorem make_request_envelope (c : CTFdClient) (method endpoint : string)
    (kw : option json) (log : list request) (r : response) :
  server log (build_request c method endpoint kw) = Answered r ->
  raise_for_status r = None ->
  let run := fst (_make_request py_repr server c method endpoint kw log) in
  (content r = EmptyBody -> run = Ok (JObj []))
  /\ (forall kv s,
        content r = JsonBody (JObj kv) ->
        assoc "success" kv = Some s -> truthy s = false ->
        run = Raise (CTFdAPIError
                       ("API Error: "
                          ++ py_str py_repr
                               match assoc "message" kv with
                               | Some m => m
                               | None => JStr "Unknown error"
                               end)))
  /\ (forall kv,
        content r = JsonBody (JObj kv) ->
        (forall s, assoc "success" kv = Some s -> truthy s = true) ->
        run = Ok match assoc "data" kv with
                 | Some d => d
                 | None => JObj kv
                 end).
Proof.
  intros Hs Hok run. subst run.
  rewrite (make_request_answered py_repr server c method endpoint kw log r Hs Hok).
  cbn [fst]. repeat split.
  - now intros ->.
  - intros kv s -> Hsucc Hfalsy. cbn [read_body]. unfold unwrap_envelope.
    cbn [py_get rbind]. rewrite Hsucc, Hfalsy. reflexivity.
  - intros kv -> Hsucc. cbn [read_body]. unfold unwrap_envelope.
    cbn [py_get rbind].
    destruct (assoc "success" kv) as [s|] eqn:E.
    + now rewrite (Hsucc s eq_refl).
    + reflexivity.
Qed.

End EnvelopeFacts.

Lemma make_request_envelope_witness :
  fst (_make_request Samples.repr
         (Samples.only_at "http://ctf.example.com/api/v1/challenges/attempt"
            (JObj [("success", JBool false); ("message", JStr "Challenge is closed")]))
         Samples.client "POST" "/challenges/attempt" None [])
  = Raise (CTFdAPIError "API Error: Challenge is closed").
Proof.
  exact (proj1 (proj2
           (make_request_envelope Samples.repr
              (Samples.only_at "http://ctf.example.com/api/v1/challenges/attempt"
                 (JObj [("success", JBool false);
                        ("message", JStr "Challenge is closed")]))
              Samples.client "POST" "/challenges/attempt" None []
              {| status_code := 200; reason := "OK";
                 url := "http://ctf.example.com/api/v1/challenges/attempt";
                 content := JsonBody (JObj [("success", JBool false);
                                            ("message", JStr "Challenge is closed")]) |}
              eq_refl eq_refl))
           [("success", JBool false); ("message", JStr "Challenge is closed")]
           (JBool false) eq_refl eq_refl eq_refl).
Defined.

(** C2 as the spec words it fails: a body whose [success] is [null], which
    is not [false], is not returned; the helper raises. *)
Lemma make_request_null_success_raises :
  assoc "success" [("success", JNull)] = Some JNull
  /\ JNull <> JBool false
  /\ fst (_make_request Samples.repr
            (Samples.only_at "http://ctf.example.com/api/v1/challenges"
               (JObj [("success", JNull)]))
            Samples.client "GET" "/challenges" None [])
     = Raise (CTFdAPIError "API Error: Unknown error").
Proof. repeat split. discriminate. Qed.

(** C7 at a failing input: the challenges endpoint answers 200 with the
    JSON array [[]] as its body.  [data.get] does not exist on a list, the
    [AttributeError] is none of the exceptions [_make_request] converts, and
    [test_connection] lets it through to its caller. *)
Theorem test_connection_raises_on_array_body :
  test_connection Samples.repr
    (Samples.only_at "http://ctf.example.com/api/v1/challenges" (JArr []))
    Samples.client []
  = (Raise AttributeError,
     [ {| req_method := "GET";
          req_url := "http://ctf.example.com/api/v1/challenges";
          req_json := None |} ]).
Proof. reflexivity. Qed.

(** ** Connection test *)

Ltac conn_raised :=
  exists false; split;
  [ reflexivity
  | split; [ intros _; eexists; reflexivity | intros _; reflexivity ] ].

Ltac conn_passed :=
  exists true; split;
  [ reflexivity
  | split; [ discriminate | intros [? ?]; discriminate ] ].

Section ConnectionFacts.

Variable py_repr : json -> string.
Variable server : list request -> request -> outcome.

(** X22: whenever the body, if any, is a JSON object, [test_connection]
    returns a boolean after exactly one request: false exactly when the
    helper raised [CTFdAPIError]. *)
Lemma test_connection_on_objects (c : CTFdClient) (log : list request) :
  (forall r doc, server log (build_request c "GET" "/challenges" None) = Answered r ->
                 content r = JsonBody doc -> is_dict doc = true) ->
  exists b : bool,
    test_connection py_repr server c log
    = (Ok b, (log ++ [build_request c "GET" "/challenges" None])%list)
    /\ (b = false <->
        exists msg, fst (_make_request py_repr server c "GET" "/challenges" None log)
                    = Raise (CTFdAPIError msg)).
Proof.
  intros Hobj. unfold test_connection, catch_api, bind, _make_request.
  cbv zeta.
  destruct (server log (build_request c "GET" "/challenges" None)) as [msg | r] eqn:Hs.
  - conn_raised.
  - destruct (raise_for_status r) as [msg|]; [conn_raised|].
    destruct (content r) as [| doc | [|] msg] eqn:Hc; cbn [read_body];
      [conn_passed | | conn_raised | conn_raised].
    pose proof (Hobj r doc eq_refl Hc) as Hd.
    destruct doc; try discriminate. unfold unwrap_envelope. cbn [py_get rbind].
    destruct (truthy _); cbn [negb]; [conn_passed | conn_raised].
Qed.

End ConnectionFacts.

(** ** Solves of a user *)

(** The name [get_user_solves] is bound twice in the class body; the
    attribute of the class is the second definition. *)
Lemma class_attr_get_user_solves : class_attr "get_user_solves" = Some 584%nat.
Proof. reflexivity. Qed.

(** C5 at a failing input: every solves endpoint answers 404 and the
    challenges list marks challenges 1 and 3 as solved.  The method that
    the class exposes is the definition of line 584: called for the current
    user it issues the single request GET /users/None/solves and returns
    the empty list (and raises [TypeError] when the argument is left out);
    the definition of line 428, which tries the four endpoints and then
    derives [[1, 3]] from the challenges list, is never run. *)
Theorem get_user_solves_is_second_definition :
  let platform :=
    Samples.only_at "http://ctf.example.com/api/v1/challenges" Samples.challenges_doc in
  get_user_solves Samples.repr platform Samples.client PyNone []
  = (Ok (JArr []),
     [ {| req_method := "GET";
          req_url := "http://ctf.example.com/api/v1/users/None/solves";
          req_json := None |} ])
  /\ get_user_solves Samples.repr platform Samples.client Omitted []
     = (Raise TypeError, [])
  /\ fst (get_user_solves_428 Samples.repr platform Samples.client PyNone [])
     = Ok (JArr [JNum 1; JNum 3])
  /\ map req_url (snd (get_user_solves_428 Samples.repr platform Samples.client PyNone []))
     = [ "http://ctf.example.com/api/v1/me/solves";
         "http://ctf.example.com/api/v1/me";
         "http://ctf.example.com/api/v1/submissions/me";
         "http://ctf.example.com/api/v1/teams/me/solves";
         "http://ctf.example.com/api/v1/challenges" ].
Proof. repeat split. Qed.

(** ** The profile store *)

Lemma count_defaults_cons (k : string) (p : CTFProfile) (d : profiles_dict) :
  count_defaults ((k, p) :: d)
  = ((if default p then 1 else 0) + count_defaults d)%nat.
Proof. unfold count_defaults. simpl. now destruct (default p). Qed.

Lemma count_defaults_clear (d : profiles_dict) :
  count_defaults (clear_defaults d) = 0%nat.
Proof.
  induction d as [|[k p] d IH]; [reflexivity|].
  unfold clear_defaults in *. cbn [map fst snd].
  now rewrite count_defaults_cons, IH.
Qed.

Lemma count_defaults_dict_set (k : string) (p : CTFProfile) (d : profiles_dict) :
  (count_defaults (dict_set k p d)
   <= (if default p then 1 else 0) + count_defaults d)%nat.
Proof.
  induction d as [|[k' p'] d IH]; cbn [dict_set].
  - rewrite count_defaults_cons. unfold count_defaults. simpl. lia.
  - destruct (String.eqb k' k); rewrite !count_defaults_cons;
      destruct (default p), (default p'); lia.
Qed.

Lemma count_defaults_set_cleared (k : string) (p : CTFProfile) (d : profiles_dict) :
  default p = true ->
  count_defaults (dict_set k p (clear_defaults d)) = 1%nat.
Proof.
  intros Hp. induction d as [|[k' p'] d IH].
  - cbn. unfold count_defaults. simpl. now rewrite Hp.
  - unfold clear_defaults in *. cbn [map fst snd dict_set].
    destruct (String.eqb k' k).
    + rewrite count_defaults_cons, Hp.
      fold (clear_defaults d). now rewrite count_defaults_clear.
    + rewrite count_defaults_cons. cbn [default set_default_flag].
      now rewrite IH.
Qed.

Lemma count_defaults_dict_del (k : string) (p : CTFProfile) (d : profiles_dict) :
  assoc k d = Some p ->
  count_defaults d
  = ((if default p then 1 else 0) + count_defaults (dict_del k d))%nat.
Proof.
  induction d as [|[k' p'] d IH]; cbn [assoc dict_del]; [discriminate|].
  destruct (String.eqb k' k).
  - intros [= ->]. apply count_defaults_cons.
  - intros H. rewrite !count_defaults_cons, (IH H). lia.
Qed.

Lemma count_defaults_first_default (d : profiles_dict) :
  count_defaults d = 0%nat ->
  d <> [] ->
  count_defaults (first_default d) = 1%nat.
Proof.
  destruct d as [|[k p] d]; [congruence|]. intros H _.
  cbn [first_default]. rewrite count_defaults_cons in *.
  cbn [default set_default_flag]. destruct (default p); [discriminate | lia].
Qed.

Section ProfileFacts.

Variable HttpUrl : string -> option string.

Lemma new_profile_default (n u t : string) (um dflt : bool) (p : CTFProfile) :
  new_profile HttpUrl n u t um dflt = Ok p -> default p = dflt /\ name p = n.
Proof.
  unfold new_profile. destruct (HttpUrl u); [|discriminate].
  intros [= <-]. now split.
Qed.

Lemma load_all_count (data acc ps : profiles_dict) :
  load_all HttpUrl acc data = Ok ps ->
  (count_defaults ps <= count_defaults acc + count_defaults data)%nat.
Proof.
  revert acc. induction data as [|[k p] data IH]; intros acc; cbn [load_all].
  - intros [= ->]. unfold count_defaults at 3. simpl. lia.
  - destruct (new_profile HttpUrl (name p) (profile_url p) (profile_token p)
                (user_mode p) (default p)) as [p'|e] eqn:E; cbn [rbind]; [|discriminate].
    intros H. apply IH in H. apply new_profile_default in E as [E _].
    pose proof (count_defaults_dict_set k p' acc) as Hs. rewrite E in Hs.
    rewrite count_defaults_cons. lia.
Qed.

Lemma load_profiles_count (fs : config_dir) :
  (count_defaults (load_profiles HttpUrl fs) <= count_defaults (stored_profiles fs))%nat.
Proof.
  unfold load_profiles, stored_profiles.
  destruct (file fs) as [| | data]; try (unfold count_defaults; simpl; lia).
  destruct (load_all HttpUrl [] data) as [ps|e] eqn:E.
  - apply load_all_count in E. unfold count_defaults at 2 in E. simpl in E. lia.
  - unfold count_defaults at 1. simpl. lia.
Qed.

(** What [save_profiles] leaves in the store. *)
Lemma save_profiles_stored (fs fs' : config_dir) (profiles : profiles_dict) :
  save_profiles fs profiles = Ok fs' -> stored_profiles fs' = profiles.
Proof.
  unfold save_profiles. destruct (writable fs); [|discriminate].
  now intros [= <-].
Qed.

(** The store after a successful [add_profile] with [set_default=True]. *)
Lemma add_profile_default_exactly_one (fs : config_dir) (n u t : string) (um : bool) :
  fst (add_profile HttpUrl fs n u t um true) = true ->
  count_defaults (stored_profiles (snd (add_profile HttpUrl fs n u t um true))) = 1%nat.
Proof.
  unfold add_profile. cbn [orb].
  destruct (new_profile HttpUrl n u t um true) as [p|e] eqn:E; [|discriminate].
  destruct (save_profiles fs _) as [fs'|e] eqn:S; [|discriminate].
  intros _. cbn [snd]. rewrite (save_profiles_stored _ _ _ S).
  apply count_defaults_set_cleared. now apply new_profile_default in E.
Qed.

Lemma add_profile_at_most_one (fs : config_dir) (n u t : string) (um sd : bool) :
  (count_defaults (stored_profiles fs) <= 1)%nat ->
  (count_defaults (stored_profiles (snd (add_profile HttpUrl fs n u t um sd))) <= 1)%nat.
Proof.
  intros Hfs. destruct sd.
  - destruct (fst (add_profile HttpUrl fs n u t um true)) eqn:F.
    + rewrite (add_profile_default_exactly_one fs n u t um F). lia.
    + revert F. unfold add_profile.
      destruct (new_profile _ _ _ _ _ _); [|now intros _].
      destruct (save_profiles fs _); [discriminate | now intros _].
  - unfold add_profile. cbn [orb].
    pose proof (load_profiles_count fs) as Hl.
    destruct (new_profile HttpUrl n u t um _) as [p|e] eqn:E; [|exact Hfs].
    destruct (save_profiles fs _) as [fs'|e] eqn:S; [|exact Hfs].
    cbn [snd]. rewrite (save_profiles_stored _ _ _ S).
    apply new_profile_default in E as [E _].
    pose proof (count_defaults_dict_set n p (load_profiles HttpUrl fs)) as Hs.
    destruct (load_profiles HttpUrl fs) as [|kp rest] eqn:L.
    + cbn. unfold count_defaults. simpl. destruct (default p); simpl; lia.
    + rewrite E in Hs. lia.
Qed.

Lemma delete_profile_at_most_one (fs : config_dir) (n : string) :
  (count_defaults (stored_profiles fs) <= 1)%nat ->
  (count_defaults (stored_profiles (snd (delete_profile HttpUrl fs n))) <= 1)%nat.
Proof.
  intros Hfs. unfold delete_profile.
  pose proof (load_profiles_count fs) as Hl.
  destruct (assoc n (load_profiles HttpUrl fs)) as [p|] eqn:A; [|exact Hfs].
  destruct (save_profiles fs _) as [fs'|e] eqn:S; [|exact Hfs].
  cbn [snd]. rewrite (save_profiles_stored _ _ _ S).
  pose proof (count_defaults_dict_del n p _ A) as Hd.
  destruct (default p); cbn [andb].
  - destruct (dict_del n (load_profiles HttpUrl fs)) as [|kp rest] eqn:D.
    + unfold count_defaults. simpl. lia.
    + rewrite count_defaults_first_default; [lia | lia | discriminate].
  - lia.
Qed.

Lemma set_default_profile_at_most_one (fs : config_dir) (n : string) :
  (count_defaults (stored_profiles fs) <= 1)%nat ->
  (count_defaults (stored_profiles (snd (set_default_profile HttpUrl fs n))) <= 1)%nat.
Proof.
  intros Hfs. unfold set_default_profile.
  destruct (assoc n (load_profiles HttpUrl fs)) as [p|] eqn:A; [|exact Hfs].
  destruct (save_profiles fs _) as [fs'|e] eqn:S; [|exact Hfs].
  cbn [snd]. rewrite (save_profiles_stored _ _ _ S).
  rewrite count_defaults_set_cleared; [lia | reflexivity].
Qed.

(** C6, as the code has it: at most one stored profile has
    [default == true], and every mutation of the store ([add_profile],
    [delete_profile], [set_default_profile]) preserves this; after a
    successful [add_profile] with [set_default=True] exactly one stored
    profile has [default == true]. *)
Theorem at_most_one_default_preserved (fs : config_dir) :
  (count_defaults (stored_profiles fs) <= 1)%nat ->
  (forall n u t um sd,
     (count_defaults (stored_profiles (snd (add_profile HttpUrl fs n u t um sd)))
      <= 1)%nat)
  /\ (forall n,
        (count_defaults (stored_profiles (snd (delete_profile HttpUrl fs n))) <= 1)%nat)
  /\ (forall n,
        (count_defaults (stored_profiles (snd (set_default_profile HttpUrl fs n)))
         <= 1)%nat)
  /\ (forall n u t um,
        fst (add_profile HttpUrl fs n u t um true) = true ->
        count_defaults (stored_profiles (snd (add_profile HttpUrl fs n u t um true)))
        = 1%nat).
Proof.
  intros Hfs. repeat split; intros.
  - now apply add_profile_at_most_one.
  - now apply delete_profile_at_most_one.
  - now apply set_default_profile_at_most_one.
  - now apply add_profile_default_exactly_one.
Qed.

(** C9: when [add_profile] finds the store empty, the profile it creates
    and stores has [default == true], whatever [set_default] is. *)
Theorem add_profile_first_is_default (fs : config_dir) (n u t u' : string)
    (um set_default : bool) :
  load_profiles HttpUrl fs = [] ->
  HttpUrl u = Some u' ->
  writable fs = true ->
  add_profile HttpUrl fs n u t um set_default
  = (true,
     {| file := Stored [(n, {| name := n; profile_url := u'; profile_token := t;
                               user_mode := um; default := true |})];
        writable := true |}).
Proof.
  intros Hempty Hurl Hw. unfold add_profile, new_profile, save_profiles.
  rewrite Hempty, Hurl, Hw.
  destruct set_default; reflexivity.
Qed.

End ProfileFacts.

Lemma at_most_one_default_preserved_witness :
  count_defaults
    (stored_profiles
       (snd (add_profile Samples.accept_url Samples.two_profiles
               "carol" "https://c.example.com/" "tc" true true)))
  = 1%nat.
Proof.
  refine (proj2 (proj2 (proj2
            (at_most_one_default_preserved Samples.accept_url Samples.two_profiles _)))
            "carol" "https://c.example.com/" "tc" true eq_refl).
  unfold count_defaults. simpl. lia.
Defined.

(** C6 as the spec words it fails: a store with exactly one default
    profile has none after a mutation.  Deleting the only profile leaves an
    empty store. *)
Lemma delete_only_profile_leaves_no_default :
  count_defaults (stored_profiles Samples.one_profile) = 1%nat
  /\ delete_profile Samples.accept_url Samples.one_profile "alice"
     = (true, {| file := Stored []; writable := true |})
  /\ count_defaults
       (stored_profiles
          (snd (delete_profile Samples.accept_url Samples.one_profile "alice")))
     = 0%nat.
Proof. repeat split. Qed.

Lemma add_profile_first_is_default_witness :
  add_profile Samples.accept_url Samples.no_store
    "bob" "https://b.example.com/" "tb" false false
  = (true,
     {| file := Stored [("bob", {| name := "bob";
                                   profile_url := "https://b.example.com/";
                                   profile_token := "tb";
                                   user_mode := false; default := true |})];
        writable := true |}).
Proof.
  apply (add_profile_first_is_default Samples.accept_url Samples.no_store
           "bob" "https://b.example.com/" "tb" "https://b.example.com/" false false);
    reflexivity.
Defined.

(** ** Scoreboard *)

Section ScoreboardFacts.

Variable py_repr : json -> string.
Variable server : list request -> request -> outcome.
Variable as_int : json -> option Z.
Variable as_str : json -> option string.

Lemma validated_ok {A : Type} (o : option A) (a : A) :
  validated o = Ok a <-> o = Some a.
Proof. destruct o; simpl; split; congruence. Qed.

(** One turn of the loop: the entry has the rank it was given and the
    fields of the item it was built from. *)
Lemma scoreboard_entry_ok (i : Z) (item : json) (e : ScoreboardEntry) :
  scoreboard_entry as_int as_str i item = Ok e <->
  pos e = i /\ describes as_int as_str item e.
Proof.
  unfold scoreboard_entry, describes. split.
  - destruct item as [| | | | |kv]; try discriminate.
    cbn [py_getitem py_get rbind].
    destruct (assoc "account_id" kv) as [aid|] eqn:Ha; [|discriminate].
    destruct (assoc "name" kv) as [nm|] eqn:Hn; [|discriminate].
    destruct (assoc "score" kv) as [sc|] eqn:Hs; [|discriminate].
    cbn [rbind].
    destruct (as_int aid) as [aid'|] eqn:Ha'; [|discriminate].
    destruct (as_str nm) as [nm'|] eqn:Hn'; [|discriminate].
    destruct (as_int sc) as [sc'|] eqn:Hs'; [|discriminate].
    cbn [validated rbind].
    destruct (as_str match assoc "type" kv with Some x => x | None => JStr "user" end)
      as [ty'|] eqn:Ht; [|discriminate].
    cbn [validated rbind]. intros [= ?]; subst e.
    cbn [pos account_id account_name score account_type].
    split; [reflexivity|].
    exists kv, aid, nm, sc. repeat split; assumption.
  - intros [Hp (kv & aid & nm & sc & -> & Ha & Ha' & Hn & Hn' & Hs & Hs' & Ht)].
    cbn [py_getitem py_get rbind]. rewrite Ha, Hn, Hs. cbn [rbind].
    rewrite Ha', Hn', Hs', Ht. cbn [validated rbind].
    destruct e; cbn in *; now subst.
Qed.

(** The loop keeps the order of the response and counts up from [i0]. *)
Lemma scoreboard_entries_order (items : list json) :
  forall (i0 : Z) (es : list ScoreboardEntry),
    scoreboard_entries as_int as_str i0 items = Ok es ->
    List.length es = List.length items
    /\ forall (i : nat) (item : json),
         nth_error items i = Some item ->
         exists e, nth_error es i = Some e
                   /\ pos e = i0 + Z.of_nat i
                   /\ describes as_int as_str item e.
Proof.
  induction items as [|x items IH]; intros i0 es; cbn [scoreboard_entries].
  - intros [= <-]. split; [reflexivity|]. intros [|i] item; discriminate.
  - destruct (scoreboard_entry as_int as_str i0 x) as [e|] eqn:E; [|discriminate].
    cbn [rbind].
    destruct (scoreboard_entries as_int as_str (i0 + 1) items) as [es'|] eqn:R;
      [|discriminate].
    cbn [rbind]. intros [= <-].
    destruct (IH _ _ R) as [Hlen Hnth]. split; [simpl; congruence|].
    intros [|i] item; cbn [nth_error].
    + intros [= <-]. exists e. apply scoreboard_entry_ok in E as [Hp Hd].
      repeat split; [lia | exact Hd].
    + intros H. destruct (Hnth i item H) as (e' & He' & Hp & Hd).
      exists e'. repeat split; [exact He' | lia | exact Hd].
Qed.

(** On well-formed items the loop runs to its end. *)
Lemma scoreboard_entries_total (items : list json) :
  Forall (fun item => exists e, describes as_int as_str item e) items ->
  forall i0 : Z, exists es, scoreboard_entries as_int as_str i0 items = Ok es.
Proof.
  induction 1 as [|x items [e He] _ IH]; intros i0; cbn [scoreboard_entries].
  - now exists [].
  - pose (e' := {| pos := i0; account_id := account_id e;
                   account_name := account_name e; score := score e;
                   account_type := account_type e |}).
    assert (scoreboard_entry as_int as_str i0 x = Ok e') as ->.
    { apply scoreboard_entry_ok. split; [reflexivity | exact He]. }
    destruct (IH (i0 + 1)) as [es ->]. cbn [rbind]. eauto.
Qed.

(** C8: whatever the scoreboard response, the entries that
    [get_scoreboard] returns are as many as the items of the response, the
    entry at index [i] has [pos = i + 1] and carries the fields of the item
    at index [i]: ranks follow the order of the response, nothing is
    re-sorted.  And when the response is a list of well-formed items,
    [get_scoreboard] does return. *)
Theorem get_scoreboard_positions (c : CTFdClient) (count : Z) (log : list request) :
  (forall entries log',
     get_scoreboard py_repr server as_int as_str c count log = (Ok entries, log') ->
     exists data items,
       _make_request py_repr server c "GET"
         ("/scoreboard?count=" ++ PyStr.of_Z count) None log = (Ok data, log')
       /\ py_iter data = Ok items
       /\ List.length entries = List.length items
       /\ forall (i : nat) (item : json),
            nth_error items i = Some item ->
            exists e, nth_error entries i = Some e
                      /\ pos e = Z.of_nat i + 1
                      /\ describes as_int as_str item e)
  /\ (forall items log',
        _make_request py_repr server c "GET"
          ("/scoreboard?count=" ++ PyStr.of_Z count) None log = (Ok (JArr items), log') ->
        Forall (fun item => exists e, describes as_int as_str item e) items ->
        exists entries,
          get_scoreboard py_repr server as_int as_str c count log = (Ok entries, log')).
Proof.
  unfold get_scoreboard, bind, lift. split.
  - intros entries log'.
    destruct (_make_request py_repr server c "GET" _ None log) as [[data|e] l];
      [|discriminate].
    destruct (py_iter data) as [items|e] eqn:I; cbn [rbind]; [|discriminate].
    intros [= H <-]. exists data, items.
    destruct (scoreboard_entries_order items 1 entries H) as [Hlen Hnth].
    repeat split; try assumption.
    intros i item Hi. destruct (Hnth i item Hi) as (e & He & Hp & Hd).
    exists e. repeat split; [exact He | lia | exact Hd].
  - intros items log' -> Hwf. cbn [py_iter rbind].
    destruct (scoreboard_entries_total items Hwf 1) as [es ->]. eauto.
Qed.

End ScoreboardFacts.

Lemma get_scoreboard_positions_witness :
  exists entries,
    get_scoreboard Samples.repr
      (Samples.only_at "http://ctf.example.com/api/v1/scoreboard?count=50"
         Samples.scoreboard_doc)
      Samples.strict_int Samples.strict_str Samples.client 50 []
    = (Ok entries,
       [ {| req_method := "GET";
            req_url := "http://ctf.example.com/api/v1/scoreboard?count=50";
            req_json := None |} ]).
Proof.
  refine (proj2 (get_scoreboard_positions Samples.repr
                   (Samples.only_at "http://ctf.example.com/api/v1/scoreboard?count=50"
                      Samples.scoreboard_doc)
                   Samples.strict_int Samples.strict_str Samples.client 50 [])
            [ JObj [("account_id", JNum 7); ("name", JStr "low"); ("score", JNum 10)];
              JObj [("account_id", JNum 4); ("name", JStr "high"); ("score", JNum 50);
                    ("type", JStr "team")];
              JObj [("account_id", JNum 9); ("name", JStr "mid"); ("score", JNum 30)] ]
            _ eq_refl _).
  repeat constructor.
  - exists {| pos := 1; account_id := 7; account_name := "low"; score := 10;
              account_type := "user" |}.
    unfold describes. repeat eexists.
  - exists {| pos := 2; account_id := 4; account_name := "high"; score := 50;
              account_type := "team" |}.
    unfold describes. repeat eexists.
  - exists {| pos := 3; account_id := 9; account_name := "mid"; score := 30;
              account_type := "user" |}.
    unfold describes. repeat eexists.
Defined.

(** The ranks of a concrete run: the scores 10, 50, 30 arrive unsorted and
    stay so. *)
Example get_scoreboard_keeps_response_order :
  fst (get_scoreboard Samples.repr
         (Samples.only_at "http://ctf.example.com/api/v1/scoreboard?count=50"
            Samples.scoreboard_doc)
         Samples.strict_int Samples.strict_str Samples.client 50 [])
  = Ok [ {| pos := 1; account_id := 7; account_name := "low"; score := 10;
            account_type := "user" |};
         {| pos := 2; account_id := 4; account_name := "high"; score := 50;
            account_type := "team" |};
         {| pos := 3; account_id := 9; account_name := "mid"; score := 30;
            account_type := "user" |} ].
Proof. reflexivity. Qed.

(** ** Challenge files *)

Section FileFacts.

Variable py_repr : json -> string.
Variable server : list request -> request -> outcome.

Lemma file_url_ok (c : CTFdClient) (item : json) (u : string) :
  file_url c item = Ok u -> exists f, item = JStr f /\ resolves c f u.
Proof.
  destruct item as [| | |f| |]; try discriminate. cbn [file_url].
  intros H. exists f. split; [reflexivity|]. unfold resolves.
  destruct (PyStr.startswith f "http"); [|destruct (PyStr.startswith f "/files/")];
    injection H as <-; repeat split; intros; congruence.
Qed.

Lemma file_url_total (c : CTFdClient) (f : string) :
  exists u, file_url c (JStr f) = Ok u.
Proof.
  cbn [file_url].
  destruct (PyStr.startswith f "http"); [|destruct (PyStr.startswith f "/files/")];
    eauto.
Qed.

(** A resolved URL is absolute as soon as the base URL is, unless the
    entry starts with "http" without being absolute itself. *)
Lemma resolves_absolute (c : CTFdClient) (f u : string) :
  resolves c f u ->
  is_absolute (base_url c) = true ->
  (PyStr.startswith f "http" = true -> is_absolute f = true) ->
  is_absolute u = true.
Proof.
  intros (H1 & H2 & H3) Hb Hf.
  assert (Happ : forall t, is_absolute (base_url c ++ t) = true).
  { intros t. unfold is_absolute, PyStr.startswith in *.
    apply orb_true_iff in Hb. apply orb_true_iff.
    destruct Hb as [Hb | Hb]; [left | right]; now apply prefix_append. }
  destruct (PyStr.startswith f "http") eqn:Ef.
  - rewrite (H1 eq_refl). now apply Hf.
  - destruct (PyStr.startswith f "/files/") eqn:Eg.
    + rewrite (H2 eq_refl eq_refl). apply Happ.
    + rewrite (H3 eq_refl eq_refl). apply Happ.
Qed.

Lemma resolved_all_absolute (c : CTFdClient) (items : list json) (urls : list string) :
  Forall2 (fun item u => exists f, item = JStr f /\ resolves c f u) items urls ->
  is_absolute (base_url c) = true ->
  (forall f, In (JStr f) items ->
             PyStr.startswith f "http" = true -> is_absolute f = true) ->
  Forall (fun u => is_absolute u = true) urls.
Proof.
  intros HF Hb. induction HF as [|item u items urls (f & -> & Hr) _ IH]; intros Hent.
  - constructor.
  - constructor.
    + apply (resolves_absolute c f u Hr Hb). apply Hent. now left.
    + apply IH. intros g Hg. apply Hent. now right.
Qed.

Lemma rmap_file_url (c : CTFdClient) (items : list json) :
  forall urls, rmap (file_url c) items = Ok urls ->
    Forall2 (fun item u => exists f, item = JStr f /\ resolves c f u) items urls.
Proof.
  induction items as [|x items IH]; intros urls; cbn [rmap].
  - intros [= <-]. constructor.
  - destruct (file_url c x) as [u|] eqn:E; [|discriminate]. cbn [rbind].
    destruct (rmap (file_url c) items) as [us|]; [|discriminate]. cbn [rbind].
    intros [= <-]. constructor; [now apply file_url_ok | now apply IH].
Qed.

Lemma rmap_file_url_total (c : CTFdClient) (fs : list string) :
  exists urls, rmap (file_url c) (map JStr fs) = Ok urls
               /\ List.length urls = List.length fs.
Proof.
  induction fs as [|f fs [us [IH Hlen]]]; cbn [map rmap].
  - now exists [].
  - destruct (file_url_total c f) as [u ->]. rewrite IH. cbn [rbind].
    exists (u :: us). split; [reflexivity | simpl; congruence].
Qed.

(** C10, as the code has it: every URL that [get_challenge_files] returns
    comes from one entry of the challenge's [files], in order: the entry
    itself when it starts with "http", the base URL followed by the entry
    when it starts with "/files/", and otherwise the base URL, "/files/"
    and the entry without its leading slashes.  The returned URLs are all
    absolute when the base URL is absolute and every entry that starts
    with "http" is absolute.  And when [files] is a list of strings (or is
    absent), the call does return, one URL per entry. *)
Theorem get_challenge_files_absolute (c : CTFdClient) (challenge_id : Z)
    (log : list request) :
  (forall urls log',
     get_challenge_files py_repr server c challenge_id log = (Ok urls, log') ->
     exists data files items,
       _make_request py_repr server c "GET"
         ("/challenges/" ++ PyStr.of_Z challenge_id) None log = (Ok data, log')
       /\ py_get data "files" (JArr []) = Ok files
       /\ py_iter files = Ok items
       /\ Forall2 (fun item u => exists f, item = JStr f /\ resolves c f u) items urls
       /\ (is_absolute (base_url c) = true ->
           (forall f, In (JStr f) items ->
                      PyStr.startswith f "http" = true -> is_absolute f = true) ->
           Forall (fun u => is_absolute u = true) urls))
  /\ (forall kv fs log',
        _make_request py_repr server c "GET"
          ("/challenges/" ++ PyStr.of_Z challenge_id) None log = (Ok (JObj kv), log') ->
        assoc "files" kv = Some (JArr (map JStr fs))
        \/ (assoc "files" kv = None /\ fs = []) ->
        exists urls,
          get_challenge_files py_repr server c challenge_id log = (Ok urls, log')
          /\ List.length urls = List.length fs
          /\ (is_absolute (base_url c) = true ->
              Forall (fun f => PyStr.startswith f "http" = true ->
                               is_absolute f = true) fs ->
              Forall (fun u => is_absolute u = true) urls)).
Proof.
  unfold get_challenge_files, bind, lift. split.
  - intros urls log'.
    destruct (_make_request py_repr server c "GET" _ None log) as [[data|e] l];
      [|discriminate].
    destruct (py_get data "files" (JArr [])) as [files|e] eqn:G; cbn [rbind];
      [|discriminate].
    destruct (py_iter files) as [items|e] eqn:I; cbn [rbind]; [|discriminate].
    intros [= H <-]. exists data, files, items.
    pose proof (rmap_file_url c items urls H) as HF.
    repeat split; try assumption.
    intros Hb Hent. now apply (resolved_all_absolute c items urls).
  - intros kv fs log' -> Hfiles. cbn [py_get rbind].
    destruct (rmap_file_url_total c fs) as (urls & Hu & Hlen).
    destruct Hfiles as [-> | [-> ->]]; cbn [py_iter rbind].
    + rewrite Hu. exists urls. split; [reflexivity|]. split; [exact Hlen|].
      intros Hb Hent.
      apply (resolved_all_absolute c (map JStr fs) urls);
        [now apply rmap_file_url | exact Hb |].
      intros f Hin. apply in_map_iff in Hin. destruct Hin as (g & [= ->] & Hin).
      rewrite Forall_forall in Hent. now apply Hent.
    + exists []. split; [reflexivity|]. split; [reflexivity|]. constructor.
Qed.

End FileFacts.

Lemma get_challenge_files_absolute_witness :
  exists urls,
    get_challenge_files Samples.repr
      (Samples.only_at "http://ctf.example.com/api/v1/challenges/5" Samples.files_doc)
      Samples.client 5 []
    = (Ok urls,
       [ {| req_method := "GET";
            req_url := "http://ctf.example.com/api/v1/challenges/5";
            req_json := None |} ])
    /\ List.length urls = 3%nat
    /\ Forall (fun u => is_absolute u = true) urls.
Proof.
  destruct (proj2 (get_challenge_files_absolute Samples.repr
                     (Samples.only_at "http://ctf.example.com/api/v1/challenges/5"
                        Samples.files_doc)
                     Samples.client 5 [])
              [("id", JNum 5);
               ("files", JArr [ JStr "https://cdn.example.com/a.zip";
                                JStr "/files/abc/b.bin"; JStr "/c.txt" ])]
              [ "https://cdn.example.com/a.zip"; "/files/abc/b.bin"; "/c.txt" ]
              _ eq_refl (or_introl eq_refl))
    as (urls & Hrun & Hlen & Habs).
  exists urls. split; [exact Hrun|]. split; [exact Hlen|].
  apply Habs; [reflexivity|].
  repeat constructor; intros H; try reflexivity; discriminate H.
Defined.

(** C10 as the spec words it fails: an entry that starts with "http"
    without being a URL, here [httpdocs/readme.txt], is returned as it
    is, and what is returned is not an absolute URL. *)
Lemma get_challenge_files_relative_entry :
  get_challenge_files Samples.repr
    (Samples.only_at "http://ctf.example.com/api/v1/challenges/5"
       Samples.docs_files_doc)
    Samples.client 5 []
  = (Ok [ "httpdocs/readme.txt" ],
     [ {| req_method := "GET";
          req_url := "http://ctf.example.com/api/v1/challenges/5";
          req_json := None |} ])
  /\ is_absolute "httpdocs/readme.txt" = false
  /\ is_absolute (base_url Samples.client) = true.
Proof. repeat split. Qed.

(** The URLs of a concrete run, one for each of the three cases. *)
Example get_challenge_files_three_cases :
  fst (get_challenge_files Samples.repr
         (Samples.only_at "http://ctf.example.com/api/v1/challenges/5" Samples.files_doc)
         Samples.client 5 [])
  = Ok [ "https://cdn.example.com/a.zip";
         "http://ctf.example.com/files/abc/b.bin";
         "http://ctf.example.com/files/c.txt" ].
Proof. reflexivity. Qed.

(** ** The profile store: saving, loading and looking up *)

Lemma assoc_dict_set_same {V : Type} (k : string) (v : V) (d : list (string * V)) :
  assoc k (dict_set k v d) = Some v.
Proof.
  induction d as [|[k' v'] d IH]; cbn [dict_set assoc].
  - now rewrite String.eqb_refl.
  - destruct (String.eqb k' k) eqn:E; cbn [assoc]; now rewrite E.
Qed.

Lemma assoc_dict_set_other {V : Type} (k k' : string) (v : V) (d : list (string * V)) :
  k' <> k -> assoc k' (dict_set k v d) = assoc k' d.
Proof.
  intros Hne. induction d as [|[k0 v0] d IH]; cbn [dict_set assoc].
  - destruct (String.eqb k k') eqn:E; [|reflexivity].
    apply String.eqb_eq in E. congruence.
  - destruct (String.eqb k0 k) eqn:E; cbn [assoc].
    + apply String.eqb_eq in E. subst k0.
      destruct (String.eqb k k') eqn:E'; [|reflexivity].
      apply String.eqb_eq in E'. congruence.
    + now rewrite IH.
Qed.

Lemma assoc_none_keys {V : Type} (k : string) (d : list (string * V)) :
  assoc k d = None <-> ~ In k (map fst d).
Proof.
  induction d as [|[k' v'] d IH]; cbn [assoc map fst In].
  - tauto.
  - destruct (String.eqb k' k) eqn:E.
    + apply String.eqb_eq in E. split; [discriminate | intros H; exfalso; auto].
    + apply String.eqb_neq in E. rewrite IH. tauto.
Qed.

Lemma dict_set_fresh {V : Type} (k : string) (v : V) (d : list (string * V)) :
  assoc k d = None -> dict_set k v d = (d ++ [(k, v)])%list.
Proof.
  induction d as [|[k' v'] d IH]; cbn [assoc dict_set]; [reflexivity|].
  destruct (String.eqb k' k); [discriminate|].
  intros H. now rewrite (IH H).
Qed.

Lemma dict_set_keys {V : Type} (k : string) (v : V) (d : list (string * V)) :
  map fst (dict_set k v d)
  = match assoc k d with
    | Some _ => map fst d
    | None => (map fst d ++ [k])%list
    end.
Proof.
  induction d as [|[k' v'] d IH]; cbn [assoc dict_set map fst]; [reflexivity|].
  destruct (String.eqb k' k); [reflexivity|].
  cbn [map fst]. rewrite IH. now destruct (assoc k d).
Qed.

Lemma dict_set_nodup {V : Type} (k : string) (v : V) (d : list (string * V)) :
  NoDup (map fst d) -> NoDup (map fst (dict_set k v d)).
Proof.
  intros H. rewrite dict_set_keys. destruct (assoc k d) eqn:E; [exact H|].
  apply assoc_none_keys in E.
  apply NoDup_rev in H. rewrite <- (rev_involutive (map fst d ++ [k])).
  apply NoDup_rev. rewrite rev_app_distr. cbn [rev app].
  constructor; [now rewrite <- in_rev | exact H].
Qed.

Lemma dict_set_forall {V : Type} (P : string * V -> Prop) (k : string) (v : V)
    (d : list (string * V)) :
  (forall k', P (k', v)) -> Forall P d -> Forall P (dict_set k v d).
Proof.
  intros Hv H. induction H as [|[k' v'] d Hx H IH]; cbn [dict_set].
  - constructor; [apply Hv | constructor].
  - destruct (String.eqb k' k); constructor; auto.
Qed.

Lemma dict_del_keys {V : Type} (k k' : string) (d : list (string * V)) :
  In k' (map fst (dict_del k d)) -> In k' (map fst d).
Proof.
  induction d as [|[k0 v0] d IH]; cbn [dict_del map fst In]; [tauto|].
  destruct (String.eqb k0 k); cbn [map fst In]; tauto.
Qed.

Lemma dict_del_nodup {V : Type} (k : string) (d : list (string * V)) :
  NoDup (map fst d) -> NoDup (map fst (dict_del k d)).
Proof.
  induction d as [|[k0 v0] d IH]; cbn [dict_del map fst]; [auto|].
  intros H. inversion H as [|? ? Hn Hd]; subst.
  destruct (String.eqb k0 k); [exact Hd|].
  cbn [map fst]. constructor; [|auto].
  intros Hin. apply Hn. eapply dict_del_keys; eauto.
Qed.

Lemma dict_del_forall {V : Type} (P : string * V -> Prop) (k : string)
    (d : list (string * V)) :
  Forall P d -> Forall P (dict_del k d).
Proof.
  induction 1 as [|[k' v'] d Hx H IH]; cbn [dict_del]; [constructor|].
  destruct (String.eqb k' k); [exact H | now constructor].
Qed.

Lemma assoc_dict_del_same {V : Type} (k : string) (d : list (string * V)) :
  NoDup (map fst d) -> assoc k (dict_del k d) = None.
Proof.
  induction d as [|[k0 v0] d IH]; cbn [dict_del map fst]; [reflexivity|].
  intros H. inversion H as [|? ? Hn Hd]; subst.
  destruct (String.eqb k0 k) eqn:E.
  - apply String.eqb_eq in E. subst k0. now apply assoc_none_keys.
  - cbn [assoc]. rewrite E. auto.
Qed.

Lemma assoc_dict_del_other {V : Type} (k k' : string) (d : list (string * V)) :
  k' <> k -> assoc k' (dict_del k d) = assoc k' d.
Proof.
  intros Hne. induction d as [|[k0 v0] d IH]; cbn [dict_del assoc]; [reflexivity|].
  destruct (String.eqb k0 k) eqn:E.
  - apply String.eqb_eq in E. subst k0.
    destruct (String.eqb k k') eqn:E'; [|reflexivity].
    apply String.eqb_eq in E'. congruence.
  - cbn [assoc]. now rewrite IH.
Qed.

Lemma clear_defaults_keys (d : profiles_dict) :
  map fst (clear_defaults d) = map fst d.
Proof. unfold clear_defaults. rewrite map_map. reflexivity. Qed.

Lemma assoc_clear_defaults (k : string) (d : profiles_dict) :
  assoc k (clear_defaults d) = option_map (set_default_flag false) (assoc k d).
Proof.
  induction d as [|[k' p'] d IH]; [reflexivity|].
  unfold clear_defaults in *. cbn [map fst snd assoc].
  now destruct (String.eqb k' k).
Qed.

(** In a dictionary whose defaults were cleared and where [p], a default
    profile, was then stored under [k], the default that is found is [p]. *)
Lemma find_default_set_cleared (k : string) (p : CTFProfile) (d : profiles_dict) :
  default p = true ->
  exists k', find (fun kv => default (snd kv)) (dict_set k p (clear_defaults d))
             = Some (k', p).
Proof.
  intros Hp. induction d as [|[k0 p0] d IH].
  - exists k. cbn. now rewrite Hp.
  - unfold clear_defaults in *. cbn [map fst snd dict_set].
    destruct (String.eqb k0 k).
    + exists k0. cbn [find snd]. now rewrite Hp.
    + cbn [find snd default set_default_flag]. exact IH.
Qed.

Section StoreFacts.

Variable HttpUrl : string -> option string.
Hypothesis HttpUrl_idempotent : idempotent HttpUrl.

Lemma new_profile_fields (n u t : string) (um dflt : bool) (p : CTFProfile) :
  new_profile HttpUrl n u t um dflt = Ok p ->
  name p = n /\ HttpUrl u = Some (profile_url p) /\ profile_token p = t
  /\ user_mode p = um /\ default p = dflt
  /\ HttpUrl (profile_url p) = Some (profile_url p).
Proof.
  unfold new_profile. destruct (HttpUrl u) as [u'|] eqn:E; [|discriminate].
  intros [= <-]. cbn. repeat split; try reflexivity.
  exact (HttpUrl_idempotent u u' E).
Qed.

Lemma load_all_well_formed (data acc ps : profiles_dict) :
  well_formed HttpUrl acc ->
  load_all HttpUrl acc data = Ok ps ->
  well_formed HttpUrl ps.
Proof.
  revert acc. induction data as [|[k p] data IH]; intros acc Hacc; cbn [load_all].
  - now intros [= <-].
  - destruct (new_profile HttpUrl (name p) (profile_url p) (profile_token p)
                (user_mode p) (default p)) as [p'|e] eqn:E; cbn [rbind]; [|discriminate].
    apply IH. destruct Hacc as [Hk Hu]. split.
    + now apply dict_set_nodup.
    + apply dict_set_forall; [|exact Hu].
      intros k'. cbn [snd]. now apply new_profile_fields in E.
Qed.

(** Loading a well-formed dictionary gives it back, after what was loaded
    before it. *)
Lemma load_all_round_trip (data acc : profiles_dict) :
  well_formed HttpUrl (acc ++ data)%list ->
  load_all HttpUrl acc data = Ok (acc ++ data)%list.
Proof.
  revert acc. induction data as [|[k p] data IH]; intros acc [Hk Hu]; cbn [load_all].
  - now rewrite app_nil_r.
  - assert (Hp : HttpUrl (profile_url p) = Some (profile_url p)).
    { rewrite Forall_forall in Hu. apply (Hu (k, p)).
      apply in_or_app. right. now left. }
    unfold new_profile. rewrite Hp. cbn [rbind].
    assert (Hfresh : assoc k acc = None).
    { apply assoc_none_keys. intros Hin.
      rewrite map_app in Hk. cbn [map fst] in Hk.
      apply NoDup_remove_2 in Hk. apply Hk. apply in_or_app. now left. }
    replace {| name := name p; profile_url := profile_url p;
               profile_token := profile_token p; user_mode := user_mode p;
               default := default p |} with p by now destruct p.
    rewrite (dict_set_fresh k p acc Hfresh).
    rewrite IH; rewrite <- app_assoc; [reflexivity | now split].
Qed.

Lemma load_profiles_well_formed (fs : config_dir) :
  well_formed HttpUrl (load_profiles HttpUrl fs).
Proof.
  assert (Hnil : well_formed HttpUrl []) by (split; constructor).
  unfold load_profiles. destruct (file fs) as [| | data]; try exact Hnil.
  destruct (load_all HttpUrl [] data) as [ps|e] eqn:E; [|exact Hnil].
  exact (load_all_well_formed data [] ps Hnil E).
Qed.

(** What was saved is what is loaded next. *)
Lemma save_then_load (fs fs' : config_dir) (profiles : profiles_dict) :
  well_formed HttpUrl profiles ->
  save_profiles fs profiles = Ok fs' ->
  load_profiles HttpUrl fs' = profiles.
Proof.
  intros Hwf. unfold save_profiles. destruct (writable fs); [|discriminate].
  intros [= <-]. unfold load_profiles. cbn [file].
  now rewrite (load_all_round_trip profiles [] Hwf).
Qed.

Lemma clear_defaults_well_formed (d : profiles_dict) :
  well_formed HttpUrl d -> well_formed HttpUrl (clear_defaults d).
Proof.
  intros [Hk Hu]. split; [now rewrite clear_defaults_keys|].
  unfold clear_defaults. apply Forall_map.
  eapply Forall_impl; [|exact Hu]. now intros [k p].
Qed.

Lemma first_default_well_formed (d : profiles_dict) :
  well_formed HttpUrl d -> well_formed HttpUrl (first_default d).
Proof.
  destruct d as [|[k p] d]; [auto|]. intros [Hk Hu]. split; [exact Hk|].
  inversion Hu; subst. now constructor.
Qed.

Lemma dict_set_well_formed (k : string) (p : CTFProfile) (d : profiles_dict) :
  HttpUrl (profile_url p) = Some (profile_url p) ->
  well_formed HttpUrl d -> well_formed HttpUrl (dict_set k p d).
Proof.
  intros Hp [Hk Hu]. split; [now apply dict_set_nodup|].
  now apply dict_set_forall.
Qed.

Lemma dict_del_well_formed (k : string) (d : profiles_dict) :
  well_formed HttpUrl d -> well_formed HttpUrl (dict_del k d).
Proof.
  intros [Hk Hu]. split; [now apply dict_del_nodup | now apply dict_del_forall].
Qed.

(** What [add_profile] stores when it succeeds. *)
Lemma add_profile_stores (fs fs' : config_dir) (n u t : string) (um sd : bool) :
  add_profile HttpUrl fs n u t um sd = (true, fs') ->
  exists p,
    new_profile HttpUrl n u t um
      (sd || match load_profiles HttpUrl fs with [] => true | _ => false end) = Ok p
    /\ load_profiles HttpUrl fs'
       = dict_set n p (if sd then clear_defaults (load_profiles HttpUrl fs)
                       else load_profiles HttpUrl fs).
Proof.
  unfold add_profile.
  assert (Hempty : match (if sd then clear_defaults (load_profiles HttpUrl fs)
                          else load_profiles HttpUrl fs) with
                   | [] => true | _ :: _ => false end
                   = match load_profiles HttpUrl fs with [] => true | _ => false end).
  { destruct sd; [|reflexivity]. now destruct (load_profiles HttpUrl fs). }
  rewrite Hempty.
  destruct (new_profile HttpUrl n u t um _) as [p|e] eqn:E; [|discriminate].
  destruct (save_profiles fs _) as [fs1|e] eqn:S; [|discriminate].
  intros [= <-]. exists p. split; [reflexivity|].
  apply (save_then_load fs fs1); [|exact S].
  apply dict_set_well_formed; [now apply new_profile_fields in E|].
  pose proof (load_profiles_well_formed fs) as Hwf.
  destruct sd; [now apply clear_defaults_well_formed | exact Hwf].
Qed.

(** X1: a profile that [add_profile] has stored is found again under its
    name, with the token and the mode that were given, the validated URL,
    and the default flag the call decided on. *)
Theorem add_profile_then_get_profile (fs fs' : config_dir) (n u t : string)
    (um sd : bool) :
  n <> "" ->
  add_profile HttpUrl fs n u t um sd = (true, fs') ->
  exists p,
    get_profile HttpUrl fs' (Some n) = Some p
    /\ name p = n /\ profile_token p = t /\ user_mode p = um
    /\ HttpUrl u = Some (profile_url p)
    /\ default p
       = (sd || match load_profiles HttpUrl fs with [] => true | _ => false end).
Proof.
  intros Hn Hadd. destruct (add_profile_stores _ _ _ _ _ _ _ Hadd) as (p & Hp & Hl).
  exists p. unfold get_profile. rewrite Hl.
  apply String.eqb_neq in Hn. rewrite Hn. rewrite assoc_dict_set_same.
  apply new_profile_fields in Hp. tauto.
Qed.

(** A file that holds well-formed profiles is loaded as it is. *)
Lemma load_profiles_stored (fs : config_dir) :
  well_formed HttpUrl (stored_profiles fs) ->
  load_profiles HttpUrl fs = stored_profiles fs.
Proof.
  unfold load_profiles, stored_profiles.
  destruct (file fs) as [| |data]; try reflexivity.
  intros Hwf. now rewrite (load_all_round_trip data [] Hwf).
Qed.

(** X2: on a store whose file holds profiles under distinct names, each
    with a URL that validates to itself, a successful [add_profile]
    leaves every other profile in the file; it changes nothing in them
    unless [set_default] is given, in which case their default flag, and
    only it, is cleared. *)
Theorem add_profile_keeps_others (fs fs' : config_dir) (n u t : string)
    (um sd : bool) (k : string) :
  well_formed HttpUrl (stored_profiles fs) ->
  k <> n ->
  add_profile HttpUrl fs n u t um sd = (true, fs') ->
  assoc k (stored_profiles fs')
  = if sd then option_map (set_default_flag false) (assoc k (stored_profiles fs))
    else assoc k (stored_profiles fs).
Proof.
  intros Hwf Hk. unfold add_profile. rewrite (load_profiles_stored fs Hwf).
  destruct (new_profile HttpUrl n u t um _) as [p|e]; [|discriminate].
  destruct (save_profiles fs _) as [fs1|e] eqn:S; [|discriminate].
  intros [= <-]. rewrite (save_profiles_stored _ _ _ S).
  rewrite (assoc_dict_set_other n k p _ Hk).
  destruct sd; [apply assoc_clear_defaults | reflexivity].
Qed.

(** X3: after [set_default_profile] has succeeded for a name, asking for
    the default profile gives the profile stored under that name, and it
    is the only one whose default flag is set. *)
Theorem set_default_then_get_profile (fs fs' : config_dir) (n : string) :
  set_default_profile HttpUrl fs n = (true, fs') ->
  exists p,
    get_profile HttpUrl fs' None = Some p
    /\ assoc n (load_profiles HttpUrl fs') = Some p
    /\ default p = true
    /\ count_defaults (load_profiles HttpUrl fs') = 1%nat.
Proof.
  unfold set_default_profile.
  destruct (assoc n (load_profiles HttpUrl fs)) as [p0|] eqn:A; [|discriminate].
  destruct (save_profiles fs _) as [fs1|e] eqn:S; [|discriminate].
  intros [= <-]. exists (set_default_flag true p0).
  assert (Hl : load_profiles HttpUrl fs1
               = dict_set n (set_default_flag true p0)
                   (clear_defaults (load_profiles HttpUrl fs))).
  { apply (save_then_load fs fs1); [|exact S].
    pose proof (load_profiles_well_formed fs) as Hwf.
    apply dict_set_well_formed; [|now apply clear_defaults_well_formed].
    cbn [profile_url set_default_flag].
    destruct Hwf as [_ Hu]. rewrite Forall_forall in Hu.
    clear S. induction (load_profiles HttpUrl fs) as [|[k q] d IH];
      cbn [assoc] in A; [discriminate|].
    destruct (String.eqb k n).
    - injection A as <-. apply (Hu (k, q)). now left.
    - apply IH; [exact A|]. intros x Hx. apply Hu. now right. }
  unfold get_profile. rewrite Hl. unfold default_or_first.
  destruct (find_default_set_cleared n (set_default_flag true p0)
              (load_profiles HttpUrl fs) eq_refl) as [k' ->].
  cbn [snd]. rewrite assoc_dict_set_same.
  repeat split. now apply count_defaults_set_cleared.
Qed.

(** X4: after [delete_profile] has succeeded for a name, no profile is
    stored under that name any more, and every other profile is still
    there, with the same URL, token and mode. *)
Theorem delete_profile_then_lookup (fs fs' : config_dir) (n : string) :
  delete_profile HttpUrl fs n = (true, fs') ->
  assoc n (load_profiles HttpUrl fs') = None
  /\ forall k p, k <> n ->
       assoc k (load_profiles HttpUrl fs) = Some p ->
       exists p', assoc k (load_profiles HttpUrl fs') = Some p'
                  /\ name p' = name p /\ profile_url p' = profile_url p
                  /\ profile_token p' = profile_token p
                  /\ user_mode p' = user_mode p.
Proof.
  unfold delete_profile.
  destruct (assoc n (load_profiles HttpUrl fs)) as [p0|] eqn:A; [|discriminate].
  destruct (save_profiles fs _) as [fs1|e] eqn:S; [|discriminate].
  intros [= <-].
  pose proof (load_profiles_well_formed fs) as Hwf.
  pose proof (dict_del_well_formed n _ Hwf) as Hdel.
  assert (Hfirst : forall k d, assoc k (first_default d)
                               = match d with
                                 | [] => None
                                 | (k0, q) :: _ =>
                                     if String.eqb k0 k then Some (set_default_flag true q)
                                     else assoc k d
                                 end).
  { intros k [|[k0 q] d]; [reflexivity|]. cbn [first_default assoc].
    now destruct (String.eqb k0 k). }
  set (d := dict_del n (load_profiles HttpUrl fs)) in *.
  assert (Hl : load_profiles HttpUrl fs1
               = if default p0 && match d with [] => false | _ => true end
                 then first_default d else d).
  { apply (save_then_load fs fs1); [|exact S].
    destruct (default p0 && _); [now apply first_default_well_formed | exact Hdel]. }
  rewrite Hl. split.
  - assert (Hnone : assoc n d = None)
      by (apply assoc_dict_del_same; apply Hwf).
    destruct (default p0 && _); [|exact Hnone].
    rewrite Hfirst. destruct d as [|[k0 q] d']; [reflexivity|].
    cbn [assoc] in Hnone.
    destruct (String.eqb k0 n) eqn:E; [discriminate|].
    cbn [assoc]. now rewrite E.
  - intros k p Hk Hp.
    assert (Hd : assoc k d = Some p)
      by (unfold d; now rewrite assoc_dict_del_other).
    destruct (default p0 && _).
    + rewrite Hfirst. destruct d as [|[k0 q] d']; [discriminate|].
      cbn [assoc] in Hd. destruct (String.eqb k0 k) eqn:E.
      * injection Hd as ->. eexists. split; [reflexivity|]. now cbn.
      * cbn [assoc]. rewrite E. exists p. now rewrite Hd.
    + exists p. now rewrite Hd.
Qed.

(** X5: deleting the default profile while others remain makes the first
    remaining profile, in the order of the store, the default one. *)
Theorem delete_default_promotes_first (fs fs' : config_dir) (n : string)
    (p : CTFProfile) (k : string) (q : CTFProfile) (rest : profiles_dict) :
  assoc n (load_profiles HttpUrl fs) = Some p ->
  default p = true ->
  dict_del n (load_profiles HttpUrl fs) = (k, q) :: rest ->
  delete_profile HttpUrl fs n = (true, fs') ->
  get_profile HttpUrl fs' None = Some (set_default_flag true q)
  /\ load_profiles HttpUrl fs' = (k, set_default_flag true q) :: rest.
Proof.
  intros A Hd Hdel. unfold delete_profile. rewrite A, Hd, Hdel. cbn [andb].
  destruct (save_profiles fs _) as [fs1|e] eqn:S; [|discriminate].
  intros [= <-].
  assert (Hl : load_profiles HttpUrl fs1 = (k, set_default_flag true q) :: rest).
  { apply (save_then_load fs fs1); [|exact S].
    change ((k, set_default_flag true q) :: rest) with (first_default ((k, q) :: rest)).
    apply first_default_well_formed. rewrite <- Hdel.
    apply dict_del_well_formed, load_profiles_well_formed. }
  split; [|exact Hl]. unfold get_profile. rewrite Hl. reflexivity.
Qed.

End StoreFacts.

Section StoreLossFacts.

Variable HttpUrl : string -> option string.



End StoreLossFacts.

Lemma accept_url_idempotent : idempotent Samples.accept_url.
Proof.
  intros u u'. unfold Samples.accept_url.
  destruct (PyStr.startswith u "http") eqn:E; [|discriminate].
  intros [= <-]. now rewrite E.
Qed.

Lemma add_profile_then_get_profile_witness :
  exists p,
    get_profile Samples.accept_url
      (snd (add_profile Samples.accept_url Samples.one_profile
              "bob" "https://b.example.com/" "tb" false false))
      (Some "bob") = Some p
    /\ name p = "bob" /\ profile_token p = "tb" /\ user_mode p = false
    /\ Samples.accept_url "https://b.example.com/" = Some (profile_url p)
    /\ default p = false.
Proof.
  apply (add_profile_then_get_profile Samples.accept_url accept_url_idempotent
           Samples.one_profile _ "bob" "https://b.example.com/" "tb" false false).
  - discriminate.
  - reflexivity.
Defined.

Lemma add_profile_keeps_others_witness :
  assoc "alice"
    (stored_profiles
       (snd (add_profile Samples.accept_url Samples.one_profile
               "bob" "https://b.example.com/" "tb" false true)))
  = Some (set_default_flag false Samples.alice).
Proof.
  apply (add_profile_keeps_others Samples.accept_url
           Samples.one_profile _ "bob" "https://b.example.com/" "tb" false true "alice").
  - split; repeat constructor. intros [].
  - discriminate.
  - reflexivity.
Defined.

Lemma set_default_then_get_profile_witness :
  exists p,
    get_profile Samples.accept_url
      (snd (set_default_profile Samples.accept_url Samples.two_profiles "bob")) None
    = Some p
    /\ assoc "bob"
         (load_profiles Samples.accept_url
            (snd (set_default_profile Samples.accept_url Samples.two_profiles "bob")))
       = Some p
    /\ default p = true
    /\ count_defaults
         (load_profiles Samples.accept_url
            (snd (set_default_profile Samples.accept_url Samples.two_profiles "bob")))
       = 1%nat.
Proof.
  apply (set_default_then_get_profile Samples.accept_url accept_url_idempotent
           Samples.two_profiles _ "bob").
  reflexivity.
Defined.

Lemma delete_profile_then_lookup_witness :
  assoc "alice"
    (load_profiles Samples.accept_url
       (snd (delete_profile Samples.accept_url Samples.two_profiles "alice")))
  = None.
Proof.
  apply (delete_profile_then_lookup Samples.accept_url accept_url_idempotent
           Samples.two_profiles _ "alice").
  reflexivity.
Defined.

Lemma delete_default_promotes_first_witness :
  get_profile Samples.accept_url
    (snd (delete_profile Samples.accept_url Samples.two_profiles "alice")) None
  = Some (set_default_flag true Samples.bob).
Proof.
  apply (delete_default_promotes_first Samples.accept_url accept_url_idempotent
           Samples.two_profiles _ "alice" Samples.alice "bob" Samples.bob []);
    reflexivity.
Defined.


(** ** Request URLs *)

Lemma string_append_assoc (a b c : string) : (a ++ b) ++ c = a ++ (b ++ c).
Proof. induction a as [|x a IH]; cbn; [reflexivity | now rewrite IH]. Qed.

Lemma rstrip_append_char (c : ascii) (s : string) :
  PyStr.rstrip c (s ++ String c EmptyString) = PyStr.rstrip c s.
Proof.
  induction s as [|a s IH].
  - cbn. now rewrite Ascii.eqb_refl.
  - change (String a s ++ String c "") with (String a (s ++ String c "")).
    cbn [PyStr.rstrip]. now rewrite IH.
Qed.

Lemma append_char_not_empty (c : ascii) (s : string) :
  s ++ String c EmptyString <> EmptyString.
Proof. destruct s; discriminate. Qed.

Lemma rstrip_no_trailing (c : ascii) (s s' : string) :
  PyStr.rstrip c s <> s' ++ String c EmptyString.
Proof.
  revert s'. induction s as [|a s IH]; intros s'; cbn [PyStr.rstrip].
  - intros H. symmetry in H. now apply append_char_not_empty in H.
  - destruct (PyStr.rstrip c s) as [|b r] eqn:E.
    + destruct (Ascii.eqb a c) eqn:Ea.
      * intros H. symmetry in H. now apply append_char_not_empty in H.
      * destruct s' as [|a' s'']; cbn.
        -- intros [= H1]. subst a. now rewrite Ascii.eqb_refl in Ea.
        -- intros [= H1 H2]. symmetry in H2. now apply append_char_not_empty in H2.
    + destruct s' as [|a' s'']; cbn.
      * intros H. discriminate H.
      * intros [= H1 H2]. now apply (IH s'').
Qed.

Lemma lstrip_no_leading (c : ascii) (s : string) :
  PyStr.startswith (PyStr.lstrip c s) (String c EmptyString) = false.
Proof.
  unfold PyStr.startswith. induction s as [|a s IH]; [reflexivity|].
  cbn [PyStr.lstrip]. destruct (Ascii.eqb a c) eqn:E; [exact IH|].
  cbn. destruct (ascii_dec c a) as [->|]; [|reflexivity].
  now rewrite Ascii.eqb_refl in E.
Qed.

Lemma rstrip_slashes (s : string) :
  exists i, s = PyStr.rstrip "/" s ++ slashes i.
Proof.
  induction s as [|a s [i IH]]; [now exists 0%nat|].
  cbn [PyStr.rstrip]. destruct (PyStr.rstrip "/" s) as [|b r] eqn:E.
  - cbn [append] in IH. destruct (Ascii.eqb a "/") eqn:Ea.
    + apply Ascii.eqb_eq in Ea. subst a. exists (S i). cbn. now rewrite <- IH.
    + exists i. cbn. now rewrite <- IH.
  - exists i. cbn [append] in IH |- *. now rewrite <- IH.
Qed.

Lemma lstrip_slashes (s : string) :
  exists j, s = slashes j ++ PyStr.lstrip "/" s.
Proof.
  induction s as [|a s [j IH]]; [now exists 0%nat|].
  cbn [PyStr.lstrip]. destruct (Ascii.eqb a "/") eqn:Ea.
  - apply Ascii.eqb_eq in Ea. subst a. exists (S j). cbn. now rewrite <- IH.
  - now exists 0%nat.
Qed.

(** X7: a trailing slash of the base URL and a leading slash of the
    endpoint make no difference to the request that is built.  The URL
    of the request is [b], "/api/v1/" and [e], where [b] is the base URL
    without the slashes it ends with and [e] the endpoint without the
    slashes it starts with, so that no double slash arises where they
    meet. *)
Theorem request_url_normalised (base tok method endpoint : string)
    (kw : option json) :
  build_request (CTFdClient_init (base ++ "/") tok) method ("/" ++ endpoint) kw
  = build_request (CTFdClient_init base tok) method endpoint kw
  /\ exists b e i j,
       base = b ++ slashes i
       /\ (forall b', b = b' ++ "/" -> False)
       /\ endpoint = slashes j ++ e
       /\ PyStr.startswith e "/" = false
       /\ build_request (CTFdClient_init base tok) method endpoint kw
          = {| req_method := method;
               req_url := b ++ "/api/v1/" ++ e;
               req_json := kw |}.
Proof.
  split.
  - unfold build_request, CTFdClient_init. cbn [api_url].
    rewrite (rstrip_append_char "/" base). cbn [append PyStr.lstrip].
    reflexivity.
  - destruct (rstrip_slashes base) as [i Hi].
    destruct (lstrip_slashes endpoint) as [j Hj].
    exists (PyStr.rstrip "/" base), (PyStr.lstrip "/" endpoint), i, j.
    split; [exact Hi|]. split; [|split; [exact Hj|split]].
    + intros b' H. exact (rstrip_no_trailing "/" base b' H).
    + apply lstrip_no_leading.
    + unfold build_request, CTFdClient_init. cbn [api_url].
      rewrite string_append_assoc. reflexivity.
Qed.

(** ** What the request helper can do *)

Section OutcomeFacts.

Variable py_repr : json -> string.
Variable server : list request -> request -> outcome.

Lemma unwrap_envelope_cases (data : json) :
  (exists v, unwrap_envelope py_repr data = Ok v)
  \/ (exists msg, unwrap_envelope py_repr data = Raise (CTFdAPIError msg))
  \/ (unwrap_envelope py_repr data = Raise AttributeError /\ is_dict data = false).
Proof.
  destruct data as [| | | | |kv]; try (right; right; now split).
  unfold unwrap_envelope. cbn [py_get rbind].
  destruct (truthy _); cbn [negb]; eauto.
Qed.

(** X8: a call of [_make_request] issues exactly one request and ends in
    one of three ways: it returns a value, it raises [CTFdAPIError], or,
    only when the platform answered without an error status and with a
    JSON body that is not an object, it raises [AttributeError]. *)
Theorem make_request_outcomes (c : CTFdClient) (method endpoint : string)
    (kw : option json) (log : list request) :
  snd (_make_request py_repr server c method endpoint kw log)
  = (log ++ [build_request c method endpoint kw])%list
  /\ ((exists v, fst (_make_request py_repr server c method endpoint kw log) = Ok v)
      \/ (exists msg, fst (_make_request py_repr server c method endpoint kw log)
                      = Raise (CTFdAPIError msg))
      \/ (fst (_make_request py_repr server c method endpoint kw log)
          = Raise AttributeError
          /\ exists r doc,
               server log (build_request c method endpoint kw) = Answered r
               /\ raise_for_status r = None
               /\ content r = JsonBody doc /\ is_dict doc = false)).
Proof.
  split; [apply make_request_log|].
  unfold _make_request. cbv zeta.
  destruct (server log (build_request c method endpoint kw)) as [msg|r] eqn:Hs;
    [right; left; eexists; reflexivity|].
  destruct (raise_for_status r) as [msg|] eqn:Hr;
    [right; left; eexists; reflexivity|].
  cbn [fst]. destruct (content r) as [|doc|[|] msg] eqn:Hc; cbn [read_body];
    [ left; eexists; reflexivity | | right; left; eexists; reflexivity
    | right; left; eexists; reflexivity ].
  destruct (unwrap_envelope_cases doc) as [H | [H | [H Hd]]]; [tauto | tauto |].
  right; right. split; [exact H|]. exists r, doc. tauto.
Qed.

End OutcomeFacts.

Lemma test_connection_on_objects_witness :
  exists b : bool,
    test_connection Samples.repr
      (Samples.only_at "http://ctf.example.com/api/v1/challenges" Samples.challenges_doc)
      Samples.client []
    = (Ok b, ([] ++ [build_request Samples.client "GET" "/challenges" None])%list)
    /\ (b = false <->
        exists msg,
          fst (_make_request Samples.repr
                 (Samples.only_at "http://ctf.example.com/api/v1/challenges"
                    Samples.challenges_doc)
                 Samples.client "GET" "/challenges" None [])
          = Raise (CTFdAPIError msg)).
Proof.
  apply (test_connection_on_objects Samples.repr
           (Samples.only_at "http://ctf.example.com/api/v1/challenges"
              Samples.challenges_doc)
           Samples.client []).
  intros r doc [= <-] [= <-]. reflexivity.
Defined.

(** ** More on flag submission *)

Lemma correct_excludes_incorrect (s : string) :
  String.prefix "correct" s = true -> String.prefix "incorrect" s = false.
Proof.
  destruct s as [|a s]; [discriminate|]. cbn [String.prefix].
  destruct (ascii_dec "c" a) as [<-|]; [|discriminate].
  intros _. now destruct (ascii_dec "i" "c").
Qed.

Section MoreSubmissionFacts.

Variable py_repr : json -> string.
Variable server : list request -> request -> outcome.
Variable console_accepts : string -> bool.

Lemma make_request_raises (c : CTFdClient) (method endpoint : string)
    (kw : option json) (log : list request) (e : exn) :
  fst (_make_request py_repr server c method endpoint kw log) = Raise e ->
  (exists msg, e = CTFdAPIError msg) \/ e = AttributeError.
Proof.
  unfold _make_request. cbv zeta.
  destruct (server log _) as [msg|r]; [intros [= <-]; eauto|].
  destruct (raise_for_status r) as [msg|]; [intros [= <-]; eauto|].
  cbn [fst]. destruct (content r) as [|doc|[|] msg]; cbn [read_body];
    try (intros [= <-]; eauto); try discriminate.
  destruct (unwrap_envelope_cases py_repr doc) as [[v H] | [[msg H] | [H _]]];
    rewrite H; intros [= <-]; eauto.
Qed.

Lemma message_says_correct_prefix (m : string) :
  message_says_correct (JStr m)
  = Ok (PyStr.startswith (PyStr.lower m) "correct").
Proof.
  unfold message_says_correct, PyStr.startswith.
  destruct (String.prefix "correct" (PyStr.lower m)) eqn:E; [|reflexivity].
  now rewrite (correct_excludes_incorrect _ E).
Qed.

Lemma classify_response_cases (data : json) :
  (exists b m, classify_response py_repr data = Ok (b, m))
  \/ classify_response py_repr data = Raise AttributeError.
Proof.
  destruct data as [| | | | |kv]; try (left; eexists; eexists; reflexivity).
  unfold classify_response.
  destruct (eq_str _ "correct"); [left; eauto|].
  destruct (eq_str _ "success"); [left; eauto|].
  assert (Hm : forall msg,
             (exists b m, rbind (message_says_correct msg)
                            (fun b => Ok (b, msg)) = Ok (b, m))
             \/ rbind (message_says_correct msg) (fun b => Ok (b, msg))
                = Raise AttributeError).
  { intros msg. destruct msg; cbn; eauto. }
  destruct (assoc "success" kv) as [[| [|] | | | |]|]; try apply Hm.
  left; eauto.
Qed.

(** X9: for a response object that carries a text [message] and no
    [success] key, the submission counts as correct exactly when its
    [status] is the string "correct" or "success", or the message, lower
    cased, starts with "correct"; the test that the message does not start
    with "incorrect" never changes the outcome. *)
Theorem classify_response_by_fields (kv : list (string * json)) (m : string) :
  assoc "message" kv = Some (JStr m) ->
  assoc "success" kv = None ->
  classify_response py_repr (JObj kv)
  = Ok (match assoc "status" kv with
        | Some st => eq_str st "correct" || eq_str st "success"
        | None => false
        end
        || PyStr.startswith (PyStr.lower m) "correct",
        JStr m).
Proof.
  intros Hm Hs. unfold classify_response. rewrite Hm, Hs.
  rewrite message_says_correct_prefix. cbn [rbind].
  destruct (assoc "status" kv) as [st|].
  - replace (match st with
             | JNull => st | JBool _ => st | JNum _ => st
             | JStr _ => st | JArr _ => st | JObj _ => st end) with st
      by now destruct st.
    destruct (eq_str st "correct"); [reflexivity|].
    destruct (eq_str st "success"); reflexivity.
  - reflexivity.
Qed.

(** The requests of a run of the loop are those of the first candidates.
    The run ends with a pair, with [AttributeError] or with [MarkupError],
    never with [CTFdAPIError]; when it does not end with [MarkupError], a
    request has been issued, and it cannot end with [MarkupError] when the
    console prints every line. *)
Lemma submit_loop_run (c : CTFdClient) (attempts : list attempt) :
  forall (last_error : option string) (log : list request),
  exists n : nat,
    (n <= List.length attempts)%nat
    /\ snd (submit_loop py_repr server console_accepts c attempts last_error log)
       = (log ++ firstn n
                   (map (fun a => build_request c "POST" (endpoint a) (Some (payload a)))
                        attempts))%list
    /\ ((exists b m,
           fst (submit_loop py_repr server console_accepts c attempts last_error log)
           = Ok (b, m))
        \/ fst (submit_loop py_repr server console_accepts c attempts last_error log)
           = Raise AttributeError
        \/ fst (submit_loop py_repr server console_accepts c attempts last_error log)
           = Raise MarkupError)
    /\ (attempts <> [] ->
        fst (submit_loop py_repr server console_accepts c attempts last_error log)
        <> Raise MarkupError ->
        (1 <= n)%nat)
    /\ ((forall line, console_accepts line = true) ->
        fst (submit_loop py_repr server console_accepts c attempts last_error log)
        <> Raise MarkupError).
Proof.
  induction attempts as [|a rest IH]; intros last_error log.
  - exists 0%nat. cbn. rewrite app_nil_r.
    split; [lia|]. split; [reflexivity|].
    destruct (exhausted last_error) as [b m].
    split; [left; eauto|]. split; [congruence | discriminate].
  - destruct (console_accepts (trying_line py_repr a)) eqn:Ht.
    2:{ rewrite (submit_loop_unannounced py_repr server console_accepts
                   c a rest last_error log Ht).
        exists 0%nat. cbn [fst snd firstn]. rewrite app_nil_r.
        split; [lia|]. split; [reflexivity|]. split; [right; now right|].
        split; [congruence|].
        intros Hall. rewrite Hall in Ht. discriminate. }
    cbn [submit_loop]. unfold catch_api, bind, console_print.
    rewrite Ht. cbn [ret].
    pose proof (make_request_log py_repr server c "POST" (endpoint a)
                  (Some (payload a)) log) as Hl.
    pose proof (make_request_raises c "POST" (endpoint a) (Some (payload a)) log) as Hr.
    destruct (_make_request py_repr server c "POST" (endpoint a) (Some (payload a)) log)
      as [[data|e] log1]; cbn [fst snd] in Hl, Hr; subst log1.
    + exists 1%nat. cbn [List.length map firstn lift].
      split; [lia|].
      destruct (classify_response_cases data) as [(b & m & ->) | ->]; cbn [fst snd];
        (split; [reflexivity|]);
        (split; [first [left; eexists; eexists; reflexivity | right; now left]|]);
        (split; [intros _ _; lia | discriminate]).
    + destruct (Hr e eq_refl) as [[msg ->] | ->].
      * destruct (console_accepts (failed_line a msg)) eqn:Hf; cbn [ret raise].
        2:{ exists 1%nat. cbn [List.length map firstn fst snd].
            split; [lia|]. split; [reflexivity|]. split; [right; now right|].
            split; [intros _ _; lia|].
            intros Hall. rewrite Hall in Hf. discriminate. }
        destruct (negb (PyStr.contains "404" msg) && negb (PyStr.contains "403" msg)).
        -- exists 1%nat. cbn [List.length map firstn ret fst snd].
           split; [lia|]. split; [reflexivity|].
           split; [left; eexists; eexists; reflexivity|].
           split; [intros _ _; lia | discriminate].
        -- destruct (IH (Some msg)
                       (log ++ [build_request c "POST" (endpoint a) (Some (payload a))])%list)
             as (n & Hn & Hlog & Hres & _ & Hall).
           exists (S n). cbn [List.length map firstn].
           split; [lia|]. split; [rewrite Hlog, <- app_assoc; reflexivity|].
           split; [exact Hres|]. split; [intros _ _; lia | exact Hall].
      * exists 1%nat. cbn [List.length map firstn fst snd].
        split; [lia|]. split; [reflexivity|]. split; [right; now left|].
        split; [intros _ _; lia | discriminate].
Qed.

(** X10: whatever the platform and the console do, [submit_flag] issues at
    most four requests, namely those of the first candidates in their
    order, and it ends with a pair (verdict, message), with an
    [AttributeError] or with a [MarkupError]: a [CTFdAPIError] never
    reaches the caller.  Unless it ends with [MarkupError] it has issued at
    least one request, and it cannot end with [MarkupError] when the
    console prints every line. *)
Theorem submit_flag_run (c : CTFdClient) (challenge_id : Z) (flag : string)
    (log : list request) :
  exists n : nat,
    (n <= 4)%nat
    /\ snd (submit_flag py_repr server console_accepts c challenge_id flag log)
       = (log ++ firstn n (candidate_requests c challenge_id flag))%list
    /\ ((exists b m,
           fst (submit_flag py_repr server console_accepts c challenge_id flag log)
           = Ok (b, m))
        \/ fst (submit_flag py_repr server console_accepts c challenge_id flag log)
           = Raise AttributeError
        \/ fst (submit_flag py_repr server console_accepts c challenge_id flag log)
           = Raise MarkupError)
    /\ (fst (submit_flag py_repr server console_accepts c challenge_id flag log)
        <> Raise MarkupError ->
        (1 <= n)%nat)
    /\ ((forall line, console_accepts line = true) ->
        fst (submit_flag py_repr server console_accepts c challenge_id flag log)
        <> Raise MarkupError).
Proof.
  unfold submit_flag, candidate_requests.
  destruct (submit_loop_run c (submission_attempts challenge_id flag) None log)
    as (n & Hn & Hlog & Hres & H1 & Hall).
  exists n. cbn [submission_attempts List.length] in Hn.
  split; [exact Hn|]. split; [exact Hlog|]. split; [exact Hres|].
  split; [|exact Hall].
  apply H1. discriminate.
Qed.

(** X11: when the first candidates are answered with 403 or 404 and the
    next one with a response that the helper accepts, and the console
    prints the lines of the run (the two lines of each candidate that
    failed and the line that announces the one that answered),
    [submit_flag] returns what that response says and has issued exactly
    the requests up to it; no later candidate is tried. *)
Theorem submit_flag_falls_back (c : CTFdClient) (challenge_id : Z) (flag : string)
    (log : list request) (rs : list response) (r : response) (data : json) :
  (List.length rs < 4)%nat ->
  answers server log
    (firstn (S (List.length rs)) (candidate_requests c challenge_id flag))
    (map Answered rs ++ [Answered r])%list ->
  Forall refused rs ->
  raise_for_status r = None ->
  read_body py_repr (content r) = Ok data ->
  prints console_accepts
    (progress_lines py_repr (submission_attempts challenge_id flag)
       (map client_error_text rs)) ->
  prints console_accepts
    (map (trying_line py_repr)
       (firstn 1 (skipn (List.length rs) (submission_attempts challenge_id flag)))) ->
  submit_flag py_repr server console_accepts c challenge_id flag log
  = (classify_response py_repr data,
     (log ++ firstn (S (List.length rs)) (candidate_requests c challenge_id flag))%list).
Proof.
  intros Hlen Ha Hr Hok Hbody Hp Hq. unfold submit_flag, candidate_requests in *.
  set (req := fun a => build_request c "POST" (endpoint a) (Some (payload a))) in *.
  assert (Hstep : forall a rest last l,
             console_accepts (trying_line py_repr a) = true ->
             server l (req a) = Answered r ->
             submit_loop py_repr server console_accepts c (a :: rest) last l
             = (classify_response py_repr data, (l ++ [req a])%list)).
  { intros a rest last l Ht Hs. cbn [submit_loop].
    unfold catch_api, bind, console_print. rewrite Ht. cbn [ret].
    rewrite (make_request_answered py_repr server c "POST" (endpoint a)
               (Some (payload a)) l r Hs Hok).
    rewrite Hbody. cbn [lift].
    destruct (classify_response_cases data) as [(b & m & ->) | ->]; reflexivity. }
  destruct (submission_attempts challenge_id flag)
    as [|a1 [|a2 [|a3 [|a4 [|a5 more]]]]] eqn:E; try discriminate.
  unfold prints in Hp, Hq.
  destruct rs as [|r1 [|r2 [|r3 [|r4 rs]]]]; cbn [List.length] in *; try lia;
    cbn [firstn skipn map app answers progress_lines forallb] in Ha, Hp, Hq |- *;
    rewrite andb_true_r in Hq;
    repeat (apply andb_true_iff in Hp; destruct Hp as [? Hp]).
  - destruct Ha as [A1 _]. now apply Hstep.
  - destruct Ha as (A1 & A2 & _). inversion Hr as [|? ? R1 _]; subst.
    rewrite (submit_loop_skip py_repr server console_accepts c a1 _ None log r1)
      by assumption.
    rewrite (Hstep a2 _ _ _ Hq A2). now rewrite <- app_assoc.
  - destruct Ha as (A1 & A2 & A3 & _).
    inversion Hr as [|? ? R1 Hr']; subst. inversion Hr' as [|? ? R2 _]; subst.
    rewrite (submit_loop_skip py_repr server console_accepts c a1 _ None log r1)
      by assumption.
    rewrite (submit_loop_skip py_repr server console_accepts c a2 _ _ _ r2)
      by assumption.
    rewrite (Hstep a3 _ _ _ Hq A3). now rewrite <- !app_assoc.
  - destruct Ha as (A1 & A2 & A3 & A4 & _).
    inversion Hr as [|? ? R1 Hr']; subst. inversion Hr' as [|? ? R2 Hr'']; subst.
    inversion Hr'' as [|? ? R3 _]; subst.
    rewrite (submit_loop_skip py_repr server console_accepts c a1 _ None log r1)
      by assumption.
    rewrite (submit_loop_skip py_repr server console_accepts c a2 _ _ _ r2)
      by assumption.
    rewrite (submit_loop_skip py_repr server console_accepts c a3 _ _ _ r3)
      by assumption.
    rewrite (Hstep a4 _ _ _ Hq A4). now rewrite <- !app_assoc.
Qed.

End MoreSubmissionFacts.

Lemma classify_response_by_fields_witness :
  classify_response Samples.repr
    (JObj [("status", JStr "already_solved"); ("message", JStr "You already solved this")])
  = Ok (false, JStr "You already solved this").
Proof.
  apply (classify_response_by_fields Samples.repr
           [("status", JStr "already_solved"); ("message", JStr "You already solved this")]
           "You already solved this");
    reflexivity.
Defined.

Lemma submit_flag_falls_back_witness :
  submit_flag Samples.repr
    (Samples.scripted [ Answered Samples.forbidden; Answered Samples.forbidden;
                        Answered Samples.forbidden; Answered Samples.incorrect_answer ])
    Samples.rich_markup Samples.client 1 "flag{x}" []
  = (Ok (false, JStr "Incorrect"), candidate_requests Samples.client 1 "flag{x}").
Proof.
  apply (submit_flag_falls_back Samples.repr
           (Samples.scripted [ Answered Samples.forbidden; Answered Samples.forbidden;
                               Answered Samples.forbidden;
                               Answered Samples.incorrect_answer ])
           Samples.rich_markup Samples.client 1 "flag{x}" []
           [ Samples.forbidden; Samples.forbidden; Samples.forbidden ]
           Samples.incorrect_answer
           (JObj [("status", JStr "incorrect"); ("message", JStr "Incorrect")])).
  - cbn. lia.
  - repeat split.
  - repeat constructor.
  - reflexivity.
  - reflexivity.
  - reflexivity.
  - reflexivity.
Defined.

(** ** Computations: how results and logs flow *)

Lemma bind_ok {A B : Type} (m : M A) (k : A -> M B) (log log' : list request) (b : B) :
  bind m k log = (Ok b, log') ->
  exists a log1, m log = (Ok a, log1) /\ k a log1 = (Ok b, log').
Proof.
  unfold bind. destruct (m log) as [[a|e] log1]; [eauto | discriminate].
Qed.

Lemma lift_ok {A : Type} (r : result A) (log log' : list request) (a : A) :
  lift r log = (Ok a, log') -> r = Ok a /\ log' = log.
Proof. unfold lift. now intros [= -> ->]. Qed.

Lemma rbind_ok {A B : Type} (r : result A) (k : A -> result B) (b : B) :
  rbind r k = Ok b -> exists a, r = Ok a /\ k a = Ok b.
Proof. destruct r as [a|e]; cbn; [eauto | discriminate]. Qed.

(** ** Attempts *)

Section AttemptFacts.

Variable py_repr : json -> string.
Variable server : list request -> request -> outcome.

Lemma count_submissions_cases (challenge_id : json) (l : list json) :
  (exists n, count_submissions challenge_id l = Ok n /\ 0 <= n)
  \/ count_submissions challenge_id l = Raise AttributeError.
Proof.
  induction l as [|s l IH]; cbn [count_submissions]; [left; exists 0; split; [reflexivity | lia]|].
  destruct s as [| | | | |kv]; cbn [py_get rbind]; try now right.
  destruct IH as [(n & -> & Hn) | ->]; cbn [rbind]; [|now right].
  left. destruct (py_eq _ challenge_id); eexists; split; try reflexivity; lia.
Qed.

Lemma py_len_cases (v : json) :
  (exists n, py_len v = Ok n /\ 0 <= n) \/ py_len v = Raise TypeError.
Proof.
  destruct v; cbn; try (now right); left; eexists; split; try reflexivity; lia.
Qed.

(** The two ways a run of [get_challenge_attempts] can go. *)
Lemma get_challenge_attempts_cases (c : CTFdClient) (challenge_id : json)
    (log : list request) :
  let q1 := build_request c "GET"
              ("/challenges/" ++ py_str py_repr challenge_id ++ "/attempts") None in
  let q2 := build_request c "GET" "/submissions/me" None in
  let run := get_challenge_attempts py_repr server c challenge_id log in
  (snd run = (log ++ [q1])%list
   \/ (snd run = (log ++ [q1; q2])%list
       /\ exists msg,
            fst (_make_request py_repr server c "GET"
                   ("/challenges/" ++ py_str py_repr challenge_id ++ "/attempts")
                   None log)
            = Raise (CTFdAPIError msg)))
  /\ ((exists n, fst run = Ok n /\ 0 <= n)
      \/ fst run = Raise AttributeError \/ fst run = Raise TypeError).
Proof.
  intros q1 q2 run. subst run. unfold get_challenge_attempts, catch_api, bind.
  pose proof (make_request_log py_repr server c "GET"
                ("/challenges/" ++ py_str py_repr challenge_id ++ "/attempts")
                None log) as Hl.
  pose proof (make_request_raises py_repr server c "GET"
                ("/challenges/" ++ py_str py_repr challenge_id ++ "/attempts")
                None log) as Hr.
  destruct (_make_request py_repr server c "GET"
              ("/challenges/" ++ py_str py_repr challenge_id ++ "/attempts") None log)
    as [[data|e] log1]; cbn [fst snd] in Hl, Hr; subst log1; fold q1.
  - assert (Hzero : forall l : list request,
               snd (ret (A := Z) 0 l) = l
               /\ ((exists n, fst (ret (A := Z) 0 l) = Ok n /\ 0 <= n)
                   \/ fst (ret (A := Z) 0 l) = Raise AttributeError
                   \/ fst (ret (A := Z) 0 l) = Raise TypeError)).
    { intros l. split; [reflexivity|]. left. exists 0. split; [reflexivity | lia]. }
    destruct data as [| | | |items|kv];
      try (destruct (Hzero (log ++ [q1])%list) as [H1 H2];
           cbn [ret] in *; split; [now left | exact H2]).
    + cbn [ret fst snd]. split; [now left|]. left. eexists. split; [reflexivity | lia].
    + destruct (assoc "attempts" kv) as [attempts|].
      * unfold lift.
        destruct (py_len_cases attempts) as [(n & -> & Hn) | ->]; cbn [fst snd];
          (split; [now left|]); [left; eauto | right; now right].
      * cbn [ret fst snd]. split; [now left|]. left. exists 0. split; [reflexivity | lia].
  - destruct (Hr e eq_refl) as [[msg ->] | ->].
    + pose proof (make_request_log py_repr server c "GET" "/submissions/me" None
                    (log ++ [q1])%list) as Hl2.
      pose proof (make_request_raises py_repr server c "GET" "/submissions/me" None
                    (log ++ [q1])%list) as Hr2.
      destruct (_make_request py_repr server c "GET" "/submissions/me" None
                  (log ++ [q1])%list)
        as [[data|e] log2]; cbn [fst snd] in Hl2, Hr2; subst log2; fold q2.
      * assert (Hlog : ((log ++ [q1]) ++ [q2])%list = (log ++ [q1; q2])%list)
          by now rewrite <- app_assoc.
        destruct data as [| | | |items|kv]; cbn [ret lift fst snd];
          try (split; [right; split; [exact Hlog | eauto]
                      | left; exists 0; split; [reflexivity | lia]]).
        destruct (count_submissions_cases challenge_id items) as [(n & -> & Hn) | ->];
          cbn [fst snd];
          (split; [right; split; [exact Hlog | eauto]|]);
          [left; eauto | right; now left].
      * assert (Hlog : ((log ++ [q1]) ++ [q2])%list = (log ++ [q1; q2])%list)
          by now rewrite <- app_assoc.
        destruct (Hr2 e eq_refl) as [[msg2 ->] | ->]; cbn [ret fst snd];
          (split; [right; split; [exact Hlog | eauto]|]);
          [left; exists 0; split; [reflexivity | lia] | right; now left].
    + cbn [fst snd]. split; [now left | right; now left].
Qed.

(** X12: [get_challenge_attempts] issues one request, or two when the
    attempts endpoint raised [CTFdAPIError]; it never lets a
    [CTFdAPIError] out, a count it returns is never negative, and when
    both endpoints raise [CTFdAPIError] the count is 0. *)
Theorem get_challenge_attempts_run (c : CTFdClient) (challenge_id : json)
    (log : list request) :
  let q1 := build_request c "GET"
              ("/challenges/" ++ py_str py_repr challenge_id ++ "/attempts") None in
  let q2 := build_request c "GET" "/submissions/me" None in
  let run := get_challenge_attempts py_repr server c challenge_id log in
  (snd run = (log ++ [q1])%list
   \/ (snd run = (log ++ [q1; q2])%list
       /\ exists msg,
            fst (_make_request py_repr server c "GET"
                   ("/challenges/" ++ py_str py_repr challenge_id ++ "/attempts")
                   None log)
            = Raise (CTFdAPIError msg)))
  /\ ((exists n, fst run = Ok n /\ 0 <= n)
      \/ fst run = Raise AttributeError \/ fst run = Raise TypeError)
  /\ (forall m1 m2,
        fst (_make_request py_repr server c "GET"
               ("/challenges/" ++ py_str py_repr challenge_id ++ "/attempts") None log)
        = Raise (CTFdAPIError m1) ->
        fst (_make_request py_repr server c "GET" "/submissions/me" None
               (log ++ [q1])%list)
        = Raise (CTFdAPIError m2) ->
        run = (Ok 0, (log ++ [q1; q2])%list)).
Proof.
  intros q1 q2 run.
  destruct (get_challenge_attempts_cases c challenge_id log) as [H1 H2].
  split; [exact H1|]. split; [exact H2|].
  intros m1 m2 E1 E2. subst run. unfold get_challenge_attempts, catch_api, bind.
  pose proof (make_request_log py_repr server c "GET"
                ("/challenges/" ++ py_str py_repr challenge_id ++ "/attempts")
                None log) as Hl.
  destruct (_make_request py_repr server c "GET"
              ("/challenges/" ++ py_str py_repr challenge_id ++ "/attempts") None log)
    as [res log1]; cbn [fst snd] in Hl, E1; subst res log1. fold q1.
  pose proof (make_request_log py_repr server c "GET" "/submissions/me" None
                (log ++ [q1])%list) as Hl2.
  destruct (_make_request py_repr server c "GET" "/submissions/me" None
              (log ++ [q1])%list)
    as [res log2]; cbn [fst snd] in Hl2, E2; subst res log2.
  cbn [ret]. now rewrite <- app_assoc.
Qed.

End AttemptFacts.

(** ** Listing the challenges *)

Section ChallengeFacts.

Variable py_repr : json -> string.
Variable server : list request -> request -> outcome.
Variable Challenge : Type.
Variable Challenge_new : list (string * json) -> option Challenge.

(** A challenge that is fetched costs two or three requests. *)
Lemma fetch_challenge_requests (c : CTFdClient) (challenge_data : json)
    (log log' : list request) (ch : Challenge) :
  fetch_challenge py_repr server Challenge Challenge_new c challenge_data log
  = (Ok ch, log') ->
  exists l, log' = (log ++ l)%list /\ (2 <= List.length l <= 3)%nat.
Proof.
  unfold fetch_challenge. intros H.
  apply bind_ok in H as (listed_id & l0 & H0 & H). apply lift_ok in H0 as [_ ->].
  apply bind_ok in H as (detailed & l1 & H1 & H).
  pose proof (make_request_log py_repr server c "GET"
                ("/challenges/" ++ py_str py_repr listed_id) None log) as Hl1.
  rewrite H1 in Hl1. cbn [snd] in Hl1. subst l1.
  apply bind_ok in H as (from_detail & l2 & H2 & H). apply lift_ok in H2 as [_ ->].
  apply bind_ok in H as (solved & l3 & H3 & H). apply lift_ok in H3 as [_ ->].
  apply bind_ok in H as (detailed_id & l4 & H4 & H). apply lift_ok in H4 as [_ ->].
  apply bind_ok in H as (attempts & l5 & H5 & H).
  apply bind_ok in H as (kwargs & l6 & H6 & H). apply lift_ok in H6 as [_ ->].
  apply lift_ok in H as [_ ->].
  destruct (get_challenge_attempts_cases py_repr server c detailed_id
              (log ++ [build_request c "GET"
                         ("/challenges/" ++ py_str py_repr listed_id) None])%list)
    as [Hlog _].
  cbv zeta in Hlog. rewrite H5 in Hlog. cbn [snd] in Hlog.
  destruct Hlog as [-> | [-> _]]; rewrite <- app_assoc; eexists; split;
    try reflexivity; cbn; lia.
Qed.

Lemma fetch_challenges_requests (c : CTFdClient) (items : list json) :
  forall (log log' : list request) (cs : list Challenge),
    fetch_challenges py_repr server Challenge Challenge_new c items log = (Ok cs, log') ->
    List.length cs = List.length items
    /\ exists l, log' = (log ++ l)%list
                 /\ (2 * List.length items <= List.length l <= 3 * List.length items)%nat.
Proof.
  induction items as [|x items IH]; intros log log' cs; cbn [fetch_challenges].
  - intros [= <- <-]. split; [reflexivity|]. exists []. rewrite app_nil_r.
    split; [reflexivity | cbn; lia].
  - intros H. apply bind_ok in H as (ch & l1 & H1 & H).
    apply bind_ok in H as (chs & l2 & H2 & H). injection H as <- <-.
    apply fetch_challenge_requests in H1 as (la & -> & Hla).
    apply IH in H2 as (Hlen & lb & -> & Hlb).
    split; [cbn; congruence|].
    exists (la ++ lb)%list. rewrite app_assoc. split; [reflexivity|].
    rewrite length_app. cbn [List.length]. lia.
Qed.

(** X13: when [get_challenges] returns, it returns one challenge for each
    item of the list that the platform sent, and it has issued the list
    request followed by two or three requests for each of these items:
    between 1 + 2N and 1 + 3N requests for N challenges. *)
Theorem get_challenges_requests (c : CTFdClient) (log log' : list request)
    (cs : list Challenge) :
  get_challenges py_repr server Challenge Challenge_new c log = (Ok cs, log') ->
  exists data items l,
    _make_request py_repr server c "GET" "/challenges" None log
    = (Ok data, (log ++ [build_request c "GET" "/challenges" None])%list)
    /\ py_iter data = Ok items
    /\ List.length cs = List.length items
    /\ log' = (log ++ build_request c "GET" "/challenges" None :: l)%list
    /\ (2 * List.length items <= List.length l <= 3 * List.length items)%nat.
Proof.
  unfold get_challenges. intros H.
  apply bind_ok in H as (data & l1 & H1 & H).
  pose proof (make_request_log py_repr server c "GET" "/challenges" None log) as Hl1.
  rewrite H1 in Hl1. cbn [snd] in Hl1. subst l1.
  apply bind_ok in H as (items & l2 & H2 & H). apply lift_ok in H2 as [H2 ->].
  apply fetch_challenges_requests in H as (Hlen & l & -> & Hl).
  exists data, items, l. rewrite <- app_assoc. repeat split; try assumption; lia.
Qed.

End ChallengeFacts.

(** ** Who solved what *)

Section SolverFacts.

Variable py_repr : json -> string.
Variable server : list request -> request -> outcome.

Lemma listed_solvers_append (challenge_id member_id : json) (d : solvers_dict)
    (m : json) :
  listed (solvers_append challenge_id member_id d) m -> listed d m \/ m = member_id.
Proof.
  induction d as [|[k ms] d IH]; cbn [solvers_append].
  - intros (k' & ms' & [[= <- <-] | []] & [<- | []]). now right.
  - destruct (py_eq k challenge_id).
    + intros (k' & ms' & [[= <- <-] | Hin] & Hm).
      * apply in_app_or in Hm as [Hm | [<- | []]]; [|now right].
        left. exists k, ms. split; [now left | exact Hm].
      * left. exists k', ms'. split; [now right | exact Hm].
    + intros (k' & ms' & [[= <- <-] | Hin] & Hm).
      * left. exists k, ms. split; [now left | exact Hm].
      * destruct IH as [(k2 & ms2 & H2 & Hm2) | ->]; [now exists k', ms' | | now right].
        left. exists k2, ms2. split; [now right | exact Hm2].
Qed.

Lemma listed_record_solves (member_id : json) (solves : list json) :
  forall (d d' : solvers_dict) (m : json),
    record_solves member_id solves d = Ok d' ->
    listed d' m -> listed d m \/ m = member_id.
Proof.
  induction solves as [|cid solves IH]; intros d d' m; cbn [record_solves].
  - intros [= <-]. now left.
  - destruct (hashable cid); [|discriminate]. intros H Hl.
    destruct (IH _ _ m H Hl) as [Hl' | ->]; [|now right].
    now apply listed_solvers_append in Hl'.
Qed.

(** [get_team_member_solves] issues exactly one request and never ends in
    [CTFdAPIError]. *)
Lemma get_team_member_solves_run (c : CTFdClient) (user_id : json)
    (log : list request) :
  snd (get_team_member_solves py_repr server c user_id log)
  = (log ++ [build_request c "GET" ("/users/" ++ py_str py_repr user_id ++ "/solves")
               None])%list
  /\ forall msg, fst (get_team_member_solves py_repr server c user_id log)
                 = Raise (CTFdAPIError msg) -> False.
Proof.
  unfold get_team_member_solves, catch_api, bind, lift.
  pose proof (make_request_log py_repr server c "GET"
                ("/users/" ++ py_str py_repr user_id ++ "/solves") None log) as Hl.
  pose proof (make_request_raises py_repr server c "GET"
                ("/users/" ++ py_str py_repr user_id ++ "/solves") None log) as Hr.
  destruct (_make_request py_repr server c "GET"
              ("/users/" ++ py_str py_repr user_id ++ "/solves") None log)
    as [[data|e] log1]; cbn [fst snd] in Hl, Hr; subst log1.
  - destruct (rbind (py_iter data) _) as [ids|[]]; cbn [ret fst snd];
      split; try reflexivity; discriminate.
  - destruct (Hr e eq_refl) as [[msg ->] | ->]; cbn [ret fst snd];
      split; try reflexivity; discriminate.
Qed.

Lemma collect_solvers_run (c : CTFdClient) (members : list json) :
  forall (d d' : solvers_dict) (log log' : list request),
    collect_solvers py_repr server c members d log = (Ok d', log') ->
    List.length log' = (List.length log + List.length members)%nat
    /\ forall m, listed d' m -> listed d m \/ In m members.
Proof.
  induction members as [|mid members IH]; intros d d' log log'; cbn [collect_solvers].
  - intros [= <- <-]. split; [cbn; lia | now left].
  - intros H. apply bind_ok in H as (d1 & l1 & H1 & H).
    apply IH in H as [Hlen Hl].
    unfold catch_api, bind, lift in H1.
    destruct (get_team_member_solves_run c mid log) as [Hlog Hno].
    destruct (get_team_member_solves py_repr server c mid log)
      as [[solves|e] l0] eqn:G; cbn [fst snd] in Hlog, Hno; subst l0.
    + destruct (record_solves mid solves d) as [d2|e2] eqn:R.
      * injection H1 as <- <-. split; [rewrite Hlen, length_app; cbn; lia|].
        intros m Hm. destruct (Hl m Hm) as [Hm' | Hin]; [|right; now right].
        destruct (listed_record_solves _ _ _ _ m R Hm') as [? | ->];
          [now left | right; now left].
      * destruct e2; try discriminate. injection H1 as <- <-.
        split; [rewrite Hlen, length_app; cbn; lia|].
        intros m Hm. destruct (Hl m Hm) as [Hm' | Hin]; [now left | right; now right].
    + destruct e; try discriminate. exfalso. exact (Hno msg eq_refl).
Qed.

Lemma record_solves_raises (member_id : json) (solves : list json) :
  forall (d : solvers_dict) (e : exn),
    record_solves member_id solves d = Raise e -> e = TypeError.
Proof.
  induction solves as [|x solves IH]; intros d e; cbn [record_solves];
    [discriminate|].
  destruct (hashable x); [apply IH | now intros [= <-]].
Qed.

Lemma collect_solvers_no_api_error (c : CTFdClient) (members : list json) :
  forall (d : solvers_dict) (log : list request) (msg : string),
    fst (collect_solvers py_repr server c members d log) = Raise (CTFdAPIError msg) ->
    False.
Proof.
  induction members as [|mid members IH]; intros d log msg; cbn [collect_solvers];
    [discriminate|].
  unfold bind at 1. unfold catch_api, bind, lift.
  destruct (get_team_member_solves_run c mid log) as [_ Hno].
  destruct (get_team_member_solves py_repr server c mid log)
    as [[solves|e] l]; cbn [fst] in Hno.
  - destruct (record_solves mid solves d) as [d2|e2] eqn:R; [apply IH|].
    apply record_solves_raises in R. subst e2. discriminate.
  - destruct e; try discriminate. exfalso. exact (Hno msg0 eq_refl).
Qed.

(** X14: when [get_challenge_solvers] returns, either the team request
    raised [CTFdAPIError], and the result is empty after that one request,
    or the team has N members, 1 + N requests were issued, and every
    solver listed for any challenge is one of these members. *)
Theorem get_challenge_solvers_run (c : CTFdClient) (log log' : list request)
    (d : solvers_dict) :
  get_challenge_solvers py_repr server c log = (Ok d, log') ->
  ((exists msg, fst (_make_request py_repr server c "GET" "/teams/me" None log)
                = Raise (CTFdAPIError msg))
   /\ d = [] /\ log' = (log ++ [build_request c "GET" "/teams/me" None])%list)
  \/ exists team_data members member_ids,
       fst (_make_request py_repr server c "GET" "/teams/me" None log) = Ok team_data
       /\ py_get team_data "members" (JArr []) = Ok members
       /\ py_iter members = Ok member_ids
       /\ List.length log' = (List.length log + 1 + List.length member_ids)%nat
       /\ forall m, listed d m -> In m member_ids.
Proof.
  unfold get_challenge_solvers, catch_api. intros H.
  pose proof (make_request_log py_repr server c "GET" "/teams/me" None log) as Hl.
  unfold bind at 1 in H.
  destruct (_make_request py_repr server c "GET" "/teams/me" None log)
    as [[team_data|e] l1] eqn:Hm; cbn [fst snd] in Hl |- *; subst l1.
  - right. unfold bind, lift in H.
    destruct (py_get team_data "members" (JArr [])) as [members|e1] eqn:G.
    + destruct (py_iter members) as [ids|e2] eqn:I.
      * pose proof (collect_solvers_no_api_error c ids []
                      (log ++ [build_request c "GET" "/teams/me" None])%list) as Hno.
        destruct (collect_solvers py_repr server c ids []
                    (log ++ [build_request c "GET" "/teams/me" None])%list)
          as [[d0|e0] l0] eqn:C; cbn [fst] in Hno.
        -- injection H as <- <-.
           apply collect_solvers_run in C as [Hlen Hlisted].
           exists team_data, members, ids. repeat split; try assumption.
           ++ rewrite Hlen, length_app. cbn. lia.
           ++ intros m Hmem.
              destruct (Hlisted m Hmem) as [(k & ms & [] & _) | Hin]. exact Hin.
        -- destruct e0; try discriminate. exfalso. exact (Hno msg eq_refl).
      * destruct members; cbn in I; try discriminate; injection I as <-;
          discriminate.
    + destruct team_data; cbn in G; try discriminate; injection G as <-;
        discriminate.
  - left. destruct e; try discriminate. injection H as <- <-.
    split; [eauto | split; reflexivity].
Qed.

End SolverFacts.

(** ** Search *)

Lemma lower_ascii_idempotent (a : ascii) :
  PyStr.lower_ascii (PyStr.lower_ascii a) = PyStr.lower_ascii a.
Proof. destruct a as [[] [] [] [] [] [] [] []]; reflexivity. Qed.

Lemma lower_idempotent (s : string) : PyStr.lower (PyStr.lower s) = PyStr.lower s.
Proof.
  induction s as [|a s IH]; [reflexivity|].
  cbn [PyStr.lower]. now rewrite lower_ascii_idempotent, IH.
Qed.

Lemma contains_empty (s : string) : PyStr.contains "" s = true.
Proof. destruct s; reflexivity. Qed.

(** The test of the list comprehension, as a boolean. *)
Lemma filter_by_name_filter (name : string) (entries found : list json) :
  filter_by_name name entries = Ok found ->
  found = filter (fun entry => match name_matches name entry with
                               | Ok true => true
                               | _ => false
                               end) entries
  /\ Forall (fun entry => exists b, name_matches name entry = Ok b) entries.
Proof.
  revert found. induction entries as [|x entries IH]; intros found; cbn [filter_by_name].
  - intros [= <-]. split; [reflexivity | constructor].
  - destruct (name_matches name x) as [keep|e] eqn:E; cbn [rbind]; [|discriminate].
    destruct (filter_by_name name entries) as [kept|e]; cbn [rbind]; [|discriminate].
    intros [= <-]. destruct (IH kept eq_refl) as [-> HF].
    split; [|constructor; eauto]. cbn [filter]. rewrite E. now destruct keep.
Qed.

Lemma filter_by_name_raises (name : string) (entries : list json) (e : exn) :
  filter_by_name name entries = Raise e -> e = AttributeError.
Proof.
  induction entries as [|x entries IH]; cbn [filter_by_name]; [discriminate|].
  unfold name_matches at 1.
  destruct x as [| | | | |kv]; cbn [py_get rbind]; try (now intros [= <-]).
  destruct (match assoc "name" kv with Some x => x | None => JStr "" end);
    cbn [rbind]; try (now intros [= <-]).
  destruct (filter_by_name name entries) as [kept|e0]; cbn [rbind];
    [discriminate|].
  intros [= <-]. now apply IH.
Qed.

Lemma filter_by_name_lower (name : string) (entries : list json) :
  filter_by_name (PyStr.lower name) entries = filter_by_name name entries.
Proof.
  induction entries as [|x entries IH]; [reflexivity|].
  cbn [filter_by_name]. rewrite IH. unfold name_matches.
  now rewrite lower_idempotent.
Qed.

Lemma filter_by_name_empty (entries : list json) :
  Forall named_entry entries -> filter_by_name "" entries = Ok entries.
Proof.
  induction 1 as [|x entries (kv & -> & Hn) _ IH]; [reflexivity|].
  cbn [filter_by_name]. rewrite IH. unfold name_matches. cbn [py_get rbind].
  destruct Hn as [-> | [s ->]]; cbn [PyStr.lower rbind];
    now rewrite contains_empty.
Qed.

Section SearchFacts.

Variable py_repr : json -> string.
Variable server : list request -> request -> outcome.

Ltac search_results_tac H :=
  unfold catch_api, bind in H;
  match type of H with
  | context [_make_request ?r ?s ?c ?m ?e ?k ?l] =>
      let Hl := fresh "Hl" in
      let Hr := fresh "Hr" in
      let data := fresh "data" in
      let err := fresh "err" in
      let log1 := fresh "log1" in
      let F := fresh "F" in
      pose proof (make_request_log r s c m e k l) as Hl;
      pose proof (make_request_raises r s c m e k l) as Hr;
      destruct (_make_request r s c m e k l) as [[data|err] log1];
      cbn [fst snd] in Hl, Hr |- *; subst log1;
      [ destruct data as [| | | |entries|kv]; cbn [ret lift] in H;
        try (injection H as <- <-; split; [reflexivity|]; right; split;
             [reflexivity | discriminate]);
        destruct (filter_by_name _ entries) as [kept|e'] eqn:F;
        [ injection H as <- <-; split; [reflexivity|]; left; exists entries;
          split; [reflexivity|]; now apply filter_by_name_filter in F
        | apply filter_by_name_raises in F; subst e'; discriminate H ]
      | destruct (Hr err eq_refl) as [[msg ->] | ->]; cbn [ret] in H;
        [|discriminate H];
        injection H as <- <-; split; [reflexivity|]; right; split;
        [reflexivity | discriminate] ]
  end.

(** X15: when [search_teams] or [search_users] returns, exactly one
    request was issued (GET /teams, GET /users), and the result is either
    the fetched list filtered, in its order, by the name test (the lower
    cased query occurs in the lower cased name), or empty when the
    platform did not send a list or the request raised [CTFdAPIError].
    Query and names are text of characters below U+0100, lower cased as
    [str.lower] does it there: A to Z and the Latin-1 capitals. *)
Theorem search_results (c : CTFdClient) (name : string) (log log' : list request)
    (found : list json) :
  (search_teams py_repr server c name log = (Ok found, log') ->
   log' = (log ++ [build_request c "GET" "/teams" None])%list
   /\ ((exists teams,
          fst (_make_request py_repr server c "GET" "/teams" None log) = Ok (JArr teams)
          /\ found = filter (fun entry => match name_matches name entry with
                                          | Ok true => true
                                          | _ => false
                                          end) teams)
       \/ (found = []
           /\ forall teams,
                fst (_make_request py_repr server c "GET" "/teams" None log)
                = Ok (JArr teams) -> False)))
  /\ (search_users py_repr server c name log = (Ok found, log') ->
      log' = (log ++ [build_request c "GET" "/users" None])%list
      /\ ((exists users,
             fst (_make_request py_repr server c "GET" "/users" None log) = Ok (JArr users)
             /\ found = filter (fun entry => match name_matches name entry with
                                             | Ok true => true
                                             | _ => false
                                             end) users)
          \/ (found = []
              /\ forall users,
                   fst (_make_request py_repr server c "GET" "/users" None log)
                   = Ok (JArr users) -> False))).
Proof.
  split; intros H.
  - unfold search_teams in H. search_results_tac H.
  - unfold search_users in H. search_results_tac H.
Qed.

(** X16: the empty query selects everything: when the platform sends a
    list whose entries are objects with a text name, or with no name,
    [search_teams] and [search_users] return that list unchanged. *)
Theorem search_empty_query (c : CTFdClient) (log : list request)
    (entries : list json) :
  Forall named_entry entries ->
  (fst (_make_request py_repr server c "GET" "/teams" None log) = Ok (JArr entries) ->
   fst (search_teams py_repr server c "" log) = Ok entries)
  /\ (fst (_make_request py_repr server c "GET" "/users" None log) = Ok (JArr entries) ->
      fst (search_users py_repr server c "" log) = Ok entries).
Proof.
  intros Hn. split; intros H.
  - unfold search_teams, catch_api, bind.
    destruct (_make_request py_repr server c "GET" "/teams" None log) as [res l].
    cbn [fst] in H. subst res. unfold lift. now rewrite (filter_by_name_empty _ Hn).
  - unfold search_users, catch_api, bind.
    destruct (_make_request py_repr server c "GET" "/users" None log) as [res l].
    cbn [fst] in H. subst res. unfold lift. now rewrite (filter_by_name_empty _ Hn).
Qed.

(** X17: the case of the query does not matter: for a query of characters
    below U+0100, searching for the lower cased query gives the same run
    as searching for the query itself. *)
Theorem search_ignores_query_case (c : CTFdClient) (name : string)
    (log : list request) :
  search_teams py_repr server c (PyStr.lower name) log
  = search_teams py_repr server c name log
  /\ search_users py_repr server c (PyStr.lower name) log
     = search_users py_repr server c name log.
Proof.
  split.
  - unfold search_teams, catch_api, bind.
    destruct (_make_request py_repr server c "GET" "/teams" None log) as [[data|e] l];
      [|reflexivity].
    destruct data; try reflexivity. unfold lift. now rewrite filter_by_name_lower.
  - unfold search_users, catch_api, bind.
    destruct (_make_request py_repr server c "GET" "/users" None log) as [[data|e] l];
      [|reflexivity].
    destruct data; try reflexivity. unfold lift. now rewrite filter_by_name_lower.
Qed.

End SearchFacts.

(** The name test on Latin-1 text: the query made of U+00E9 (small e with
    acute accent) and q finds the team whose name is U+00C9 (the capital
    letter) followed by quipe, and the query RED finds Red Team. *)
Example name_matches_latin1 :
  name_matches (String (ascii_of_nat 233) "q")
    (JObj [("id", JNum 1); ("name", JStr (String (ascii_of_nat 201) "quipe"))])
  = Ok true
  /\ name_matches "RED" (JObj [("id", JNum 1); ("name", JStr "Red Team")]) = Ok true
  /\ name_matches "x" (JObj [("id", JNum 1); ("name", JStr "Red Team")]) = Ok false.
Proof. repeat split. Qed.

Lemma get_challenges_requests_witness :
  exists data items l,
    _make_request Samples.repr Samples.deployment Samples.client "GET" "/challenges" None []
    = (Ok data, ([] ++ [build_request Samples.client "GET" "/challenges" None])%list)
    /\ py_iter data = Ok items
    /\ List.length
         match fst (get_challenges Samples.repr Samples.deployment _
                      Samples.kept_kwargs Samples.client []) with
         | Ok cs => cs
         | Raise _ => []
         end
       = List.length items
    /\ snd (get_challenges Samples.repr Samples.deployment _
              Samples.kept_kwargs Samples.client [])
       = ([] ++ build_request Samples.client "GET" "/challenges" None :: l)%list
    /\ (2 * List.length items <= List.length l <= 3 * List.length items)%nat.
Proof.
  apply (get_challenges_requests Samples.repr Samples.deployment _
           Samples.kept_kwargs Samples.client []).
  reflexivity.
Defined.

Lemma get_challenge_solvers_run_witness :
  ((exists msg,
      fst (_make_request Samples.repr Samples.deployment Samples.client
             "GET" "/teams/me" None [])
      = Raise (CTFdAPIError msg))
   /\ [(JNum 1, [JNum 10; JNum 11]); (JNum 3, [JNum 10])] = []
   /\ snd (get_challenge_solvers Samples.repr Samples.deployment Samples.client [])
      = ([] ++ [build_request Samples.client "GET" "/teams/me" None])%list)
  \/ exists team_data members member_ids,
       fst (_make_request Samples.repr Samples.deployment Samples.client
              "GET" "/teams/me" None [])
       = Ok team_data
       /\ py_get team_data "members" (JArr []) = Ok members
       /\ py_iter members = Ok member_ids
       /\ List.length
            (snd (get_challenge_solvers Samples.repr Samples.deployment Samples.client []))
          = (List.length (@nil request) + 1 + List.length member_ids)%nat
       /\ forall m,
            listed [(JNum 1, [JNum 10; JNum 11]); (JNum 3, [JNum 10])] m ->
            In m member_ids.
Proof.
  apply (get_challenge_solvers_run Samples.repr Samples.deployment Samples.client []).
  reflexivity.
Defined.

Lemma search_empty_query_witness :
  fst (search_teams Samples.repr Samples.deployment Samples.client "" [])
  = Ok [ JObj [("id", JNum 1); ("name", JStr "Red Team")];
         JObj [("id", JNum 2); ("name", JStr "blue")];
         JObj [("id", JNum 3)] ].
Proof.
  apply (search_empty_query Samples.repr Samples.deployment Samples.client []).
  - repeat constructor.
    + exists [("id", JNum 1); ("name", JStr "Red Team")].
      split; [reflexivity | right; eexists; reflexivity].
    + exists [("id", JNum 2); ("name", JStr "blue")].
      split; [reflexivity | right; eexists; reflexivity].
    + exists [("id", JNum 3)]. split; [reflexivity | now left].
  - reflexivity.
Defined.

(** A search of the sample deployment: the query "RED" finds "Red Team". *)
Example search_teams_finds_red :
  fst (search_teams Samples.repr Samples.deployment Samples.client "RED" [])
  = Ok [ JObj [("id", JNum 1); ("name", JStr "Red Team")] ].
Proof. reflexivity. Qed.

(** ** Helpers *)

(** X18: from one hour on [format_duration] does not show the seconds,
    and from one day on it does not show the minutes either: durations
    that differ only there are formatted alike. *)
Theorem format_duration_precision (seconds : Z) :
  (3600 <= seconds ->
   Helpers.format_duration seconds
   = Helpers.format_duration (seconds - seconds mod 60))
  /\ (86400 <= seconds ->
      Helpers.format_duration seconds
      = Helpers.format_duration (seconds - seconds mod 3600)).
Proof.
  unfold Helpers.format_duration. split; intros H.
  - assert (H60 : 3600 <= seconds - seconds mod 60)
      by (Z.div_mod_to_equations; lia).
    assert (Hd : ((seconds - seconds mod 60) <? 86400) = (seconds <? 86400)).
    { destruct (Z.ltb_spec seconds 86400); destruct (Z.ltb_spec (seconds - seconds mod 60) 86400);
        try reflexivity; Z.div_mod_to_equations; lia. }
    assert (E1 : (seconds - seconds mod 60) / 3600 = seconds / 3600)
      by (Z.div_mod_to_equations; lia).
    assert (E2 : ((seconds - seconds mod 60) mod 3600) / 60 = (seconds mod 3600) / 60)
      by (Z.div_mod_to_equations; lia).
    assert (E3 : (seconds - seconds mod 60) / 86400 = seconds / 86400)
      by (Z.div_mod_to_equations; lia).
    assert (E4 : ((seconds - seconds mod 60) mod 86400) / 3600
                 = (seconds mod 86400) / 3600)
      by (Z.div_mod_to_equations; lia).
    rewrite Hd, E1, E2, E3, E4.
    destruct (Z.ltb_spec seconds 60); [lia|].
    destruct (Z.ltb_spec seconds 3600); [lia|].
    destruct (Z.ltb_spec (seconds - seconds mod 60) 60); [lia|].
    destruct (Z.ltb_spec (seconds - seconds mod 60) 3600); [lia|].
    reflexivity.
  - assert (H60 : 86400 <= seconds - seconds mod 3600)
      by (Z.div_mod_to_equations; lia).
    assert (E3 : (seconds - seconds mod 3600) / 86400 = seconds / 86400)
      by (Z.div_mod_to_equations; lia).
    assert (E4 : ((seconds - seconds mod 3600) mod 86400) / 3600
                 = (seconds mod 86400) / 3600)
      by (Z.div_mod_to_equations; lia).
    rewrite E3, E4.
    destruct (Z.ltb_spec seconds 60); [lia|].
    destruct (Z.ltb_spec seconds 3600); [lia|].
    destruct (Z.ltb_spec seconds 86400); [lia|].
    destruct (Z.ltb_spec (seconds - seconds mod 3600) 60); [lia|].
    destruct (Z.ltb_spec (seconds - seconds mod 3600) 3600); [lia|].
    destruct (Z.ltb_spec (seconds - seconds mod 3600) 86400); [lia|].
    reflexivity.
Qed.

Lemma string_length_append (a b : string) :
  String.length (a ++ b) = (String.length a + String.length b)%nat.
Proof. induction a as [|x a IH]; cbn; [reflexivity | now rewrite IH]. Qed.

Lemma substring_prefix_length (n : nat) (s : string) :
  (n <= String.length s)%nat ->
  String.length (String.substring 0 n s) = n
  /\ String.prefix (String.substring 0 n s) s = true.
Proof.
  revert n. induction s as [|a s IH]; intros [|n]; cbn; intros H; try lia;
    try (split; reflexivity).
  destruct (IH n ltac:(lia)) as [-> Hp]. split; [reflexivity|].
  now destruct (ascii_dec a a).
Qed.

(** X19: when the suffix is no longer than the limit, [truncate_text]
    returns a text no longer than the limit: the text itself when it fits,
    and otherwise a beginning of the text followed by the suffix, of
    exactly the limit's length. *)
Theorem truncate_text_bounded (text : string) (max_length : Z) (suffix : string) :
  Z.of_nat (String.length suffix) <= max_length ->
  (Z.of_nat (String.length text) <= max_length ->
   Helpers.truncate_text text max_length suffix = text)
  /\ (max_length < Z.of_nat (String.length text) ->
      exists head,
        Helpers.truncate_text text max_length suffix = head ++ suffix
        /\ String.prefix head text = true
        /\ Z.of_nat (String.length (Helpers.truncate_text text max_length suffix))
           = max_length).
Proof.
  intros Hs. unfold Helpers.truncate_text. split; intros H.
  - destruct (Z.leb_spec (Z.of_nat (String.length text)) max_length); [reflexivity | lia].
  - destruct (Z.leb_spec (Z.of_nat (String.length text)) max_length); [lia|].
    unfold Helpers.slice_to.
    destruct (Z.ltb_spec (max_length - Z.of_nat (String.length suffix)) 0); [lia|].
    rewrite Z.min_l by lia.
    destruct (substring_prefix_length
                (Z.to_nat (max_length - Z.of_nat (String.length suffix))) text
                ltac:(lia)) as [Hlen Hp].
    eexists. split; [reflexivity|]. split; [exact Hp|].
    rewrite string_length_append, Hlen. lia.
Qed.

Lemma truncate_text_bounded_witness :
  exists head,
    Helpers.truncate_text "abcdefgh" 6 "..." = head ++ "..."
    /\ String.prefix head "abcdefgh" = true
    /\ Z.of_nat (String.length (Helpers.truncate_text "abcdefgh" 6 "...")) = 6.
Proof.
  apply (truncate_text_bounded "abcdefgh" 6 "..."); cbn; lia.
Defined.

Lemma drop_while_suffix (p : ascii -> bool) (l : list ascii) :
  exists pre, l = (pre ++ Helpers.drop_while p l)%list.
Proof.
  induction l as [|a l [pre IH]]; [now exists []|].
  cbn [Helpers.drop_while]. destruct (p a); [|now exists []].
  exists (a :: pre). cbn. now rewrite <- IH.
Qed.

Lemma drop_while_head (p : ascii -> bool) (l : list ascii) (a : ascii)
    (rest : list ascii) :
  Helpers.drop_while p l = a :: rest -> p a = false.
Proof.
  induction l as [|x l IH]; cbn [Helpers.drop_while]; [discriminate|].
  destruct (p x) eqn:E; [exact IH | now intros [= <- _]].
Qed.

Lemma drop_while_forall (P : ascii -> Prop) (p : ascii -> bool) (l : list ascii) :
  Forall P l -> Forall P (Helpers.drop_while p l).
Proof.
  induction 1 as [|x l Hx H IH]; cbn [Helpers.drop_while]; [constructor|].
  destruct (p x); [exact IH | now constructor].
Qed.

Lemma strip_forall (P : ascii -> Prop) (p : ascii -> bool) (l : list ascii) :
  Forall P l -> Forall P (Helpers.strip p l).
Proof.
  intros H. unfold Helpers.strip.
  apply Forall_rev, drop_while_forall, Forall_rev, drop_while_forall, H.
Qed.

Lemma strip_head (p : ascii -> bool) (l : list ascii) (a : ascii) (rest : list ascii) :
  Helpers.strip p l = a :: rest -> p a = false.
Proof.
  unfold Helpers.strip. intros H.
  destruct (drop_while_suffix p (rev (Helpers.drop_while p l))) as [pre Hpre].
  apply (f_equal (@rev ascii)) in Hpre.
  rewrite rev_involutive, rev_app_distr, H in Hpre.
  cbn [app] in Hpre. exact (drop_while_head p l a _ Hpre).
Qed.

Lemma firstn_forall (P : ascii -> Prop) (n : nat) (l : list ascii) :
  Forall P l -> Forall P (firstn n l).
Proof.
  intros H. revert n. induction H as [|x l Hx H IH]; intros [|n]; cbn [firstn];
    constructor; auto.
Qed.

(** X20: whatever the name, [sanitize_filename] returns a usable path
    component: it is not empty, has at most 255 characters, contains none
    of the characters that the function replaces or removes (so no slash
    and no backslash), and does not begin with a dot or a space (so it is
    neither "." nor ".."). *)
Theorem sanitize_filename_safe (filename : string) :
  let r := list_ascii_of_string (Helpers.sanitize_filename filename) in
  (1 <= List.length r <= 255)%nat
  /\ Forall (fun a => Helpers.invalid_char a = false
                      /\ Helpers.control_char a = false) r
  /\ exists a rest, r = a :: rest /\ Helpers.space_or_dot a = false.
Proof.
  unfold Helpers.sanitize_filename. cbv zeta.
  rewrite list_ascii_of_string_of_list_ascii.
  set (replaced := map _ (list_ascii_of_string filename)).
  set (kept := filter _ replaced).
  set (stripped := Helpers.strip Helpers.space_or_dot kept).
  set (P := fun a => Helpers.invalid_char a = false /\ Helpers.control_char a = false).
  assert (Hkept : Forall P kept).
  { apply Forall_forall. intros a Ha. unfold kept in Ha.
    apply filter_In in Ha as [Ha Hc]. split; [|now apply negb_true_iff].
    unfold replaced in Ha. apply in_map_iff in Ha as (b & <- & _).
    destruct (Helpers.invalid_char b) eqn:E; [reflexivity | exact E]. }
  assert (Hstripped : Forall P stripped) by (apply strip_forall, Hkept).
  set (named := match stripped with
                | [] => list_ascii_of_string "unnamed"
                | _ :: _ => stripped
                end).
  assert (Hnamed : Forall P named
                   /\ exists a rest, named = a :: rest
                                     /\ Helpers.space_or_dot a = false).
  { unfold named. destruct stripped as [|a rest] eqn:E.
    - split; [repeat constructor | cbn; eauto].
    - split; [exact Hstripped|]. exists a, rest. split; [reflexivity|].
      exact (strip_head _ _ _ _ E). }
  destruct Hnamed as [HP (a & rest & Hn & Ha)].
  destruct (Nat.ltb_spec 255 (List.length named)) as [Hlong | Hshort].
  - split; [rewrite length_firstn; lia|].
    split; [now apply firstn_forall|].
    rewrite Hn. cbn [firstn]. eauto.
  - split; [rewrite Hn in *; cbn [List.length] in *; lia|].
    split; [exact HP | eauto].
Qed.

(** ** Where the fields of a challenge come from *)

Section ChallengeFieldFacts.

Variable py_repr : json -> string.
Variable server : list request -> request -> outcome.
Variable Challenge : Type.
Variable Challenge_new : list (string * json) -> option Challenge.

(** X21: a challenge that [get_challenges] builds takes its [id] from the
    detail response, its [solved_by_me] from the list entry when the entry
    has the key, else from the detail response, else false, and its
    [attempts] is a number that is never negative. *)
Theorem fetch_challenge_fields (c : CTFdClient) (challenge_data : json)
    (log log' : list request) (ch : Challenge) :
  fetch_challenge py_repr server Challenge Challenge_new c challenge_data log
  = (Ok ch, log') ->
  exists listed detailed kwargs attempts,
    challenge_data = JObj listed
    /\ (exists listed_id,
          assoc "id" listed = Some listed_id
          /\ fst (_make_request py_repr server c "GET"
                    ("/challenges/" ++ py_str py_repr listed_id) None log)
             = Ok (JObj detailed))
    /\ Challenge_new kwargs = Some ch
    /\ assoc "id" kwargs = assoc "id" detailed
    /\ assoc "solved_by_me" kwargs
       = Some match assoc "solved_by_me" listed with
              | Some flag => flag
              | None =>
                  match assoc "solved_by_me" detailed with
                  | Some flag => flag
                  | None => JBool false
                  end
              end
    /\ assoc "attempts" kwargs = Some (JNum attempts)
    /\ 0 <= attempts.
Proof.
  unfold fetch_challenge. intros H.
  apply bind_ok in H as (listed_id & l0 & H0 & H). apply lift_ok in H0 as [H0 ->].
  apply bind_ok in H as (detailed & l1 & H1 & H).
  apply bind_ok in H as (from_detail & l2 & H2 & H). apply lift_ok in H2 as [H2 ->].
  apply bind_ok in H as (solved & l3 & H3 & H). apply lift_ok in H3 as [H3 ->].
  apply bind_ok in H as (detailed_id & l4 & H4 & H). apply lift_ok in H4 as [H4 ->].
  apply bind_ok in H as (attempts & l5 & H5 & H).
  apply bind_ok in H as (kwargs & l6 & H6 & H). apply lift_ok in H6 as [H6 ->].
  apply lift_ok in H as [H ->].
  destruct challenge_data as [| | | | |listed]; try discriminate.
  destruct detailed as [| | | | |dkv]; try discriminate.
  cbn [py_getitem] in H0, H4. cbn [py_get] in H2, H3.
  destruct (assoc "id" listed) as [lid|] eqn:Elid; [|discriminate].
  injection H0 as ->. injection H2 as <-. injection H3 as <-.
  destruct (get_challenge_attempts_cases py_repr server c detailed_id l1) as [_ Hn].
  cbv zeta in Hn. rewrite H5 in Hn. cbn [fst] in Hn.
  destruct Hn as [(n & [= <-] & Hn) | [Hn | Hn]]; try discriminate.
  unfold challenge_kwargs in H6. cbn [py_getitem py_get] in H6.
  destruct (assoc "id" dkv) as [vid|] eqn:Eid; [|discriminate].
  destruct (assoc "name" dkv) as [vname|]; [|discriminate].
  destruct (assoc "description" dkv) as [vdesc|]; [|discriminate].
  destruct (assoc "category" dkv) as [vcat|]; [|discriminate].
  destruct (assoc "value" dkv) as [vval|]; [|discriminate].
  cbn [rbind] in H6. injection H6 as <-.
  exists listed, dkv. eexists. exists attempts.
  split; [reflexivity|]. split.
  { exists listed_id. split; [exact Elid|]. now rewrite H1. }
  split; [apply validated_ok in H; exact H|].
  rewrite Eid. repeat split; try reflexivity. exact Hn.
Qed.

End ChallengeFieldFacts.

Lemma fetch_challenge_fields_witness :
  exists listed detailed kwargs attempts,
    JObj [("id", JNum 1); ("solved_by_me", JBool true)] = JObj listed
    /\ (exists listed_id,
          assoc "id" listed = Some listed_id
          /\ fst (_make_request Samples.repr Samples.deployment Samples.client "GET"
                    ("/challenges/" ++ py_str Samples.repr listed_id) None [])
             = Ok (JObj detailed))
    /\ Samples.kept_kwargs kwargs
       = Some [("id", JNum 1); ("name", JStr "one");
               ("description", JStr "..."); ("category", JStr "web");
               ("value", JNum 100); ("tags", JArr []);
               ("state", JStr "visible"); ("max_attempts", JNull);
               ("type", JStr "standard"); ("solves", JNum 0);
               ("files", JArr []); ("hints", JArr []);
               ("solved_by_me", JBool true); ("attempts", JNum 2);
               ("connection_info", JNull)]
    /\ assoc "id" kwargs = assoc "id" detailed
    /\ assoc "solved_by_me" kwargs
       = Some match assoc "solved_by_me" listed with
              | Some flag => flag
              | None =>
                  match assoc "solved_by_me" detailed with
                  | Some flag => flag
                  | None => JBool false
                  end
              end
    /\ assoc "attempts" kwargs = Some (JNum attempts)
    /\ 0 <= attempts.
Proof.
  apply (fetch_challenge_fields Samples.repr Samples.deployment _ Samples.kept_kwargs
           Samples.client (JObj [("id", JNum 1); ("solved_by_me", JBool true)]) []
           [ build_request Samples.client "GET" "/challenges/1" None;
             build_request Samples.client "GET" "/challenges/1/attempts" None ]).
  reflexivity.
Defined.
